(** * Semantic Sonifier: the image-to-music pipeline, embedded and verified

    A shallow embedding of the orchestration code of the repository
    ([src/models/*.py], [src/utils/config.py], and the persistence step of
    [src/api/app.py] and [src/demo.py]) together with the properties its
    specification states about it.

    Conventions of the embedding.
    - Python [int] is [Z]; [Optional[int]] is [option Z]; [x or d] on such
      a value is [py_or].
    - Python [float] is Rocq's primitive binary64 [float]; comparisons and
      divisions are the IEEE ones ([PrimFloat.ltb], [PrimFloat.div]).
      Audio samples are [float32] in the source; every [float32] is a
      binary64 value and the special cases ([0/0], NaN ordering) coincide.
      The quotient [len(audio_array) / sample_rate] of two Python integers
      is kept as the exact rational ([Q]) that the Python float rounds.
    - Python [str] is [string]; [str.lower] is modelled on the ASCII
      letters and keeps every other character, which is enough for the
      keyword and mood tables of the source: they are ASCII.
    - A [dict] with string keys is a [gmap string value]; [mood_scores],
      whose order matters, is an association list in insertion order.
    - Exceptions are values of [exn]; code that can raise lives in the state
      and error monad [M], whose state survives a raise as Python's side
      effects do. Only subclasses of [Exception] are modelled.
    - The pretrained models, the image decoder and the file system are the
      collaborators of the pipeline: an instance of [Collaborators] gives
      each of their calls an outcome and a successor world. Logging has no
      effect on results and is left out; [TimingLogger] does not swallow
      exceptions, so [with TimingLogger(...)] blocks are transparent. *)

From Stdlib Require Import ZArith QArith String Ascii List Bool Lia.
From Stdlib Require Import Floats.PrimFloat Floats.SpecFloat Floats.FloatAxioms.
From Equations Require Import Equations.
From stdpp Require Import gmap strings.

Local Open Scope string_scope.
Local Open Scope Z_scope.

(** ** Python strings *)

Module PyStr.

(** [c.lower()] on one ASCII character. *)
Definition ascii_lower (c : ascii) : ascii :=
  let n := nat_of_ascii c in
  if (Nat.leb 65 n && Nat.leb n 90)%bool then ascii_of_nat (n + 32) else c.

(** [s.lower()]. *)
Fixpoint lower (s : string) : string :=
  match s with
  | EmptyString => EmptyString
  | String c s' => String (ascii_lower c) (lower s')
  end.

(** [s.startswith(p)]. *)
Fixpoint startswith (p s : string) : bool :=
  match p, s with
  | EmptyString, _ => true
  | String a p', String b s' => if Ascii.eqb a b then startswith p' s' else false
  | String _ _, EmptyString => false
  end.

(** [needle in hay] for two strings: [needle] occurs as a substring. *)
Fixpoint contains (needle hay : string) : bool :=
  startswith needle hay ||
  match hay with
  | EmptyString => false
  | String _ hay' => contains needle hay'
  end.

(** [x in xs] for a string and a list of strings. *)
Definition mem (x : string) (xs : list string) : bool :=
  existsb (String.eqb x) xs.

(** [sep.join(parts)]. *)
Fixpoint join (sep : string) (parts : list string) : string :=
  match parts with
  | [] => ""
  | [p] => p
  | p :: rest => p +:+ sep +:+ join sep rest
  end.

(** [bool(s)]: a string is truthy when it is not empty. *)
Definition truthy (s : string) : bool :=
  match s with EmptyString => false | String _ _ => true end.

End PyStr.

(** [x or d] for [x : Optional[int]]: [None] and [0] are falsy. *)
Definition py_or (x : option Z) (d : Z) : Z :=
  match x with
  | None => d
  | Some v => if v =? 0 then d else v
  end.

(** ** Exceptions and results *)

Inductive exn : Type :=
| RuntimeError (msg : string)
| UnidentifiedImageError (msg : string)
| FileNotFoundError (msg : string)
| KeyError (key : string)
| TypeError (msg : string)
| ValueError (msg : string)
| ZeroDivisionError (msg : string)
| OtherException (msg : string).

(** [isinstance(e, RuntimeError)]. *)
Definition is_RuntimeError (e : exn) : bool :=
  match e with RuntimeError _ => true | _ => false end.

(** [str(e)]. *)
Definition exn_str (e : exn) : string :=
  match e with
  | RuntimeError m | UnidentifiedImageError m | FileNotFoundError m
  | TypeError m | ValueError m | ZeroDivisionError m | OtherException m => m
  | KeyError k => k
  end.

(** The test ["out of memory" in str(e)] of both model wrappers. *)
Definition is_out_of_memory (e : exn) : bool :=
  PyStr.contains "out of memory" (exn_str e).

Inductive result (A : Type) : Type :=
| Ok (a : A)
| Raise (e : exn).
Arguments Ok {A} a.
Arguments Raise {A} e.

(** ** Configuration ([src/utils/config.py]) *)

Record AudioConfig := {
  sample_rate : Z;
  default_duration : Z;
  max_duration : Z;
  output_format : string
}.

Record ProjectConfig := {
  audio : AudioConfig
}.

(** The global [config = ProjectConfig()] with the dataclass defaults. *)
Definition config : ProjectConfig :=
  {| audio := {| sample_rate := 32000;
                 default_duration := 10;
                 max_duration := 30;
                 output_format := "wav" |} |}.

(** ** Values stored in the result dictionaries *)

Inductive value : Type :=
| VStr (s : string)
| VInt (z : Z)
| VRatio (q : Q)
| VScores (d : list (string * float))
| VAudio (a : list float).

(** ** The world of the collaborators *)

(** One invocation of the audio model, as the generator issues it: the
    text and the duration it works with, the token budget handed to the
    model, and the exception the invocation ended with, if any. *)
Record call := {
  call_prompt : string;
  call_duration : Z;
  call_max_new_tokens : Z;
  call_raised : option exn
}.

(** The calls of the pipeline to code outside the repository. [W] is the
    state of that outside world (weights, sampling randomness, memory
    pressure, files); every call may change it, and may raise. *)
Class Collaborators (W : Type) := {
  image : Type;
  (** [Path(image_path).exists()] *)
  path_exists : string -> W -> bool;
  (** [BLIP2Model.load_model], [CLIPMoodAnalyzer.load_model],
      [MusicGenerator.load_model] *)
  blip2_load : W -> result unit * W;
  clip_load : W -> result unit * W;
  musicgen_load : W -> result unit * W;
  (** [Image.open(image_path)] followed by the conversion to RGB *)
  image_open : string -> W -> result image * W;
  (** processor, [model.generate(max_length=...)], [batch_decode] and
      [strip] of [BLIP2Model.process] *)
  blip2_caption : image -> Z -> W -> result string * W;
  (** the body of the [try] of [CLIPMoodAnalyzer.process]: image loading,
      CLIP inference, [topk(top_k)] and the construction of the pair
      (primary mood, mood scores) *)
  clip_moods : string -> Z -> W -> result (string * list (string * float)) * W;
  (** processor, [model.generate(max_new_tokens=...)] and the extraction
      of the first channel of [MusicGenerator.process] *)
  musicgen_generate : string -> Z -> W -> result (list float) * W
}.

(** The mutable store of one [SemanticSonifier]: the outside world, the
    three lazily created model handles ([true] when the attribute is not
    [None]), and the history of the calls made to the audio model. *)
Record store (W : Type) := mkStore {
  ext : W;
  blip_model : bool;
  clip_analyzer : bool;
  music_generator : bool;
  synth_calls : list call
}.
Arguments mkStore {W}.
Arguments ext {W}.
Arguments blip_model {W}.
Arguments clip_analyzer {W}.
Arguments music_generator {W}.
Arguments synth_calls {W}.

(** ** The state and error monad *)

Definition M (W A : Type) : Type := store W -> result A * store W.

Definition ret {W A} (a : A) : M W A := fun s => (Ok a, s).

Definition raise {W A} (e : exn) : M W A := fun s => (Raise e, s).

Definition bind {W A B} (m : M W A) (k : A -> M W B) : M W B :=
  fun s => match m s with
           | (Ok a, s') => k a s'
           | (Raise e, s') => (Raise e, s')
           end.

(** [try: m  except Exception as e: h e]. *)
Definition try_except {W A} (m : M W A) (h : exn -> M W A) : M W A :=
  fun s => match m s with
           | (Ok a, s') => (Ok a, s')
           | (Raise e, s') => h e s'
           end.

(** A collaborator call, run on the outside world of the store. *)
Definition external {W A} (op : W -> result A * W) : M W A :=
  fun s => let '(r, w) := op (ext s) in
           (r, mkStore w (blip_model s) (clip_analyzer s) (music_generator s)
                       (synth_calls s)).

Notation "'let*' x ':=' m 'in' k" := (bind m (fun x => k))
  (at level 10, x pattern, m at level 100, k at level 200, only parsing).

(** ** The numpy operations of the normalisation *)

Module Numpy.

(** [np.maximum] on two samples: NaN wins, otherwise the larger one. *)
Definition maximum (a b : float) : float :=
  if PrimFloat.is_nan a then a
  else if PrimFloat.is_nan b then b
  else if PrimFloat.ltb a b then b else a.

(** [np.max(xs)]: an empty array has no maximum and raises. *)
Definition max (xs : list float) : result float :=
  match xs with
  | [] => Raise (ValueError "zero-size array to reduction operation maximum which has no identity")
  | x :: rest => Ok (fold_left maximum rest x)
  end.

(** [np.abs(xs)]. *)
Definition abs (xs : list float) : list float := map PrimFloat.abs xs.

(** [xs / m] for an array and a scalar: elementwise IEEE division;
    numpy warns on a zero divisor and does not raise. *)
Definition divide (xs : list float) (m : float) : list float :=
  map (fun x => PrimFloat.div x m) xs.

End Numpy.

(** ** [MusicGenerator] ([src/models/music_generator.py]) *)

Module MusicGenerator.
Section WithCollaborators.
Context {W : Type} {collab : Collaborators W}.

(** [self.sample_rate] and [self.default_duration], read from the
    configuration by the constructor. *)
Definition self_sample_rate : Z := sample_rate (audio config).
Definition self_default_duration : Z := default_duration (audio config).

(** The duration an attempt works with: [duration or
    self.default_duration], then the cap at [config.audio.max_duration]
    (the "Validate duration" step). *)
Definition validated_duration (duration : option Z) : Z :=
  let duration := py_or duration self_default_duration in
  if duration >? max_duration (audio config)
  then max_duration (audio config)
  else duration.

(** The invocation of the audio model inside the [try], recorded in the
    history of the store. *)
Definition generate (prompt : string) (duration : Z) : M W (list float) :=
  fun s =>
    let max_new_tokens := duration * 50 in
    let '(r, w) := musicgen_generate prompt max_new_tokens (ext s) in
    (r, mkStore w (blip_model s) (clip_analyzer s) (music_generator s)
                (synth_calls s ++
                 [{| call_prompt := prompt;
                     call_duration := duration;
                     call_max_new_tokens := max_new_tokens;
                     call_raised := match r with
                                    | Ok _ => None
                                    | Raise e => Some e
                                    end |}])).

(** [MusicGenerator.process(prompt, duration)]. The [except RuntimeError]
    handler calls [process] again with [duration // 2] when the message
    mentions "out of memory" and the validated duration exceeds 5; every
    other failure is raised again. *)
Equations? process (prompt : string) (duration : option Z) (s : store W)
  : result (list float * Z) * store W
  by wf (Z.to_nat (validated_duration duration)) lt :=
process prompt duration s with generate prompt (validated_duration duration) s => {
  | (Ok audio_array, s') := (Ok (audio_array, self_sample_rate), s');
  | (Raise e, s') with is_RuntimeError e := {
      | true with is_out_of_memory e := {
          | true with decide (validated_duration duration > 5) := {
              | left Hgt := process prompt (Some (validated_duration duration / 2)) s';
              | right _ := (Raise e, s') };
          | false := (Raise e, s') };
      | false := (Raise e, s') } }.
Proof.
  clear process. revert Hgt. unfold validated_duration, py_or.
  change (max_duration (audio config)) with 30.
  set (d0 := match duration with
             | Some v => if v =? 0 then self_default_duration else v
             | None => self_default_duration
             end).
  set (d := if d0 >? 30 then 30 else d0). intros Hgt.
  assert (Hd : d <= 30) by (subst d; destruct (Z.gtb_spec d0 30); lia).
  assert (Hlt : d / 2 < d) by (apply Z.div_lt; lia).
  assert (Hlo : 2 <= d / 2) by (apply Z.div_le_lower_bound; lia).
  destruct (Z.eqb_spec (d / 2) 0); [lia|].
  destruct (Z.gtb_spec (d / 2) 30); lia.
Qed.

(** [MusicGenerator.normalize_audio(audio_array)]: the peak normalisation
    with its [max_val > 0] guard. *)
Definition normalize_audio (audio_array : list float) : result (list float) :=
  match Numpy.max (Numpy.abs audio_array) with
  | Raise e => Raise e
  | Ok max_val =>
      if PrimFloat.ltb 0 max_val
      then Ok (Numpy.divide audio_array max_val)
      else Ok audio_array
  end.

(** [MusicGenerator.generate_with_emotion(prompt, mood, duration)]. *)
Definition generate_with_emotion (prompt mood : string) (duration : option Z)
  : M W (list float * Z) :=
  let enhanced_prompt := "A " +:+ mood +:+ " piece of music, " +:+ prompt in
  process enhanced_prompt duration.

End WithCollaborators.
End MusicGenerator.

(** ** [BLIP2Model] ([src/models/blip2_wrapper.py]) *)

Module BLIP2Model.
Section WithCollaborators.
Context {W : Type} {collab : Collaborators W}.

Definition self_max_length : Z := 100.

(** [BLIP2Model.process(image_path, max_length)]. The inner [try]
    returns the fallback caption for every failure of the image loading;
    the outer one raises a [RuntimeError] of the inference again and
    returns the fallback caption for every other exception. *)
Definition process (image_path : string) (max_length : option Z) : M W string :=
  let max_length := py_or max_length self_max_length in
  try_except
    (let* loaded :=
       try_except
         (let* image := external (image_open image_path) in ret (inr image))
         (fun e => match e with
                   | UnidentifiedImageError _ => ret (inl "an image")
                   | _ => ret (inl "an image")
                   end) in
     match loaded with
     | inl fallback => ret fallback
     | inr image => external (blip2_caption image max_length)
     end)
    (fun e => if is_RuntimeError e
              then raise e
              else ret "an image").

End WithCollaborators.
End BLIP2Model.

(** ** [CLIPMoodAnalyzer] ([src/models/clip_mood_analyzer.py]) *)

Module CLIPMoodAnalyzer.
Section WithCollaborators.
Context {W : Type} {collab : Collaborators W}.

(** [CLIPMoodAnalyzer.process(image_path, top_k=3)]: every exception of
    the analysis is replaced by the neutral mood with full confidence. *)
Definition process (image_path : string) (top_k : Z)
  : M W (string * list (string * float)) :=
  try_except
    (external (clip_moods image_path top_k))
    (fun _ => ret ("neutral", [("neutral", 1%float)])).

End WithCollaborators.
End CLIPMoodAnalyzer.

(** ** [PipelineComponent] ([src/models/base.py]) *)

Module PipelineComponent.

(** [safe_process]: run [process], log a failure and raise it again. *)
Definition safe_process {W A} (process : M W A) : M W A :=
  try_except process (fun e => raise e).

End PipelineComponent.

(** Reads of a result dictionary. [d[k]] raises [KeyError] on a missing
    key; the typed reads follow the annotations of the functions the value
    is handed to, and report a value of another type as a [TypeError]. *)
Definition getitem {W} (d : gmap string value) (k : string) : M W value :=
  match d !! k with
  | Some v => ret v
  | None => raise (KeyError k)
  end.

Definition getitem_str {W} (d : gmap string value) (k : string) : M W string :=
  let* v := getitem d k in
  match v with
  | VStr s => ret s
  | _ => raise (TypeError k)
  end.

Definition getitem_scores {W} (d : gmap string value) (k : string)
  : M W (list (string * float)) :=
  let* v := getitem d k in
  match v with
  | VScores sc => ret sc
  | _ => raise (TypeError k)
  end.

(** [a / b] on two Python integers: true division, [ZeroDivisionError] on
    a zero divisor. The quotient is kept exact. *)
Definition py_truediv (a b : Z) : result Q :=
  if b =? 0
  then Raise (ZeroDivisionError "division by zero")
  else Ok (inject_Z a / inject_Z b)%Q.

(** ** [ImageAnalyzer], [MusicOrchestrator] and [SemanticSonifier]
       ([src/models/sonifier.py]) *)

Module ImageAnalyzer.
Section WithCollaborators.
Context {W : Type} {collab : Collaborators W}.

(** [if self.blip_model is None: self.blip_model = BLIP2Model();
    self.blip_model.load_model()], and the same for the CLIP analyzer. *)
Definition init_blip_model : M W unit :=
  fun s =>
    if blip_model s then (Ok tt, s)
    else external blip2_load
           (mkStore (ext s) true (clip_analyzer s) (music_generator s) (synth_calls s)).

Definition init_clip_analyzer : M W unit :=
  fun s =>
    if clip_analyzer s then (Ok tt, s)
    else external clip_load
           (mkStore (ext s) (blip_model s) true (music_generator s) (synth_calls s)).

(** [ImageAnalyzer.process(image_path)]. *)
Definition process (image_path : string) : M W (gmap string value) :=
  let* _ := init_blip_model in
  let* _ := init_clip_analyzer in
  let* caption := BLIP2Model.process image_path None in
  let* (primary_mood, mood_scores) := CLIPMoodAnalyzer.process image_path 3 in
  ret ({[ "caption" := VStr caption;
          "primary_mood" := VStr primary_mood;
          "mood_scores" := VScores mood_scores;
          "image_path" := VStr image_path ]} : gmap string value).

End WithCollaborators.
End ImageAnalyzer.

Module MusicOrchestrator.

(** [any(word in caption_lower for word in words)]. *)
Definition any_word_in (words : list string) (caption_lower : string) : bool :=
  existsb (fun word => PyStr.contains word caption_lower) words.

(** The keyword lists of the three blocks of [_get_genre_hint]. *)
Definition nature_words : list string :=
  ["forest"; "mountain"; "ocean"; "river"; "nature"].
Definition urban_words : list string :=
  ["city"; "building"; "street"; "urban"].
Definition people_words : list string :=
  ["person"; "people"; "portrait"; "face"].

(** The three blocks of [_get_genre_hint]; [Some hint] is a [return hint]
    inside the block, [None] falls through to the code after it. *)
Definition nature_scenes (caption_lower mood_lower : string) : option string :=
  if any_word_in nature_words caption_lower then
    if PyStr.mem mood_lower ["peaceful"; "serene"; "calm"] then
      Some "ambient pads and gentle flutes"
    else if PyStr.mem mood_lower ["dramatic"; "intense"] then
      Some "epic orchestral strings and horns"
    else None
  else None.

Definition urban_scenes (caption_lower mood_lower : string) : option string :=
  if any_word_in urban_words caption_lower then
    if PyStr.mem mood_lower ["energetic"; "chaotic"] then
      Some "electronic beats and synth bass"
    else if PyStr.mem mood_lower ["melancholic"; "somber"] then
      Some "slow piano and distant city sounds"
    else None
  else None.

Definition people_portraits (caption_lower mood_lower : string) : option string :=
  if any_word_in people_words caption_lower then
    if PyStr.mem mood_lower ["happy"; "joyful"] then
      Some "upbeat acoustic guitar and light percussion"
    else if PyStr.mem mood_lower ["mysterious"; "dreamy"] then
      Some "ethereal vocals and reverbed textures"
    else None
  else None.

(** [MusicOrchestrator._get_genre_hint(caption, mood)]. *)
Definition _get_genre_hint (caption mood : string) : string :=
  let caption_lower := PyStr.lower caption in
  let mood_lower := PyStr.lower mood in
  match nature_scenes caption_lower mood_lower with
  | Some hint => hint
  | None =>
    match urban_scenes caption_lower mood_lower with
    | Some hint => hint
    | None =>
      match people_portraits caption_lower mood_lower with
      | Some hint => hint
      | None => ""
      end
    end
  end.

(** [mood_scores[key]] on the insertion-ordered dictionary. *)
Fixpoint scores_getitem (mood_scores : list (string * float)) (key : string)
  : result float :=
  match mood_scores with
  | [] => Raise (KeyError key)
  | (k, v) :: rest => if String.eqb k key then Ok v else scores_getitem rest key
  end.

(** The literal [0.2] of the confidence test: the binary64 value that
    Python reads it as. *)
Definition confidence_threshold : float := 0x1.999999999999ap-3%float.

(** The list [prompt_parts] of [_create_intelligent_prompt] just before
    the join. *)
Definition prompt_parts (caption primary_mood : string)
    (mood_scores : list (string * float)) : result (list string) :=
  let prompt_parts := ["A " +:+ primary_mood +:+ " piece of music for " +:+ caption] in
  let top_moods := take 2 (map fst mood_scores) in
  let with_second :=
    match top_moods with
    | _ :: second :: _ =>
        match scores_getitem mood_scores second with
        | Raise e => Raise e
        | Ok confidence =>
            if PrimFloat.ltb confidence_threshold confidence
            then Ok (prompt_parts ++ ["with elements of " +:+ second])%list
            else Ok prompt_parts
        end
    | _ => Ok prompt_parts
    end in
  match with_second with
  | Raise e => Raise e
  | Ok prompt_parts =>
      let genre_hint := _get_genre_hint caption primary_mood in
      if PyStr.truthy genre_hint
      then Ok (prompt_parts ++ [genre_hint])%list
      else Ok prompt_parts
  end.

(** [MusicOrchestrator._create_intelligent_prompt(caption, primary_mood,
    mood_scores)]. *)
Definition _create_intelligent_prompt (caption primary_mood : string)
    (mood_scores : list (string * float)) : result string :=
  match prompt_parts caption primary_mood mood_scores with
  | Raise e => Raise e
  | Ok parts => Ok (PyStr.join ", " parts)
  end.

Section WithCollaborators.
Context {W : Type} {collab : Collaborators W}.

(** [if self.music_generator is None: self.music_generator =
    MusicGenerator(); self.music_generator.load_model()]. *)
Definition init_music_generator : M W unit :=
  fun s =>
    if music_generator s then (Ok tt, s)
    else external musicgen_load
           (mkStore (ext s) (blip_model s) (clip_analyzer s) true (synth_calls s)).

Definition lift_result {A} (r : result A) : M W A :=
  match r with
  | Ok a => ret a
  | Raise e => raise e
  end.

(** [MusicOrchestrator.process(analysis_result, duration)]. *)
Definition process (analysis_result : gmap string value) (duration : option Z)
  : M W (gmap string value) :=
  let* _ := init_music_generator in
  let* caption := getitem_str analysis_result "caption" in
  let* primary_mood := getitem_str analysis_result "primary_mood" in
  let* mood_scores := getitem_scores analysis_result "mood_scores" in
  let* prompt := lift_result (_create_intelligent_prompt caption primary_mood mood_scores) in
  let* mood := getitem_str analysis_result "primary_mood" in
  let* (audio_array, sample_rate) :=
    MusicGenerator.generate_with_emotion prompt mood duration in
  let* duration_seconds :=
    lift_result (py_truediv (Z.of_nat (length audio_array)) sample_rate) in
  ret ({[ "audio_array" := VAudio audio_array;
          "sample_rate" := VInt sample_rate;
          "prompt_used" := VStr prompt;
          "duration_seconds" := VRatio duration_seconds ]} : gmap string value).

End WithCollaborators.
End MusicOrchestrator.

Module SemanticSonifier.
Section WithCollaborators.
Context {W : Type} {collab : Collaborators W}.

(** [SemanticSonifier.process_image(image_path, duration)]. The call of
    [initialize] only sets a flag and logs. *)
Definition process_image (image_path : string) (duration : option Z)
  : M W (gmap string value) :=
  fun s =>
    if negb (path_exists image_path (ext s))
    then raise (FileNotFoundError ("Image not found: " +:+ image_path)) s
    else
      (let* analysis_result :=
         PipelineComponent.safe_process (ImageAnalyzer.process image_path) in
       let* music_result :=
         PipelineComponent.safe_process
           (MusicOrchestrator.process analysis_result
              (Some (py_or duration (default_duration (audio config))))) in
       let final_result := music_result ∪ analysis_result in
       ret final_result) s.

End WithCollaborators.
End SemanticSonifier.

(** ** Persisting the audio ([src/api/app.py], [src/demo.py]) *)

Module SonifierService.

(** [audio_normalized = result['audio_array'] /
    np.max(np.abs(result['audio_array']))], the array handed to
    [wavfile.write]. [src/demo.py] has the same line. *)
Definition audio_normalized (audio_array : list float) : result (list float) :=
  match Numpy.max (Numpy.abs audio_array) with
  | Raise e => Raise e
  | Ok peak => Ok (Numpy.divide audio_array peak)
  end.

End SonifierService.

(** * Further code of the repository *)

(** ** [DeviceManager] ([src/utils/device_manager.py]) *)

Module DeviceManager.

(** What torch reports about the hardware: [torch.cuda.is_available()],
    [torch.cuda.device_count()], [torch.cuda.get_device_name(0)], and the
    test [hasattr(torch.backends, 'mps') and
    torch.backends.mps.is_available()]. *)
Record Torch := {
  cuda_is_available : bool;
  cuda_device_count : Z;
  cuda_get_device_name : string;
  mps_is_available : bool
}.

(** The values of the dictionary [available_devices]. *)
Inductive device_value : Type :=
| DBool (b : bool)
| DInt (n : Z)
| DStr (s : string).

(** [bool(v)] for such a value. *)
Definition truthy (v : device_value) : bool :=
  match v with
  | DBool b => b
  | DInt n => negb (n =? 0)
  | DStr s => PyStr.truthy s
  end.

(** [DeviceManager._detect_available_devices()]. *)
Definition _detect_available_devices (torch : Torch) : gmap string device_value :=
  let devices : gmap string device_value := ∅ in
  let devices := <["cuda" := DBool (cuda_is_available torch)]> devices in
  let devices :=
    if cuda_is_available torch then
      <["cuda_name" := DStr (cuda_get_device_name torch)]>
        (<["cuda_count" := DInt (cuda_device_count torch)]> devices)
    else devices in
  let devices := <["mps" := DBool (mps_is_available torch)]> devices in
  <["cpu" := DBool true]> devices.

(** The test [devices.get(key, False)]. *)
Definition get_or_false (devices : gmap string device_value) (key : string) : bool :=
  match devices !! key with
  | Some v => truthy v
  | None => false
  end.

(** [DeviceManager._select_preferred_device()]. The message logged in the
    CUDA branch reads [available_devices['cuda_name']], which raises
    [KeyError] when the key is missing. *)
Definition _select_preferred_device (available_devices : gmap string device_value)
  : result string :=
  if get_or_false available_devices "cuda" then
    match available_devices !! "cuda_name" with
    | Some _ => Ok "cuda"
    | None => Raise (KeyError "cuda_name")
    end
  else if get_or_false available_devices "mps" then Ok "mps"
  else Ok "cpu".

(** The attributes of a [DeviceManager]. *)
Record t := {
  device_preference : string;
  available_devices : gmap string device_value;
  preferred_device : string
}.

(** [DeviceManager.__init__(device_preference)]. *)
Definition __init__ (torch : Torch) (device_preference : string) : result t :=
  let available_devices := _detect_available_devices torch in
  match _select_preferred_device available_devices with
  | Raise e => Raise e
  | Ok preferred_device =>
      Ok {| device_preference := device_preference;
            available_devices := available_devices;
            preferred_device := preferred_device |}
  end.

(** [DeviceManager.get_device()]. *)
Definition get_device (self : t) : string :=
  if String.eqb (device_preference self) "auto" then
    preferred_device self
  else if match available_devices self !! device_preference self with
          | Some v => truthy v
          | None => false
          end then
    device_preference self
  else
    preferred_device self.

End DeviceManager.

(** ** [BaseModel.__init__] ([src/models/base.py]): the device of a model *)

Module BaseModel.

(** [config.models.device]. *)
Definition config_models_device : string := "auto".

(** [device or config.models.device] for [device : Optional[str]]: [None]
    and the empty string are falsy. *)
Definition device_or_default (device : option string) : string :=
  match device with
  | None => config_models_device
  | Some d => if PyStr.truthy d then d else config_models_device
  end.

(** The attribute [self.device] set by [BaseModel.__init__(model_name,
    device)]. *)
Definition __init__device (torch : DeviceManager.Torch) (device : option string)
  : result string :=
  let device_preference := device_or_default device in
  match DeviceManager.__init__ torch device_preference with
  | Raise e => Raise e
  | Ok device_manager => Ok (DeviceManager.get_device device_manager)
  end.

End BaseModel.

(** ** Batches ([src/models/blip2_wrapper.py], [src/models/sonifier.py]) *)

Module Batch.
Section WithCollaborators.
Context {W : Type} {collab : Collaborators W}.

(** The loop of [BLIP2Model.batch_process(image_paths)], from the captions
    collected so far; an exception of [process] leaves the loop. *)
Fixpoint blip2_loop (image_paths : list string) (captions : list string)
  : M W (list string) :=
  match image_paths with
  | [] => ret captions
  | image_path :: rest =>
      let* caption := BLIP2Model.process image_path None in
      blip2_loop rest (captions ++ [caption])%list
  end.

(** [BLIP2Model.batch_process(image_paths)]. *)
Definition blip2_batch_process (image_paths : list string) : M W (list string) :=
  blip2_loop image_paths [].

(** The loop of [SemanticSonifier.batch_process(image_paths, duration)],
    from the results collected so far; [None] is appended for an image
    whose processing raised. *)
Fixpoint sonifier_loop (image_paths : list string) (duration : option Z)
    (results : list (option (gmap string value)))
  : M W (list (option (gmap string value))) :=
  match image_paths with
  | [] => ret results
  | image_path :: rest =>
      let* results :=
        try_except
          (let* result := SemanticSonifier.process_image image_path duration in
           ret (results ++ [Some result])%list)
          (fun e => ret (results ++ [None])%list) in
      sonifier_loop rest duration results
  end.

(** [SemanticSonifier.batch_process(image_paths, duration)]. *)
Definition batch_process (image_paths : list string) (duration : option Z)
  : M W (list (option (gmap string value))) :=
  sonifier_loop image_paths duration [].

End WithCollaborators.
End Batch.

(** ** The HTTP service ([src/api/app.py]) *)

Module Api.

(** The part of an [UploadFile] the service reads. *)
Record UploadFile := {
  filename : string;
  content_type : string
}.

(** What the service did to the file system, in order. An operation is
    recorded when it returned. *)
Inductive fs_event : Type :=
| Uploaded (path : string)
| WavWritten (path : string) (rate : value) (samples : list float)
| Unlinked (path : string).

(** The calls of the service to code outside the repository, on the world
    of the pipeline. *)
Class FileSystem (W : Type) := {
  (** [str(uuid.uuid4())] *)
  uuid4 : W -> string * W;
  (** [open(image_path, "wb")], [await image_file.read()] and
      [buffer.write(content)] *)
  save_upload : string -> UploadFile -> W -> result unit * W;
  (** [wavfile.write(audio_path, rate, data)] *)
  wavfile_write : string -> value -> list float -> W -> result unit * W;
  (** [image_path.unlink()] *)
  unlink : string -> W -> result unit * W
}.

(** The state of the service: the store of its sonifier, which
    [get_sonifier] creates without model handles on first use, and the
    record of its file operations. *)
Record service (W : Type) := mkService {
  sonifier : store W;
  events : list fs_event
}.
Arguments mkService {W}.
Arguments sonifier {W}.
Arguments events {W}.

(** The [detail] of an [HTTPException], by the message it is formatted
    into: "File type ... not supported. Use JPEG or PNG.", "Duration must
    be between 1 and 30 seconds", "Processing failed: {str(e)}" and "Audio
    file not found". *)
Inductive detail : Type :=
| FileTypeNotSupported (content_type : string)
| DurationOutOfRange
| ProcessingFailed (e : exn)
| AudioFileNotFound.

(** The outcome of an endpoint: its return value or the [HTTPException]
    it raises. *)
Inductive response (A : Type) : Type :=
| Returned (a : A)
| HTTPException (status_code : Z) (detail_ : detail).
Arguments Returned {A} a.
Arguments HTTPException {A} status_code detail_.

(** The values of the dictionary returned by [process_image]. *)
Inductive json : Type :=
| JBool (b : bool)
| JStr (s : string)
| JValue (v : value).

(** [UPLOAD_DIR / name] and [OUTPUT_DIR / name], for a name that is a
    single path component. *)
Definition upload_path (name : string) : string := "uploads/" +:+ name.
Definition output_path (name : string) : string := "outputs/web_audio/" +:+ name.

(** The name of the audio file of a request: [f"{file_id}_generated.wav"]. *)
Definition audio_name (file_id : string) : string := file_id +:+ "_generated.wav".

Section WithCollaborators.
Context {W : Type} {collab : Collaborators W} {fs : FileSystem W}.

(** A step of the service on the outside world. *)
Definition io {A} (op : W -> result A * W) : service W -> result A * service W :=
  fun s =>
    let '(r, w) := op (ext (sonifier s)) in
    (r, mkService (mkStore w (blip_model (sonifier s)) (clip_analyzer (sonifier s))
                           (music_generator (sonifier s)) (synth_calls (sonifier s)))
                  (events s)).

(** The record of a file operation that returned. *)
Definition record_event (ev : fs_event) : service W -> service W :=
  fun s => mkService (sonifier s) (events s ++ [ev]).

(** [d[k]] on the merged record, and the read of its audio array. *)
Definition item (d : gmap string value) (k : string) : result value :=
  match d !! k with
  | Some v => Ok v
  | None => Raise (KeyError k)
  end.

(** The body of the [try] of [SonifierService.process_image(image_file,
    duration)]. *)
Definition process_image_body (image_file : UploadFile) (duration : Z)
  : service W -> result (gmap string json) * service W :=
  fun s =>
    let '(file_id, w) := uuid4 (ext (sonifier s)) in
    let s := mkService (mkStore w (blip_model (sonifier s)) (clip_analyzer (sonifier s))
                                (music_generator (sonifier s)) (synth_calls (sonifier s)))
                       (events s) in
    let image_path := upload_path (file_id +:+ "_" +:+ filename image_file) in
    let audio_path := output_path (audio_name file_id) in
    match io (save_upload image_path image_file) s with
    | (Raise e, s) => (Raise e, s)
    | (Ok _, s) =>
      let s := record_event (Uploaded image_path) s in
      match SemanticSonifier.process_image image_path (Some duration) (sonifier s) with
      | (Raise e, st) => (Raise e, mkService st (events s))
      | (Ok result_, st) =>
        let s := mkService st (events s) in
        match item result_ "audio_array" with
        | Raise e => (Raise e, s)
        | Ok (VAudio audio_array) =>
          match SonifierService.audio_normalized audio_array with
          | Raise e => (Raise e, s)
          | Ok audio_normalized =>
            match item result_ "sample_rate" with
            | Raise e => (Raise e, s)
            | Ok rate =>
              match io (wavfile_write audio_path rate audio_normalized) s with
              | (Raise e, s) => (Raise e, s)
              | (Ok _, s) =>
                let s := record_event (WavWritten audio_path rate audio_normalized) s in
                match io (unlink image_path) s with
                | (Raise e, s) => (Raise e, s)
                | (Ok _, s) =>
                  let s := record_event (Unlinked image_path) s in
                  match item result_ "caption", item result_ "primary_mood",
                        item result_ "prompt_used", item result_ "duration_seconds" with
                  | Ok caption, Ok mood, Ok prompt, Ok duration_seconds =>
                      (Ok ({[ "success" := JBool true;
                              "caption" := JValue caption;
                              "mood" := JValue mood;
                              "prompt" := JValue prompt;
                              "duration" := JValue duration_seconds;
                              "audio_file" := JStr (audio_name file_id);
                              "file_id" := JStr file_id ]} : gmap string json), s)
                  | Raise e, _, _, _ => (Raise e, s)
                  | _, Raise e, _, _ => (Raise e, s)
                  | _, _, Raise e, _ => (Raise e, s)
                  | _, _, _, Raise e => (Raise e, s)
                  end
                end
              end
            end
          end
        | Ok _ => (Raise (TypeError "audio_array"), s)
        end
      end
    end.

(** [SonifierService.process_image(image_file, duration)]: every exception
    of the body becomes an [HTTPException] with status 500. *)
Definition SonifierService_process_image (image_file : UploadFile) (duration : Z)
  : service W -> response (gmap string json) * service W :=
  fun s =>
    match process_image_body image_file duration s with
    | (Ok r, s') => (Returned r, s')
    | (Raise e, s') => (HTTPException 500 (ProcessingFailed e), s')
    end.

(** The endpoint [POST /process]: [process_image(image, duration)]. *)
Definition process_image (image : UploadFile) (duration : Z)
  : service W -> response (gmap string json) * service W :=
  fun s =>
    let allowed_types := ["image/jpeg"; "image/png"; "image/jpg"] in
    if negb (PyStr.mem (content_type image) allowed_types) then
      (HTTPException 400 (FileTypeNotSupported (content_type image)), s)
    else if ((duration <? 1) || (duration >? 30))%bool then
      (HTTPException 400 DurationOutOfRange, s)
    else
      SonifierService_process_image image duration s.

(** What [FileResponse] is built from. *)
Record FileResponse := {
  path : string;
  media_type : string;
  response_filename : string
}.

(** The endpoint [GET /audio/{file_id}]: [get_audio(file_id)]. *)
Definition get_audio (file_id : string) : service W -> response FileResponse :=
  fun s =>
    let audio_path := output_path (audio_name file_id) in
    if negb (path_exists audio_path (ext (sonifier s))) then
      HTTPException 404 AudioFileNotFound
    else
      Returned {| path := audio_path;
                  media_type := "audio/wav";
                  response_filename := "sonified_" +:+ file_id +:+ ".wav" |}.

End WithCollaborators.
End Api.

(** ** Saving and loading the configuration ([src/utils/config.py]) *)

Module ConfigFile.

(** The documents [yaml.dump] writes and [yaml.safe_load] returns, with
    the mappings restricted to string keys. *)
#[warnings="-register-all"]
Inductive yaml : Type :=
| YNull
| YBool (b : bool)
| YInt (z : Z)
| YFloat (f : float)
| YStr (s : string)
| YList (l : list yaml)
| YMap (m : gmap string yaml).

(** [type(y).__name__]. *)
Definition type_name (y : yaml) : string :=
  match y with
  | YNull => "NoneType"
  | YBool _ => "bool"
  | YInt _ => "int"
  | YFloat _ => "float"
  | YStr _ => "str"
  | YList _ => "list"
  | YMap _ => "dict"
  end.

Record ModelConfig := {
  blip2_model : string;
  clip_model : string;
  musicgen_model : string;
  device : string;
  torch_dtype : string;
  mood_tags : list string
}.

Record EvaluationConfig := {
  clap_model : string;
  emotion_models : gmap string string
}.

(** [ModelConfig()], [AudioConfig()] and [EvaluationConfig()]. *)
Definition ModelConfig_defaults : ModelConfig :=
  {| blip2_model := "Salesforce/blip2-opt-2.7b";
     clip_model := "openai/clip-vit-base-patch32";
     musicgen_model := "facebook/musicgen-small";
     device := "auto";
     torch_dtype := "float16";
     mood_tags := ["serene"; "happy"; "melancholic"; "energetic"; "peaceful";
                   "chaotic"; "mysterious"; "romantic"; "dramatic"; "calm";
                   "joyful"; "somber"; "intense"; "light"; "dark"; "dreamy"] |}.

Definition AudioConfig_defaults : AudioConfig := audio config.

Definition EvaluationConfig_defaults : EvaluationConfig :=
  {| clap_model := "laion/clap-htsat-unfused";
     emotion_models := {[ "image" := "miccunifi/emotic"; "audio" := "music-emotion" ]} |}.

(** What a section attribute of a [ProjectConfig] holds: the dataclass
    checks no types, so it is an object of the class of the section or
    whatever document was passed to the constructor. *)
Inductive attr (A : Type) : Type :=
| Obj (a : A)
| Doc (y : yaml).
Arguments Obj {A} a.
Arguments Doc {A} y.

Record ProjectConfig := {
  project_name : yaml;
  version : yaml;
  models : attr ModelConfig;
  audio : attr AudioConfig;
  evaluation : attr EvaluationConfig
}.

(** What the configuration code raises. *)
Inductive error : Type :=
(** the constructor called on the unpacked document: no mapping, or a
    keyword that is no field *)
| ConstructorTypeError
(** ['<type_name>' object has no attribute '<attribute>'] *)
| AttributeError (type_name attribute : string)
(** an exception of [open], [yaml.safe_load] or [yaml.dump] *)
| FileError (e : exn).

Inductive outcome (A : Type) : Type :=
| Done (a : A)
| Failed (e : error).
Arguments Done {A} a.
Arguments Failed {A} e.

#[global] Instance outcome_ret : MRet outcome := fun A a => Done a.
#[global] Instance outcome_bind : MBind outcome :=
  fun A B k m => match m with Done a => k a | Failed e => Failed e end.

(** [section.<name>] for a section attribute. *)
Definition getattr {A B} (section : attr A) (field : A -> B) (name : string)
  : outcome B :=
  match section with
  | Obj a => Done (field a)
  | Doc y => Failed (AttributeError (type_name y) name)
  end.

Definition fields : list string :=
  ["project_name"; "version"; "models"; "audio"; "evaluation"].

(** A section after [__post_init__]: [None] is replaced by the defaults. *)
Definition __post_init__ {A} (defaults : A) (given : option yaml) : attr A :=
  match given with
  | None | Some YNull => Obj defaults
  | Some y => Doc y
  end.

(** [ProjectConfig] called with the keywords [kwargs]: the generated
    [__init__] followed by [__post_init__]. *)
Definition __init__ (kwargs : gmap string yaml) : outcome ProjectConfig :=
  if bool_decide (dom kwargs ⊆ list_to_set fields)
  then Done {| project_name := default (YStr "semantic-sonifier") (kwargs !! "project_name");
               version := default (YStr "0.1.0") (kwargs !! "version");
               models := __post_init__ ModelConfig_defaults (kwargs !! "models");
               audio := __post_init__ AudioConfig_defaults (kwargs !! "audio");
               evaluation := __post_init__ EvaluationConfig_defaults
                               (kwargs !! "evaluation") |}
  else Failed ConstructorTypeError.

(** [cls] called on the unpacked [config_dict]. *)
Definition cls (config_dict : yaml) : outcome ProjectConfig :=
  match config_dict with
  | YMap kwargs => __init__ kwargs
  | _ => Failed ConstructorTypeError
  end.

(** The dictionary [save_config] builds from the global configuration;
    its entries are evaluated in the order of the source. *)
Definition config_dict (config : ProjectConfig) : outcome yaml :=
  blip2 ← getattr (models config) blip2_model "blip2_model";
  clip ← getattr (models config) clip_model "clip_model";
  musicgen ← getattr (models config) musicgen_model "musicgen_model";
  device_ ← getattr (models config) device "device";
  dtype ← getattr (models config) torch_dtype "torch_dtype";
  tags ← getattr (models config) mood_tags "mood_tags";
  rate ← getattr (audio config) sample_rate "sample_rate";
  default_ ← getattr (audio config) default_duration "default_duration";
  maximum ← getattr (audio config) max_duration "max_duration";
  format ← getattr (audio config) output_format "output_format";
  Done (YMap {[ "project_name" := project_name config;
                "version" := version config;
                "models" := YMap {[ "blip2_model" := YStr blip2;
                                    "clip_model" := YStr clip;
                                    "musicgen_model" := YStr musicgen;
                                    "device" := YStr device_;
                                    "torch_dtype" := YStr dtype;
                                    "mood_tags" := YList (map YStr tags) ]};
                "audio" := YMap {[ "sample_rate" := YInt rate;
                                   "default_duration" := YInt default_;
                                   "max_duration" := YInt maximum;
                                   "output_format" := YStr format ]} ]}).

(** The module-level [config = ProjectConfig()]. *)
Definition ProjectConfig_defaults : ProjectConfig :=
  {| project_name := YStr "semantic-sonifier";
     version := YStr "0.1.0";
     models := Obj ModelConfig_defaults;
     audio := Obj AudioConfig_defaults;
     evaluation := Obj EvaluationConfig_defaults |}.

(** The files of the configuration: [W] is the state of the disk. *)
Class YamlFiles (W : Type) := {
  (** [os.path.exists(config_path)] *)
  os_path_exists : string -> W -> bool;
  (** [open(config_path, 'r')] and [yaml.safe_load(f)] *)
  safe_load : string -> W -> result yaml * W;
  (** [open(config_path, 'w')] and [yaml.dump(config_dict, f, ...)] *)
  dump : yaml -> string -> W -> result unit * W
}.

(** The module-level [config] and the disk. *)
Record state (W : Type) := mkState {
  global_config : ProjectConfig;
  disk : W
}.
Arguments mkState {W}.
Arguments global_config {W}.
Arguments disk {W}.

Section WithFiles.
Context {W : Type} {yaml_files : YamlFiles W}.

(** [ProjectConfig.from_yaml(config_path)]. *)
Definition from_yaml (config_path : string) (w : W) : outcome ProjectConfig * W :=
  if os_path_exists config_path w then
    match safe_load config_path w with
    | (Ok document, w') => (cls document, w')
    | (Raise e, w') => (Failed (FileError e), w')
    end
  else (__init__ ∅, w).

(** [save_config(config_path)]. *)
Definition save_config (config_path : string) (s : state W) : outcome unit * state W :=
  match config_dict (global_config s) with
  | Failed e => (Failed e, s)
  | Done document =>
      match dump document config_path (disk s) with
      | (Ok _, w) => (Done tt, mkState (global_config s) w)
      | (Raise e, w) => (Failed (FileError e), mkState (global_config s) w)
      end
  end.

(** [load_config(config_path)]: the global [config] is rebound when
    [from_yaml] has returned. *)
Definition load_config (config_path : string) (s : state W)
  : outcome ProjectConfig * state W :=
  match from_yaml config_path (disk s) with
  | (Done loaded, w) => (Done loaded, mkState loaded w)
  | (Failed e, w) => (Failed e, mkState (global_config s) w)
  end.

End WithFiles.
End ConfigFile.

(** * Scenarios: concrete collaborators *)

(** A scripted outside world: a counter of the calls made to the audio
    model so far. The image exists and loads, the caption and the moods are
    fixed, and the audio model fails with the CUDA out-of-memory message
    for its first [ooms] calls, then returns [audio]. *)
Module Scenario.

Definition cuda_oom : exn :=
  RuntimeError "CUDA out of memory. Tried to allocate 2.00 GiB".

Definition scripted (caption : result string)
    (moods : string * list (string * float))
    (ooms : nat) (audio : list float) : Collaborators nat :=
  {| image := unit;
     path_exists := fun _ _ => true;
     blip2_load := fun w => (Ok tt, w);
     clip_load := fun w => (Ok tt, w);
     musicgen_load := fun w => (Ok tt, w);
     image_open := fun _ w => (Ok tt, w);
     blip2_caption := fun _ _ w => (caption, w);
     clip_moods := fun _ _ w => (Ok moods, w);
     musicgen_generate := fun _ _ w =>
       if Nat.ltb w ooms then (Raise cuda_oom, S w) else (Ok audio, S w) |}.

(** A sonifier that has not created any model handle yet. *)
Definition fresh : store nat := mkStore 0%nat false false false [].

Definition forest_moods : string * list (string * float) :=
  ("serene", [("serene", 0.5%float); ("calm", 0.25%float); ("dreamy", 0.125%float)]).

Definition silence : list float := [0%float; 0%float; 0%float].

Definition tone : list float := [0.5%float; (-0.25)%float; 0.125%float; 0%float].

End Scenario.

(** A scripted outside world with outages: [present] tells which image
    paths exist; the image decoder, the caption model and the mood model
    each end every call with the given outcome; the audio model behaves as
    in [Scenario.scripted]. *)
Module Outage.

Definition collaborators (present : string -> bool) (decoded : result unit)
    (caption : result string)
    (moods : result (string * list (string * float)))
    (ooms : nat) (audio : list float) : Collaborators nat :=
  {| image := unit;
     path_exists := fun image_path _ => present image_path;
     blip2_load := fun w => (Ok tt, w);
     clip_load := fun w => (Ok tt, w);
     musicgen_load := fun w => (Ok tt, w);
     image_open := fun _ w => (decoded, w);
     blip2_caption := fun _ _ w => (caption, w);
     clip_moods := fun _ _ w => (moods, w);
     musicgen_generate := fun _ _ w =>
       if Nat.ltb w ooms then (Raise Scenario.cuda_oom, S w) else (Ok audio, S w) |}.

(** An outside world whose outcomes depend on the image: the decoder hands
    the path on as the image; the caption, the moods and the audio are
    looked up by image and by prompt. *)
Definition by_path (present : string -> bool)
    (caption : string -> result string)
    (moods : string -> result (string * list (string * float)))
    (audio : string -> result (list float)) : Collaborators nat :=
  {| image := string;
     path_exists := fun image_path _ => present image_path;
     blip2_load := fun w => (Ok tt, w);
     clip_load := fun w => (Ok tt, w);
     musicgen_load := fun w => (Ok tt, w);
     image_open := fun image_path w => (Ok image_path, w);
     blip2_caption := fun image_path _ w => (caption image_path, w);
     clip_moods := fun image_path _ w => (moods image_path, w);
     musicgen_generate := fun prompt _ w => (audio prompt, S w) |}.

(** A file system whose operations end with the given outcomes; every
    request gets the same identifier. *)
Definition files (upload write remove : result unit) : Api.FileSystem nat :=
  {| Api.uuid4 := fun w => ("3f2a", w);
     Api.save_upload := fun _ _ w => (upload, w);
     Api.wavfile_write := fun _ _ _ w => (write, w);
     Api.unlink := fun _ w => (remove, w) |}.

Definition jpeg : Api.UploadFile :=
  {| Api.filename := "photo.jpg"; Api.content_type := "image/jpeg" |}.

(** A service that has not handled any request. *)
Definition idle : Api.service nat := Api.mkService Scenario.fresh [].

End Outage.

(** A disk that keeps the documents written to it. *)
Module Disk.

Definition yaml_files : ConfigFile.YamlFiles (gmap string ConfigFile.yaml) :=
  {| ConfigFile.os_path_exists := fun config_path w => bool_decide (is_Some (w !! config_path));
     ConfigFile.safe_load := fun config_path w =>
       match w !! config_path with
       | Some document => (Ok document, w)
       | None => (Raise (FileNotFoundError config_path), w)
       end;
     ConfigFile.dump := fun document config_path w =>
       (Ok tt, <[config_path := document]> w) |}.

(** The module as imported: the default configuration, an empty disk. *)
Definition imported : ConfigFile.state (gmap string ConfigFile.yaml) :=
  ConfigFile.mkState ConfigFile.ProjectConfig_defaults ∅.

End Disk.

(** * The vocabulary of the properties *)

(** ** The prompt composer *)

Module Composer.
Import MusicOrchestrator.

(** The base clause every prompt starts with. *)
Definition base_clause (caption primary_mood : string) : string :=
  "A " +:+ primary_mood +:+ " piece of music for " +:+ caption.

(** The clause that names a second mood. *)
Definition second_clause (second_mood : string) : string :=
  "with elements of " +:+ second_mood.

(** The second-ranked entry of the mood scores, when there is one. *)
Definition second_ranked (mood_scores : list (string * float))
  : option (string * float) :=
  match mood_scores with
  | _ :: entry :: _ => Some entry
  | _ => None
  end.

(** A part of the prompt is a second-mood clause. *)
Definition is_second_clause (part : string) : bool :=
  PyStr.startswith "with elements of " part.

(** The decision table of the genre hints, in the order the rules are
    tried: the caption keywords, the mood family, the hint. *)
Definition genre_rules : list (list string * list string * string) :=
  [ (nature_words, ["peaceful"; "serene"; "calm"], "ambient pads and gentle flutes");
    (nature_words, ["dramatic"; "intense"], "epic orchestral strings and horns");
    (urban_words, ["energetic"; "chaotic"], "electronic beats and synth bass");
    (urban_words, ["melancholic"; "somber"], "slow piano and distant city sounds");
    (people_words, ["happy"; "joyful"], "upbeat acoustic guitar and light percussion");
    (people_words, ["mysterious"; "dreamy"], "ethereal vocals and reverbed textures") ].

(** A rule fires when the caption holds one of its keywords and the mood
    is one of its family. *)
Definition rule_fires (rule : list string * list string * string)
    (caption_lower mood_lower : string) : bool :=
  let '(words, moods, _) := rule in
  any_word_in words caption_lower && PyStr.mem mood_lower moods.

(** The hint of the first rule that fires, the empty string if none does. *)
Fixpoint first_match (rules : list (list string * list string * string))
    (caption_lower mood_lower : string) : string :=
  match rules with
  | [] => ""
  | rule :: rest =>
      if rule_fires rule caption_lower mood_lower
      then snd rule
      else first_match rest caption_lower mood_lower
  end.

(** A part of the prompt is one of the hints of the table. *)
Definition is_hint (part : string) : bool :=
  PyStr.mem part (map snd genre_rules).

(** The parts the composer appends after the base clause: the hint when
    it is not empty, and before it the second-mood clause. The confidence
    tested is the one the lookup by key finds, which on a list whose first
    two keys coincide is the first one. *)
Definition hint_parts (caption primary_mood : string) : list string :=
  if PyStr.truthy (_get_genre_hint caption primary_mood)
  then [_get_genre_hint caption primary_mood]
  else [].

Definition second_parts (mood_scores : list (string * float)) : list string :=
  match mood_scores with
  | (k1, c1) :: (k2, c2) :: _ =>
      if PrimFloat.ltb confidence_threshold (if String.eqb k1 k2 then c1 else c2)
      then [second_clause k2]
      else []
  | _ => []
  end.

End Composer.

(** ** The audio generator *)

(** The runs of [process] the retry policy allows, as the calls made to
    the audio model from the validated duration [d] and the result
    returned: a call that returns ends the run; a call that raises ends the
    run with that exception unless it is a [RuntimeError] that mentions
    "out of memory" at a duration above 5, which is followed by the run
    from [d / 2]. *)
Inductive attempts (prompt : string)
  : Z -> list call -> result (list float * Z) -> Prop :=
| attempt_returns (d : Z) (audio_array : list float) :
    attempts prompt d
      [{| call_prompt := prompt; call_duration := d;
          call_max_new_tokens := d * 50; call_raised := None |}]
      (Ok (audio_array, 32000))
| attempt_fatal (d : Z) (e : exn) :
    (is_RuntimeError e && is_out_of_memory e && (5 <? d))%bool = false ->
    attempts prompt d
      [{| call_prompt := prompt; call_duration := d;
          call_max_new_tokens := d * 50; call_raised := Some e |}]
      (Raise e)
| attempt_retried (d : Z) (e : exn) (calls : list call)
    (r : result (list float * Z)) :
    is_RuntimeError e = true ->
    is_out_of_memory e = true ->
    5 < d ->
    attempts prompt (d / 2) calls r ->
    attempts prompt d
      ({| call_prompt := prompt; call_duration := d;
          call_max_new_tokens := d * 50; call_raised := Some e |} :: calls)
      r.

(** The duration the first call of the audio model works with, by cases on
    the request: the default of 10 seconds for no request and for a request
    of 0, the maximum of 30 seconds for a request above it, and the request
    itself otherwise. *)
Definition effective_duration (requested : option Z) : Z :=
  match requested with
  | None => 10
  | Some d => if d =? 0 then 10 else if 30 <? d then 30 else d
  end.

(** ** The pipeline *)

(** A computation that makes no call to the audio model. *)
Definition keeps_calls (W : Type) {A} (m : M W A) : Prop :=
  forall s, synth_calls (snd (m s)) = synth_calls s.

(** ** The persisted audio *)

(** A sample lies in the closed interval from -1 to 1. *)
Definition in_unit_range (x : float) : bool :=
  (PrimFloat.leb (-1)%float x && PrimFloat.leb x 1%float)%bool.

(** ** The forest photograph *)

Module ScenarioResults.

(** The analysis of the forest photograph. *)
Definition forest_analysis : gmap string value :=
  {[ "caption" := VStr "a forest";
     "primary_mood" := VStr "serene";
     "mood_scores" := VScores (snd Scenario.forest_moods);
     "image_path" := VStr "photo.jpg" ]}.

Definition forest_prompt : string :=
  "A serene piece of music for a forest, with elements of calm, ambient pads and gentle flutes".

(** The generation result for it when the audio model returns the four
    samples of [Scenario.tone]. *)
Definition forest_music : gmap string value :=
  {[ "audio_array" := VAudio Scenario.tone;
     "sample_rate" := VInt 32000;
     "prompt_used" := VStr forest_prompt;
     "duration_seconds" := VRatio (inject_Z 4 / inject_Z 32000) ]}.

End ScenarioResults.

(** ** The devices, the batches, the handles and the rule table *)

(** The device of the automatic choice. *)
Definition auto_device (torch : DeviceManager.Torch) : string :=
  if DeviceManager.cuda_is_available torch then "cuda"
  else if DeviceManager.mps_is_available torch then "mps" else "cpu".

(** The entry a batch records for one image. *)
Definition batch_entry (r : result (gmap string value)) : option (gmap string value) :=
  match r with
  | Ok result_ => Some result_
  | Raise _ => None
  end.

(** The three handles of a store. *)
Definition handles {W : Type} (s : store W) : bool * bool * bool :=
  (blip_model s, clip_analyzer s, music_generator s).

(** No handle that exists in [s] is missing in [s']. *)
Definition handles_kept {W : Type} (s s' : store W) : Prop :=
  (blip_model s = true -> blip_model s' = true) /\
  (clip_analyzer s = true -> clip_analyzer s' = true) /\
  (music_generator s = true -> music_generator s' = true).

(** The rules of a table that fire, in the order of the table. *)
Definition firing_rules (rules : list (list string * list string * string))
    (caption_lower mood_lower : string) : list (list string * list string * string) :=
  List.filter (fun rule => Composer.rule_fires rule caption_lower mood_lower) rules.

(** * Properties *)

(** ** Facts about Python strings *)

Section StringFacts.

Lemma str_app_cons (x : ascii) (a b : string) :
  String x a +:+ b = String x (a +:+ b).
Proof. reflexivity. Qed.

Lemma str_app_nil_r (a : string) : a +:+ "" = a.
Proof.
  induction a as [|x a IH]; [reflexivity|].
  now rewrite str_app_cons, IH.
Qed.

Lemma str_app_assoc (a b c : string) : (a +:+ b) +:+ c = a +:+ (b +:+ c).
Proof.
  induction a as [|x a IH]; [reflexivity|].
  now rewrite !str_app_cons, IH.
Qed.

Lemma startswith_app (p s : string) : PyStr.startswith p (p +:+ s) = true.
Proof.
  induction p as [|x p IH]; [reflexivity|].
  rewrite str_app_cons. cbn [PyStr.startswith].
  now rewrite Ascii.eqb_refl.
Qed.

Lemma contains_here (n s : string) : PyStr.contains n (n +:+ s) = true.
Proof.
  destruct (n +:+ s) eqn:E; cbn [PyStr.contains];
    rewrite <- E, startswith_app; reflexivity.
Qed.

Lemma contains_app (a n b : string) : PyStr.contains n (a +:+ n +:+ b) = true.
Proof.
  induction a as [|x a IH].
  - change ("" +:+ n +:+ b) with (n +:+ b). apply contains_here.
  - rewrite str_app_cons. cbn [PyStr.contains]. rewrite IH. apply orb_true_r.
Qed.

Lemma join_cons (sep p : string) (rest : list string) :
  PyStr.join sep (p :: rest) =
  p +:+ match rest with [] => "" | _ :: _ => sep +:+ PyStr.join sep rest end.
Proof.
  destruct rest; cbn [PyStr.join]; [|reflexivity].
  now rewrite str_app_nil_r.
Qed.

Lemma str_app_length (a b : string) :
  String.length (a +:+ b) = (String.length a + String.length b)%nat.
Proof.
  induction a as [|x a IH]; [reflexivity|].
  rewrite str_app_cons. cbn [String.length]. now rewrite IH.
Qed.

End StringFacts.


(** ** Facts about binary64 comparisons *)

Section FloatFacts.

Lemma SFltb_SFleb_swap (a b : spec_float) :
  SFltb a b = true -> SFleb b a = false.
Proof.
  unfold SFltb, SFleb.
  destruct a as [sa| sa | | sa ma ea], b as [sb | sb | | sb mb eb];
    cbn [SFcompare];
    try (destruct sa); try (destruct sb); try discriminate; try reflexivity.
  all: rewrite (Z.compare_antisym ea eb);
    change (Pos.compare_cont Eq mb ma) with (Pos.compare mb ma);
    change (Pos.compare_cont Eq ma mb) with (Pos.compare ma mb);
    rewrite (Pos.compare_antisym ma mb);
    destruct (ea ?= eb)%Z; cbn; try discriminate; try reflexivity;
    destruct (ma ?= mb)%positive; cbn; try discriminate; reflexivity.
Qed.

(** [y <= x] excludes [x < y], NaN included. *)
Lemma leb_excludes_ltb (x y : float) :
  PrimFloat.leb y x = true -> PrimFloat.ltb x y = false.
Proof.
  intros Hle. destruct (PrimFloat.ltb x y) eqn:Hlt; [|reflexivity].
  rewrite ltb_spec in Hlt. rewrite leb_spec in Hle.
  apply SFltb_SFleb_swap in Hlt. congruence.
Qed.

End FloatFacts.

(** ** The prompt composer *)

Section ComposerClaims.
Import MusicOrchestrator Composer.

Lemma prompt_parts_shape (caption primary_mood : string)
    (mood_scores : list (string * float)) :
  prompt_parts caption primary_mood mood_scores =
  Ok (base_clause caption primary_mood
        :: second_parts mood_scores ++ hint_parts caption primary_mood)%list.
Proof.
  unfold prompt_parts, second_parts, hint_parts, base_clause, second_clause.
  destruct mood_scores as [|[k1 c1] [|[k2 c2] rest]]; cbn [map fst take];
    try (destruct (PyStr.truthy _); reflexivity).
  cbn [scores_getitem].
  destruct (String.eqb k1 k2) eqn:E12.
  - destruct (PrimFloat.ltb confidence_threshold c1);
      destruct (PyStr.truthy _); reflexivity.
  - rewrite String.eqb_refl.
    destruct (PrimFloat.ltb confidence_threshold c2);
      destruct (PyStr.truthy _); reflexivity.
Qed.

Lemma second_parts_nodup (mood_scores : list (string * float)) :
  NoDup (map fst mood_scores) ->
  second_parts mood_scores =
  match second_ranked mood_scores with
  | Some (k2, c2) =>
      if PrimFloat.ltb confidence_threshold c2 then [second_clause k2] else []
  | None => []
  end.
Proof.
  intros Hnd.
  destruct mood_scores as [|[k1 c1] [|[k2 c2] rest]]; try reflexivity.
  cbn [second_parts second_ranked].
  destruct (String.eqb_spec k1 k2) as [->|Hne]; [|reflexivity].
  exfalso. cbn in Hnd. apply NoDup_cons_1_1 in Hnd. apply Hnd. left.
Qed.

(** The hint is the empty string or one of the six hints of the table. *)
Lemma genre_hint_cases (caption mood : string) :
  _get_genre_hint caption mood = "" \/
  In (_get_genre_hint caption mood) (map snd genre_rules).
Proof.
  unfold _get_genre_hint, nature_scenes, urban_scenes, people_portraits.
  repeat match goal with
         | |- context [if ?b then _ else _] => destruct b
         end; cbn; tauto.
Qed.

Lemma base_not_second_clause (caption primary_mood : string) :
  is_second_clause (base_clause caption primary_mood) = false.
Proof. reflexivity. Qed.

Lemma base_not_hint (caption primary_mood : string) :
  is_hint (base_clause caption primary_mood) = false.
Proof. reflexivity. Qed.

Lemma second_clause_is_second_clause (k : string) :
  is_second_clause (second_clause k) = true.
Proof. unfold is_second_clause, second_clause. apply startswith_app. Qed.

Lemma hint_parts_no_second_clause (caption primary_mood : string) :
  existsb is_second_clause (hint_parts caption primary_mood) = false.
Proof.
  unfold hint_parts.
  destruct (genre_hint_cases caption primary_mood) as [-> | Hin]; [reflexivity|].
  destruct (PyStr.truthy _); [|reflexivity].
  cbn in Hin.
  repeat (destruct Hin as [<- | Hin]; [reflexivity|]). destruct Hin.
Qed.

Lemma hint_parts_filter (caption primary_mood : string) :
  List.filter is_hint (hint_parts caption primary_mood) =
  hint_parts caption primary_mood.
Proof.
  unfold hint_parts.
  destruct (genre_hint_cases caption primary_mood) as [-> | Hin]; [reflexivity|].
  destruct (PyStr.truthy _); [|reflexivity].
  cbn in Hin.
  repeat (destruct Hin as [<- | Hin]; [reflexivity|]). destruct Hin.
Qed.

Lemma second_parts_filter (mood_scores : list (string * float)) :
  List.filter is_hint (second_parts mood_scores) = [].
Proof.
  unfold second_parts.
  destruct mood_scores as [|[k1 c1] [|[k2 c2] rest]]; try reflexivity.
  destruct (PrimFloat.ltb _ _); reflexivity.
Qed.

(** C4: for every caption, primary mood and mood scores the composer
    returns a prompt, the prompt is the join with ", " of the base clause
    "A {primary_mood} piece of music for {caption}" and the optional
    clauses, it is not empty, it starts with the base clause, and it
    contains the primary mood and the caption verbatim. *)
Theorem compose_starts_with_base_clause
    (caption primary_mood : string) (mood_scores : list (string * float)) :
  exists (prompt : string) (clauses : list string),
    _create_intelligent_prompt caption primary_mood mood_scores = Ok prompt /\
    prompt_parts caption primary_mood mood_scores =
      Ok (("A " +:+ primary_mood +:+ " piece of music for " +:+ caption) :: clauses) /\
    prompt =
      PyStr.join ", "
        (("A " +:+ primary_mood +:+ " piece of music for " +:+ caption) :: clauses) /\
    prompt <> "" /\
    PyStr.startswith
      ("A " +:+ primary_mood +:+ " piece of music for " +:+ caption) prompt = true /\
    PyStr.contains primary_mood prompt = true /\
    PyStr.contains caption prompt = true.
Proof.
  pose proof (prompt_parts_shape caption primary_mood mood_scores) as Hshape.
  unfold base_clause in Hshape.
  set (clauses := (second_parts mood_scores ++ hint_parts caption primary_mood)%list) in *.
  exists (PyStr.join ", "
            (("A " +:+ primary_mood +:+ " piece of music for " +:+ caption) :: clauses)),
         clauses.
  split; [unfold _create_intelligent_prompt; now rewrite Hshape|].
  split; [exact Hshape|]. split; [reflexivity|].
  rewrite join_cons.
  set (tail := match clauses with [] => "" | _ :: _ => ", " +:+ PyStr.join ", " clauses end).
  split; [|split; [|split]].
  - discriminate.
  - apply startswith_app.
  - rewrite !str_app_assoc. apply contains_app.
  - replace (("A " +:+ primary_mood +:+ " piece of music for " +:+ caption) +:+ tail)
      with (("A " +:+ primary_mood +:+ " piece of music for ") +:+ caption +:+ tail)
      by (now rewrite !str_app_assoc).
    apply contains_app.
Qed.

(** C5: given a well-formed mood dictionary (distinct keys), the parts
    of the composed prompt hold a clause "with elements of ..." if and only
    if the scores have a second-ranked entry whose confidence is strictly
    greater than 0.2. When they have one, the clause that names that mood
    is the second part, so the prompt holds ", with elements of
    {second_mood}"; no part is a clause for any other mood; with fewer than
    two entries, or a second confidence of at most 0.2, no such clause is
    present. *)
Theorem second_mood_clause_iff_confident
    (caption primary_mood : string) (mood_scores : list (string * float)) :
  NoDup (map fst mood_scores) ->
  exists parts : list string,
    prompt_parts caption primary_mood mood_scores = Ok parts /\
    _create_intelligent_prompt caption primary_mood mood_scores =
      Ok (PyStr.join ", " parts) /\
    (existsb is_second_clause parts = true <->
     exists second_mood confidence,
       second_ranked mood_scores = Some (second_mood, confidence) /\
       PrimFloat.ltb confidence_threshold confidence = true) /\
    (forall second_mood confidence,
       second_ranked mood_scores = Some (second_mood, confidence) ->
       PrimFloat.ltb confidence_threshold confidence = true ->
       In ("with elements of " +:+ second_mood) parts /\
       nth_error parts 1 = Some ("with elements of " +:+ second_mood) /\
       PyStr.contains (", with elements of " +:+ second_mood)
                      (PyStr.join ", " parts) = true) /\
    (forall part,
       In part parts -> is_second_clause part = true ->
       exists second_mood confidence,
         second_ranked mood_scores = Some (second_mood, confidence) /\
         PrimFloat.ltb confidence_threshold confidence = true /\
         part = "with elements of " +:+ second_mood) /\
    (second_ranked mood_scores = None ->
     existsb is_second_clause parts = false) /\
    (forall second_mood confidence,
       second_ranked mood_scores = Some (second_mood, confidence) ->
       PrimFloat.leb confidence confidence_threshold = true ->
       existsb is_second_clause parts = false).
Proof.
  intros Hnd.
  pose proof (prompt_parts_shape caption primary_mood mood_scores) as Hshape.
  rewrite (second_parts_nodup _ Hnd) in Hshape.
  eexists. split; [exact Hshape|].
  split; [unfold _create_intelligent_prompt; now rewrite Hshape|].
  assert (Hhint : forall part,
            In part (hint_parts caption primary_mood) ->
            is_second_clause part = true -> False).
  { intros part Hin Hpart.
    pose proof (hint_parts_no_second_clause caption primary_mood) as Hnone.
    assert (Hsome : existsb is_second_clause (hint_parts caption primary_mood) = true)
      by (apply existsb_exists; eauto).
    congruence. }
  cbn [existsb]. rewrite base_not_second_clause, existsb_app,
    hint_parts_no_second_clause, orb_false_r. cbn [orb].
  destruct (second_ranked mood_scores) as [[k2 c2]|] eqn:Hsec.
  - destruct (PrimFloat.ltb confidence_threshold c2) eqn:Hgt.
    + cbn [existsb]. rewrite second_clause_is_second_clause. cbn [orb].
      split; [|split; [|split; [|split]]].
      * split; [intros _; eauto | reflexivity].
      * intros k c [= <- <-] _. split; [right; left; reflexivity|].
        split; [reflexivity|].
        rewrite join_cons. cbn [app]. rewrite join_cons. unfold second_clause.
        rewrite <- (str_app_assoc ", " ("with elements of " +:+ k2)).
        apply contains_app.
      * intros part [<- | [<- | Hin]] Hpart.
        -- rewrite base_not_second_clause in Hpart. discriminate.
        -- exists k2, c2. auto.
        -- destruct (Hhint part Hin Hpart).
      * discriminate.
      * intros k c [= <- <-] Hle. apply leb_excludes_ltb in Hle. congruence.
    + cbn [existsb]. split; [|split; [|split; [|split]]].
      * split; [discriminate|]. intros (k & c & [= <- <-] & Hc). congruence.
      * intros k c [= <- <-] Hc. congruence.
      * intros part [<- | Hin] Hpart.
        -- rewrite base_not_second_clause in Hpart. discriminate.
        -- destruct (Hhint part Hin Hpart).
      * reflexivity.
      * reflexivity.
  - cbn [existsb]. split; [|split; [|split; [|split]]].
    + split; [discriminate|]. intros (k & c & Hk & _). discriminate.
    + discriminate.
    + intros part [<- | Hin] Hpart.
      * rewrite base_not_second_clause in Hpart. discriminate.
      * destruct (Hhint part Hin Hpart).
    + reflexivity.
    + reflexivity.
Qed.

(** The witness of C5: a three-entry ranking whose second confidence is
    0.25; the clause that names the second mood is among the parts, and the
    prompt holds it. *)
Lemma second_mood_clause_iff_confident_witness :
  NoDup (map fst (snd Scenario.forest_moods)) /\
  second_ranked (snd Scenario.forest_moods) = Some ("calm", 0.25%float) /\
  PrimFloat.ltb confidence_threshold 0.25 = true /\
  exists parts : list string,
    prompt_parts "a forest" "serene" (snd Scenario.forest_moods) = Ok parts /\
    _create_intelligent_prompt "a forest" "serene" (snd Scenario.forest_moods) =
      Ok (PyStr.join ", " parts) /\
    existsb is_second_clause parts = true /\
    In ("with elements of " +:+ "calm") parts /\
    PyStr.contains (", with elements of " +:+ "calm") (PyStr.join ", " parts) = true.
Proof.
  assert (Hnd : NoDup (map fst (snd Scenario.forest_moods))).
  { apply (bool_decide_unpack _). vm_compute. exact I. }
  split; [exact Hnd|]. split; [reflexivity|]. split; [reflexivity|].
  destruct (second_mood_clause_iff_confident "a forest" "serene"
              (snd Scenario.forest_moods) Hnd)
    as (parts & Hparts & Hprompt & Hiff & Hpresent & _).
  exists parts. split; [exact Hparts|]. split; [exact Hprompt|].
  split.
  - apply Hiff. exists "calm", 0.25%float. split; reflexivity.
  - destruct (Hpresent "calm" 0.25%float eq_refl eq_refl) as (Hin & _ & Hcontains).
    split; [exact Hin | exact Hcontains].
Defined.

(** A second confidence of exactly 0.2 is not greater than the threshold:
    the second mood is not mentioned. *)
Example second_mood_at_threshold_not_mentioned :
  _create_intelligent_prompt "a lake" "serene"
    [("serene", 0.75%float); ("calm", confidence_threshold)] =
  Ok "A serene piece of music for a lake".
Proof. vm_compute; reflexivity. Qed.

(** The fallbacks of the two analysis services give the minimal prompt. *)
Example fallback_analysis_prompt :
  _create_intelligent_prompt "an image" "neutral" [("neutral", 1%float)] =
  Ok "A neutral piece of music for an image".
Proof. vm_compute; reflexivity. Qed.

Lemma genre_hint_is_first_match (caption mood : string) :
  _get_genre_hint caption mood =
  first_match genre_rules (PyStr.lower caption) (PyStr.lower mood).
Proof.
  unfold _get_genre_hint, nature_scenes, urban_scenes, people_portraits.
  cbn [first_match genre_rules rule_fires snd].
  repeat match goal with
         | |- context [any_word_in ?w ?c] =>
             let b := fresh "kw" in
             generalize (any_word_in w c); intros b
         | |- context [PyStr.mem ?m ?l] =>
             let b := fresh "fam" in
             generalize (PyStr.mem m l); intros b
         end.
  repeat match goal with b : bool |- _ => destruct b end; reflexivity.
Qed.

(** The counterexample of C6 as stated: the caption holds a nature
    keyword and an urban keyword, and with the mood "energetic" the hint
    is the urban one, although the nature block is tried first. *)
Lemma genre_hint_first_category_counterexample :
  any_word_in nature_words (PyStr.lower "a forest near a city") = true /\
  any_word_in urban_words (PyStr.lower "a forest near a city") = true /\
  _get_genre_hint "a forest near a city" "energetic" =
    "electronic beats and synth bass" /\
  ~ In (_get_genre_hint "a forest near a city" "energetic")
       ["ambient pads and gentle flutes"; "epic orchestral strings and horns"].
Proof.
  repeat split; try reflexivity.
  vm_compute. intuition discriminate.
Qed.

(** C6 (amended): the hint is the hint of the first rule of the ordered
    table nature, urban, people that fires, a rule firing only when the
    caption holds one of its keywords and the mood belongs to its family;
    a block whose keywords match but whose mood families do not is
    skipped and the later blocks are still tried. The parts of the prompt
    hold that hint once when a rule fires and hold no hint when none
    does. *)
Theorem genre_hint_first_firing_rule
    (caption primary_mood : string) (mood_scores : list (string * float)) :
  _get_genre_hint caption primary_mood =
    first_match genre_rules (PyStr.lower caption) (PyStr.lower primary_mood) /\
  exists parts : list string,
    prompt_parts caption primary_mood mood_scores = Ok parts /\
    List.filter is_hint parts =
      (if PyStr.truthy (_get_genre_hint caption primary_mood)
       then [_get_genre_hint caption primary_mood]
       else []) /\
    (length (List.filter is_hint parts) <= 1)%nat /\
    (first_match genre_rules (PyStr.lower caption) (PyStr.lower primary_mood) = "" ->
     List.filter is_hint parts = []).
Proof.
  split; [apply genre_hint_is_first_match|].
  eexists. split; [apply prompt_parts_shape|].
  cbn [List.filter]. rewrite base_not_hint, List.filter_app,
    second_parts_filter, hint_parts_filter.
  cbn [app]. fold (hint_parts caption primary_mood).
  split; [reflexivity|]. split.
  - unfold hint_parts. destruct (PyStr.truthy _); cbn; lia.
  - intros Hnone. rewrite <- genre_hint_is_first_match in Hnone.
    unfold hint_parts. now rewrite Hnone.
Qed.

End ComposerClaims.

(** ** The audio generator: retries and durations *)

Section GeneratorFacts.
Context {W : Type} {collab : Collaborators W}.
Import MusicGenerator.

Lemma validated_duration_le (duration : option Z) :
  validated_duration duration <= 30.
Proof.
  unfold validated_duration.
  change (max_duration (audio config)) with 30.
  destruct (Z.gtb_spec (py_or duration self_default_duration) 30); lia.
Qed.

Lemma validated_duration_small (d : Z) :
  d <> 0 -> d <= 30 -> validated_duration (Some d) = d.
Proof.
  intros Hnz Hle. unfold validated_duration, py_or.
  change (max_duration (audio config)) with 30.
  destruct (Z.eqb_spec d 0); [lia|].
  destruct (Z.gtb_spec d 30); lia.
Qed.

Lemma validated_duration_halved (d : Z) :
  5 < d -> d <= 30 -> validated_duration (Some (d / 2)) = d / 2.
Proof.
  intros Hlo Hhi.
  pose proof (Z.div_mod d 2 ltac:(lia)). pose proof (Z.mod_pos_bound d 2 ltac:(lia)).
  apply validated_duration_small; lia.
Qed.

Lemma process_unfold (prompt : string) (duration : option Z) (s : store W) :
  process prompt duration s =
  match generate prompt (validated_duration duration) s with
  | (Ok audio_array, s') => (Ok (audio_array, self_sample_rate), s')
  | (Raise e, s') =>
      if (is_RuntimeError e && is_out_of_memory e)%bool then
        if decide (validated_duration duration > 5)
        then process prompt (Some (validated_duration duration / 2)) s'
        else (Raise e, s')
      else (Raise e, s')
  end.
Proof.
  simp process.
  destruct (generate prompt (validated_duration duration) s) as [[audio|e] s'];
    cbn; [reflexivity|].
  destruct (is_RuntimeError e); cbn; [|reflexivity].
  destruct (is_out_of_memory e); cbn; [|reflexivity].
  destruct (decide (validated_duration duration > 5)); reflexivity.
Qed.


Lemma attempts_length (prompt : string) (d : Z) (calls : list call)
    (r : result (list float * Z)) :
  attempts prompt d calls r ->
  (d <= 5 -> (length calls <= 1)%nat) /\
  (d <= 11 -> (length calls <= 2)%nat) /\
  (d <= 23 -> (length calls <= 3)%nat) /\
  (d <= 47 -> (length calls <= 4)%nat).
Proof.
  induction 1 as [d a | d e He | d e calls r Hrt Hoom Hd Hrun IH];
    cbn [length]; try (repeat split; intros; lia).
  pose proof (Z.div_mod d 2 ltac:(lia)). pose proof (Z.mod_pos_bound d 2 ltac:(lia)).
  destruct IH as (I1 & I2 & I3 & I4).
  repeat split; intros; lia.
Qed.

Lemma attempts_head (prompt : string) (d : Z) (calls : list call)
    (r : result (list float * Z)) :
  attempts prompt d calls r ->
  exists c rest, calls = c :: rest /\ call_duration c = d /\
                 call_max_new_tokens c = d * 50.
Proof. destruct 1; eauto. Qed.

Lemma attempts_prompt (prompt : string) (d : Z) (calls : list call)
    (r : result (list float * Z)) :
  attempts prompt d calls r ->
  Forall (fun c => call_prompt c = prompt) calls.
Proof. induction 1; repeat constructor; assumption. Qed.

Lemma attempts_sample_rate (prompt : string) (d : Z) (calls : list call)
    (audio_array : list float) (rate : Z) :
  attempts prompt d calls (Ok (audio_array, rate)) -> rate = 32000.
Proof.
  intros Hrun. remember (Ok (audio_array, rate)) as r eqn:Hr.
  induction Hrun; try discriminate; [congruence | auto].
Qed.

Lemma process_attempts (prompt : string) (duration : option Z) (s : store W) :
  exists calls,
    synth_calls (snd (process prompt duration s)) = (synth_calls s ++ calls)%list /\
    attempts prompt (validated_duration duration) calls
      (fst (process prompt duration s)).
Proof.
  remember (Z.to_nat (validated_duration duration)) as n eqn:Hn.
  revert duration s Hn.
  induction n as [n IH] using lt_wf_ind. intros duration s Hn.
  rewrite process_unfold. unfold generate.
  destruct (musicgen_generate prompt (validated_duration duration * 50) (ext s))
    as [[audio|e] w] eqn:Hgen.
  - eexists. split; [reflexivity|]. apply attempt_returns.
  - destruct (is_RuntimeError e && is_out_of_memory e)%bool eqn:Hoom.
    + destruct (decide (validated_duration duration > 5)) as [Hgt|Hle].
      * pose proof (validated_duration_le duration) as Hmax.
        pose proof (Z.div_mod (validated_duration duration) 2 ltac:(lia)).
        pose proof (Z.mod_pos_bound (validated_duration duration) 2 ltac:(lia)).
        match goal with
        | |- context [process prompt ?d2 ?s2] =>
            destruct (IH (Z.to_nat (validated_duration d2))
                         ltac:(rewrite validated_duration_halved by lia; lia)
                         d2 s2 eq_refl) as (calls & Hcalls & Hrun)
        end.
        rewrite validated_duration_halved in Hrun by lia.
        eexists. split.
        -- rewrite Hcalls. cbn [synth_calls]. rewrite <- app_assoc. reflexivity.
        -- apply andb_prop in Hoom as [Hrt Hmem].
           apply attempt_retried; [assumption | assumption | lia | exact Hrun].
      * eexists. split; [reflexivity|]. apply attempt_fatal.
        rewrite Hoom. cbn. apply Z.ltb_ge. lia.
    + eexists. split; [reflexivity|]. apply attempt_fatal.
      rewrite Hoom. reflexivity.
Qed.

End GeneratorFacts.

(** ** The pipeline: which steps call the audio model *)

Section PipelineFacts.
Context {W : Type} {collab : Collaborators W}.

Lemma keeps_ret {A} (a : A) : keeps_calls W (ret a).
Proof. intros s. reflexivity. Qed.

Lemma keeps_raise {A} (e : exn) : keeps_calls W (raise (A := A) e).
Proof. intros s. reflexivity. Qed.

Lemma keeps_bind {A B} (m : M W A) (k : A -> M W B) :
  keeps_calls W m -> (forall a, keeps_calls W (k a)) -> keeps_calls W (bind m k).
Proof.
  intros Hm Hk s. unfold bind. specialize (Hm s).
  destruct (m s) as [[a|e] s1]; cbn in *; [|assumption].
  rewrite Hk. assumption.
Qed.

Lemma keeps_try_except {A} (m : M W A) (h : exn -> M W A) :
  keeps_calls W m -> (forall e, keeps_calls W (h e)) -> keeps_calls W (try_except m h).
Proof.
  intros Hm Hh s. unfold try_except. specialize (Hm s).
  destruct (m s) as [[a|e] s1]; cbn in *; [assumption|].
  rewrite Hh. assumption.
Qed.

Lemma keeps_external {A} (op : W -> result A * W) : keeps_calls W (external op).
Proof. intros s. unfold external. destruct (op (ext s)). reflexivity. Qed.

Lemma keeps_blip2_process (image_path : string) (max_length : option Z) :
  keeps_calls W (BLIP2Model.process image_path max_length).
Proof.
  unfold BLIP2Model.process.
  apply keeps_try_except.
  - apply keeps_bind.
    + apply keeps_try_except.
      * apply keeps_bind; [apply keeps_external | intros; apply keeps_ret].
      * intros []; apply keeps_ret.
    + intros [fallback|img]; [apply keeps_ret | apply keeps_external].
  - intros e. destruct (is_RuntimeError e); [apply keeps_raise | apply keeps_ret].
Qed.

Lemma keeps_clip_process (image_path : string) (top_k : Z) :
  keeps_calls W (CLIPMoodAnalyzer.process image_path top_k).
Proof.
  apply keeps_try_except; [apply keeps_external | intros; apply keeps_ret].
Qed.

Lemma keeps_init_blip_model : keeps_calls W ImageAnalyzer.init_blip_model.
Proof.
  intros s. unfold ImageAnalyzer.init_blip_model.
  destruct (blip_model s); [reflexivity|]. now rewrite keeps_external.
Qed.

Lemma keeps_init_clip_analyzer : keeps_calls W ImageAnalyzer.init_clip_analyzer.
Proof.
  intros s. unfold ImageAnalyzer.init_clip_analyzer.
  destruct (clip_analyzer s); [reflexivity|]. now rewrite keeps_external.
Qed.

Lemma keeps_init_music_generator : keeps_calls W MusicOrchestrator.init_music_generator.
Proof.
  intros s. unfold MusicOrchestrator.init_music_generator.
  destruct (music_generator s); [reflexivity|]. now rewrite keeps_external.
Qed.

Lemma keeps_image_analyzer (image_path : string) :
  keeps_calls W (ImageAnalyzer.process image_path).
Proof.
  unfold ImageAnalyzer.process.
  apply keeps_bind; [apply keeps_init_blip_model | intros _].
  apply keeps_bind; [apply keeps_init_clip_analyzer | intros _].
  apply keeps_bind; [apply keeps_blip2_process | intros caption].
  apply keeps_bind; [apply keeps_clip_process | intros [mood scores]].
  apply keeps_ret.
Qed.

Lemma safe_process_id {A} (m : M W A) (s : store W) :
  PipelineComponent.safe_process m s = m s.
Proof.
  unfold PipelineComponent.safe_process, try_except, raise.
  destruct (m s) as [[a|e] s1]; reflexivity.
Qed.

(** The analysis returns a dictionary with exactly the four analysis
    entries, or raises. *)
Lemma image_analyzer_result (image_path : string) (s : store W)
    (d : gmap string value) (s1 : store W) :
  ImageAnalyzer.process image_path s = (Ok d, s1) ->
  exists caption primary_mood mood_scores,
    d = {[ "caption" := VStr caption;
           "primary_mood" := VStr primary_mood;
           "mood_scores" := VScores mood_scores;
           "image_path" := VStr image_path ]}.
Proof.
  unfold ImageAnalyzer.process, bind, ret.
  destruct (ImageAnalyzer.init_blip_model s) as [[[]|e] sa]; [|discriminate].
  destruct (ImageAnalyzer.init_clip_analyzer sa) as [[[]|e] sb]; [|discriminate].
  destruct (BLIP2Model.process image_path None sb) as [[caption|e] sc]; [|discriminate].
  destruct (CLIPMoodAnalyzer.process image_path 3 sc) as [[[mood scores]|e] sd];
    [|discriminate].
  intros [= <- <-]. eauto.
Qed.

Lemma create_prompt_total (caption primary_mood : string)
    (mood_scores : list (string * float)) :
  MusicOrchestrator._create_intelligent_prompt caption primary_mood mood_scores =
  Ok (PyStr.join ", "
        (Composer.base_clause caption primary_mood
           :: Composer.second_parts mood_scores
              ++ Composer.hint_parts caption primary_mood)%list).
Proof.
  unfold MusicOrchestrator._create_intelligent_prompt.
  now rewrite prompt_parts_shape.
Qed.

(** The two ways [MusicOrchestrator.process] can go: it raises before the
    audio model is called, or it composes the prompt, hands the enhanced
    prompt to the generator and builds its result from what the generator
    returns. *)
Lemma orchestrator_process_cases (analysis_result : gmap string value)
    (duration : option Z) (s : store W) :
  (exists e,
     fst (MusicOrchestrator.process analysis_result duration s) = Raise e /\
     synth_calls (snd (MusicOrchestrator.process analysis_result duration s)) =
       synth_calls s) \/
  (exists caption primary_mood mood_scores prompt s1,
     analysis_result !! "caption" = Some (VStr caption) /\
     analysis_result !! "primary_mood" = Some (VStr primary_mood) /\
     analysis_result !! "mood_scores" = Some (VScores mood_scores) /\
     MusicOrchestrator._create_intelligent_prompt caption primary_mood mood_scores =
       Ok prompt /\
     synth_calls s1 = synth_calls s /\
     snd (MusicOrchestrator.process analysis_result duration s) =
       snd (MusicGenerator.process
              ("A " +:+ primary_mood +:+ " piece of music, " +:+ prompt) duration s1) /\
     fst (MusicOrchestrator.process analysis_result duration s) =
       match fst (MusicGenerator.process
                    ("A " +:+ primary_mood +:+ " piece of music, " +:+ prompt)
                    duration s1) with
       | Ok (audio_array, rate) =>
           match py_truediv (Z.of_nat (length audio_array)) rate with
           | Ok duration_seconds =>
               Ok {[ "audio_array" := VAudio audio_array;
                     "sample_rate" := VInt rate;
                     "prompt_used" := VStr prompt;
                     "duration_seconds" := VRatio duration_seconds ]}
           | Raise e => Raise e
           end
       | Raise e => Raise e
       end).
Proof.
  destruct (MusicOrchestrator.process analysis_result duration s) as [r s'] eqn:Hrun.
  cbn [fst snd].
  unfold MusicOrchestrator.process in Hrun.
  unfold bind at 1 in Hrun.
  pose proof (keeps_init_music_generator s) as Hinit.
  destruct (MusicOrchestrator.init_music_generator s) as [[[]|e] s1];
    cbn [snd] in Hinit; [|injection Hrun as <- <-; left; eauto].
  unfold getitem_str, getitem_scores, getitem, bind, ret, raise in Hrun.
  destruct (analysis_result !! "caption") as [[caption| | | |]|];
    try (injection Hrun as <- <-; left; eauto; fail).
  destruct (analysis_result !! "primary_mood") as [[primary_mood| | | |]|];
    try (injection Hrun as <- <-; left; eauto; fail).
  destruct (analysis_result !! "mood_scores") as [[| | |mood_scores|]|];
    try (injection Hrun as <- <-; left; eauto; fail).
  rewrite create_prompt_total in Hrun.
  cbn [MusicOrchestrator.lift_result] in Hrun.
  unfold MusicGenerator.generate_with_emotion, ret in Hrun.
  right. do 4 eexists. exists s1.
  split; [reflexivity|]. split; [reflexivity|]. split; [reflexivity|].
  split; [apply create_prompt_total|]. split; [exact Hinit|].
  destruct (MusicGenerator.process _ duration s1) as [[[audio rate]|e] s2];
    cbn [fst snd]; [|injection Hrun as <- <-; split; reflexivity].
  unfold MusicOrchestrator.lift_result, ret, raise in Hrun.
  destruct (py_truediv (Z.of_nat (length audio)) rate) as [q|e];
    injection Hrun as <- <-; split; reflexivity.
Qed.

(** A run of the orchestrator that makes no call to the audio model does
    not depend on the requested duration. *)
Lemma orchestrator_without_call_any_duration (analysis_result : gmap string value)
    (d1 d2 : option Z) (s : store W) :
  synth_calls (snd (MusicOrchestrator.process analysis_result d1 s)) = synth_calls s ->
  MusicOrchestrator.process analysis_result d2 s =
  MusicOrchestrator.process analysis_result d1 s.
Proof.
  unfold MusicOrchestrator.process, getitem_str, getitem_scores, getitem,
    bind, ret, raise.
  pose proof (keeps_init_music_generator s) as Hinit.
  destruct (MusicOrchestrator.init_music_generator s) as [[[]|e] s1];
    cbn [snd] in Hinit; [|reflexivity].
  destruct (analysis_result !! "caption") as [[caption| | | |]|]; try reflexivity.
  destruct (analysis_result !! "primary_mood") as [[primary_mood| | | |]|];
    try reflexivity.
  destruct (analysis_result !! "mood_scores") as [[| | |mood_scores|]|];
    try reflexivity.
  rewrite create_prompt_total. cbn [MusicOrchestrator.lift_result].
  unfold MusicGenerator.generate_with_emotion, ret.
  intros Hnone. exfalso.
  match type of Hnone with
  | context [MusicGenerator.process ?p d1 s1] =>
      destruct (process_attempts p d1 s1) as (calls & Hcalls & Hrun);
      destruct (attempts_head _ _ _ _ Hrun) as (c & rest & -> & _);
      destruct (MusicGenerator.process p d1 s1) as [[[audio rate]|e] s2]
  end; cbn [snd] in Hcalls.
  - unfold MusicOrchestrator.lift_result, ret, raise in Hnone.
    destruct (py_truediv (Z.of_nat (length audio)) rate); cbn [snd] in Hnone;
      rewrite Hcalls, Hinit in Hnone;
      apply (f_equal (@length call)) in Hnone;
      rewrite length_app in Hnone; cbn [length] in Hnone; lia.
  - cbn [snd] in Hnone. rewrite Hcalls, Hinit in Hnone.
    apply (f_equal (@length call)) in Hnone.
    rewrite length_app in Hnone. cbn [length] in Hnone. lia.
Qed.

End PipelineFacts.

(** ** Claims about the audio generator *)

Section GeneratorClaims.
Context {W : Type} {collab : Collaborators W}.

(** C1 (amended): a call of the audio model that fails with an
    out-of-memory [RuntimeError] at the validated duration [D] is retried
    with [D // 2] only when [D] exceeds 5, and the retry follows the same
    policy, so the duration is halved again after each such failure; the
    run ends with the first call that returns, that fails in another way,
    or that fails at a duration of at most 5, whose exception is raised.
    The validated duration is at most 30, so a run makes between one and
    four calls. *)
Theorem oom_retry_halves_while_above_five
    (prompt : string) (duration : option Z) (s : store W) :
  exists calls : list call,
    synth_calls (snd (MusicGenerator.process prompt duration s)) =
      (synth_calls s ++ calls)%list /\
    attempts prompt (MusicGenerator.validated_duration duration) calls
      (fst (MusicGenerator.process prompt duration s)) /\
    (1 <= length calls <= 4)%nat.
Proof.
  destruct (process_attempts prompt duration s) as (calls & Hcalls & Hrun).
  exists calls. split; [exact Hcalls|]. split; [exact Hrun|].
  pose proof (validated_duration_le duration) as Hmax.
  destruct (attempts_length _ _ _ _ Hrun) as (_ & _ & _ & H4).
  destruct (attempts_head _ _ _ _ Hrun) as (c & rest & -> & _).
  cbn [length] in *. lia.
Qed.

End GeneratorClaims.

(** The counterexample of C1 as stated: the audio model runs out of memory
    at 30 seconds and again at the retry with 15 seconds; the generator
    then makes a second retry with 7 seconds, which returns, and the
    request succeeds instead of failing after the first retry. *)
Lemma single_retry_counterexample :
  fst (MusicGenerator.process
         (collab := Scenario.scripted (Ok "a forest") Scenario.forest_moods 2 Scenario.tone)
         "calm music" (Some 30) Scenario.fresh) = Ok (Scenario.tone, 32000) /\
  map (fun c => (call_duration c, call_raised c))
      (synth_calls
         (snd (MusicGenerator.process
                 (collab := Scenario.scripted (Ok "a forest") Scenario.forest_moods 2 Scenario.tone)
                 "calm music" (Some 30) Scenario.fresh))) =
    [(30, Some Scenario.cuda_oom); (15, Some Scenario.cuda_oom); (7, None)].
Proof. split; vm_compute; reflexivity. Qed.

(** An out-of-memory failure at a duration of at most 5 is not retried. *)
Example oom_at_short_duration_not_retried :
  fst (MusicGenerator.process
         (collab := Scenario.scripted (Ok "a forest") Scenario.forest_moods 1 Scenario.tone)
         "calm music" (Some 5) Scenario.fresh) = Raise Scenario.cuda_oom /\
  map call_duration
      (synth_calls
         (snd (MusicGenerator.process
                 (collab := Scenario.scripted (Ok "a forest") Scenario.forest_moods 1 Scenario.tone)
                 "calm music" (Some 5) Scenario.fresh))) = [5].
Proof. split; vm_compute; reflexivity. Qed.

(** A model that keeps running out of memory is called four times from
    the maximum duration before the error is raised. *)
Example persistent_oom_from_maximum :
  fst (MusicGenerator.process
         (collab := Scenario.scripted (Ok "a forest") Scenario.forest_moods 9 Scenario.tone)
         "calm music" (Some 1000) Scenario.fresh) = Raise Scenario.cuda_oom /\
  map call_duration
      (synth_calls
         (snd (MusicGenerator.process
                 (collab := Scenario.scripted (Ok "a forest") Scenario.forest_moods 9 Scenario.tone)
                 "calm music" (Some 1000) Scenario.fresh))) = [30; 15; 7; 3].
Proof. split; vm_compute; reflexivity. Qed.

(** ** Claims about the whole pipeline *)

Section PipelineClaims.
Context {W : Type} {collab : Collaborators W}.

Lemma validated_duration_effective (requested : option Z) :
  MusicGenerator.validated_duration
    (Some (py_or requested (default_duration (audio config)))) =
  effective_duration requested.
Proof.
  unfold MusicGenerator.validated_duration, effective_duration, py_or.
  change (default_duration (audio config)) with 10.
  change MusicGenerator.self_default_duration with 10.
  change (max_duration (audio config)) with 30.
  destruct requested as [d|]; [|reflexivity].
  destruct (Z.eqb_spec d 0) as [->|Hnz]; [reflexivity|].
  destruct (Z.eqb_spec d 0); [contradiction|].
  destruct (Z.gtb_spec d 30), (Z.ltb_spec 30 d); lia.
Qed.

Lemma attempts_durations_le (prompt : string) (d : Z) (calls : list call)
    (r : result (list float * Z)) :
  attempts prompt d calls r ->
  Forall (fun c => call_duration c <= d) calls.
Proof.
  induction 1 as [d a | d e He | d e calls r Hrt Hoom Hd Hrun IH];
    try (repeat constructor; cbn; lia).
  constructor; [cbn; lia|].
  pose proof (Z.div_mod d 2 ltac:(lia)). pose proof (Z.mod_pos_bound d 2 ltac:(lia)).
  eapply Forall_impl; [exact IH|]. cbn. intros c Hc. lia.
Qed.

(** The two ways [process_image] can go: it raises before the orchestrator
    runs and the audio model is not called, or the analysis returns and
    the outcome is that of the orchestrator on the analysis result. *)
Lemma process_image_cases (image_path : string) (duration : option Z) (s : store W) :
  (exists e,
     fst (SemanticSonifier.process_image image_path duration s) = Raise e /\
     synth_calls (snd (SemanticSonifier.process_image image_path duration s)) =
       synth_calls s) \/
  (exists analysis_result s1,
     path_exists image_path (ext s) = true /\
     ImageAnalyzer.process image_path s = (Ok analysis_result, s1) /\
     synth_calls s1 = synth_calls s /\
     snd (SemanticSonifier.process_image image_path duration s) =
       snd (MusicOrchestrator.process analysis_result
              (Some (py_or duration (default_duration (audio config)))) s1) /\
     fst (SemanticSonifier.process_image image_path duration s) =
       match fst (MusicOrchestrator.process analysis_result
                    (Some (py_or duration (default_duration (audio config)))) s1) with
       | Ok music_result => Ok (music_result ∪ analysis_result)
       | Raise e => Raise e
       end).
Proof.
  unfold SemanticSonifier.process_image.
  destruct (path_exists image_path (ext s)) eqn:Hexists; cbn [negb];
    [|left; eexists; split; reflexivity].
  unfold bind. rewrite safe_process_id.
  pose proof (keeps_image_analyzer image_path s) as Hkeep.
  destruct (ImageAnalyzer.process image_path s) as [[analysis|e] s1] eqn:Hana;
    cbn [snd] in Hkeep; [|left; eauto].
  rewrite safe_process_id.
  right. exists analysis, s1.
  split; [reflexivity|]. split; [reflexivity|]. split; [exact Hkeep|].
  destruct (MusicOrchestrator.process analysis _ s1) as [[music|e] s2];
    split; reflexivity.
Qed.

(** A run of the pipeline that makes no call to the audio model does not
    depend on the requested duration. *)
Lemma process_image_without_call_any_duration (image_path : string)
    (d1 d2 : option Z) (s : store W) :
  synth_calls (snd (SemanticSonifier.process_image image_path d1 s)) = synth_calls s ->
  SemanticSonifier.process_image image_path d2 s =
  SemanticSonifier.process_image image_path d1 s.
Proof.
  unfold SemanticSonifier.process_image.
  destruct (path_exists image_path (ext s)); cbn [negb]; [|reflexivity].
  unfold bind, ret. rewrite safe_process_id.
  pose proof (keeps_image_analyzer image_path s) as Hkeep.
  destruct (ImageAnalyzer.process image_path s) as [[analysis|e] s1];
    cbn [snd] in Hkeep; [|reflexivity].
  rewrite !safe_process_id. intros Hnone.
  rewrite (orchestrator_without_call_any_duration analysis
             (Some (py_or d1 (default_duration (audio config))))
             (Some (py_or d2 (default_duration (audio config)))) s1);
    [reflexivity|].
  rewrite Hkeep.
  destruct (MusicOrchestrator.process analysis
              (Some (py_or d1 (default_duration (audio config)))) s1)
    as [[music|e] s2]; exact Hnone.
Qed.

(** C2 (amended): the duration the audio model is first called with is
    the request capped at the configured maximum of 30 seconds, with the
    default of 10 seconds in place of a missing request and of a request of
    0; there is no lower bound, a request below the maximum and different
    from 0 is used as it is, and no call works with more than the maximum.
    No request is rejected for its duration: whenever the pipeline returns,
    the model was called, and a run that ends before the model is called
    ends in the same way for every requested duration. *)
Theorem requested_duration_capped_at_maximum
    (image_path : string) (duration : option Z) (s : store W) :
  exists calls : list call,
    synth_calls (snd (SemanticSonifier.process_image image_path duration s)) =
      (synth_calls s ++ calls)%list /\
    (forall c rest, calls = c :: rest ->
       call_duration c = effective_duration duration /\
       call_max_new_tokens c = effective_duration duration * 50) /\
    Forall (fun c => call_duration c <= max_duration (audio config)) calls /\
    (forall final_result,
       fst (SemanticSonifier.process_image image_path duration s) = Ok final_result ->
       calls <> []) /\
    (calls = [] ->
     forall duration',
       SemanticSonifier.process_image image_path duration' s =
       SemanticSonifier.process_image image_path duration s).
Proof.
  assert (Hsame : forall calls,
            synth_calls (snd (SemanticSonifier.process_image image_path duration s)) =
              (synth_calls s ++ calls)%list ->
            calls = [] ->
            forall duration',
              SemanticSonifier.process_image image_path duration' s =
              SemanticSonifier.process_image image_path duration s).
  { intros calls Hcalls -> duration'. rewrite app_nil_r in Hcalls.
    now apply process_image_without_call_any_duration. }
  cut (exists calls : list call,
         synth_calls (snd (SemanticSonifier.process_image image_path duration s)) =
           (synth_calls s ++ calls)%list /\
         (forall c rest, calls = c :: rest ->
            call_duration c = effective_duration duration /\
            call_max_new_tokens c = effective_duration duration * 50) /\
         Forall (fun c => call_duration c <= max_duration (audio config)) calls /\
         (forall final_result,
            fst (SemanticSonifier.process_image image_path duration s) = Ok final_result ->
            calls <> [])).
  { intros (calls & H1 & H2 & H3 & H4). exists calls.
    split; [exact H1|]. split; [exact H2|]. split; [exact H3|].
    split; [exact H4|]. exact (Hsame calls H1). }
  clear Hsame.
  destruct (process_image_cases image_path duration s)
    as [(e & Hr & Hc) | (analysis & s1 & _ & _ & Hs1 & Hsnd & Hfst)].
  { exists []. rewrite Hc, app_nil_r. repeat split; try constructor;
      intros; congruence. }
  rewrite Hsnd, Hfst.
  destruct (orchestrator_process_cases analysis
              (Some (py_or duration (default_duration (audio config)))) s1)
    as [(e & Hr & Hc) | (caption & mood & scores & prompt & s2 & _ & _ & _ & _
                         & Hs2 & Hsnd' & Hfst')].
  { exists []. rewrite Hc, Hs1, app_nil_r, Hr. repeat split; try constructor;
      intros; congruence. }
  rewrite Hsnd', Hfst'.
  destruct (process_attempts
              ("A " +:+ mood +:+ " piece of music, " +:+ prompt)
              (Some (py_or duration (default_duration (audio config)))) s2)
    as (calls & Hcalls & Hrun).
  rewrite validated_duration_effective in Hrun.
  exists calls. rewrite Hcalls, Hs2, Hs1.
  split; [reflexivity|]. split; [|split].
  - intros c rest ->. destruct (attempts_head _ _ _ _ Hrun) as (c' & rest' & [= <- <-] & Hd & Ht).
    auto.
  - eapply Forall_impl; [exact (attempts_durations_le _ _ _ _ Hrun)|].
    cbn. intros c Hc.
    assert (effective_duration duration <= 30).
    { rewrite <- validated_duration_effective. apply validated_duration_le. }
    change (max_duration (audio config)) with 30. lia.
  - intros final _ ->. destruct (attempts_head _ _ _ _ Hrun) as (? & ? & [=] & _).
Qed.

End PipelineClaims.

(** The counterexample of C2 as stated: a request of 0 seconds reaches the
    audio model as the default of 10 seconds, not as the lower bound 1. *)
Lemma zero_duration_counterexample :
  map call_duration
      (synth_calls
         (snd (SemanticSonifier.process_image
                 (collab := Scenario.scripted (Ok "a forest") Scenario.forest_moods 0 Scenario.tone)
                 "photo.jpg" (Some 0) Scenario.fresh))) = [10] /\
  map call_duration
      (synth_calls
         (snd (SemanticSonifier.process_image
                 (collab := Scenario.scripted (Ok "a forest") Scenario.forest_moods 0 Scenario.tone)
                 "photo.jpg" (Some 0) Scenario.fresh))) <> [1].
Proof. split; vm_compute; [reflexivity | discriminate]. Qed.

(** The effective duration at the requests of the specification and at a
    few others. *)
Example effective_duration_values :
  effective_duration (Some 1000) = 30 /\
  effective_duration (Some 0) = 10 /\
  effective_duration None = 10 /\
  effective_duration (Some 7) = 7 /\
  effective_duration (Some (-5)) = -5.
Proof. repeat split. Qed.

(** A request of 1000 seconds reaches the audio model as 30 seconds. *)
Example thousand_seconds_capped :
  map call_duration
      (synth_calls
         (snd (SemanticSonifier.process_image
                 (collab := Scenario.scripted (Ok "a forest") Scenario.forest_moods 0 Scenario.tone)
                 "photo.jpg" (Some 1000) Scenario.fresh))) = [30].
Proof. vm_compute; reflexivity. Qed.

(** A negative request is handed on unchanged. *)
Example negative_duration_not_raised_to_one :
  map call_duration
      (synth_calls
         (snd (SemanticSonifier.process_image
                 (collab := Scenario.scripted (Ok "a forest") Scenario.forest_moods 0 Scenario.tone)
                 "photo.jpg" (Some (-5)) Scenario.fresh))) = [-5].
Proof. vm_compute; reflexivity. Qed.


Section ResultClaims.
Context {W : Type} {collab : Collaborators W}.

(** What the orchestrator returns when it returns: the four generation
    entries, the sample rate of the configuration, the composed prompt, and
    the quotient of the number of samples by the sample rate. *)
Lemma orchestrator_result (analysis_result : gmap string value)
    (duration : option Z) (s : store W) (music_result : gmap string value) :
  fst (MusicOrchestrator.process analysis_result duration s) = Ok music_result ->
  exists caption primary_mood mood_scores prompt audio_array,
    analysis_result !! "caption" = Some (VStr caption) /\
    analysis_result !! "primary_mood" = Some (VStr primary_mood) /\
    analysis_result !! "mood_scores" = Some (VScores mood_scores) /\
    MusicOrchestrator._create_intelligent_prompt caption primary_mood mood_scores =
      Ok prompt /\
    music_result =
      {[ "audio_array" := VAudio audio_array;
         "sample_rate" := VInt 32000;
         "prompt_used" := VStr prompt;
         "duration_seconds" :=
           VRatio (inject_Z (Z.of_nat (length audio_array)) / inject_Z 32000) ]}.
Proof.
  intros Hok.
  destruct (orchestrator_process_cases analysis_result duration s)
    as [(e & Hr & _) | (caption & mood & scores & prompt & s1 & Hc & Hm & Hs & Hp
                        & _ & _ & Hfst)]; [congruence|].
  rewrite Hfst in Hok.
  destruct (process_attempts ("A " +:+ mood +:+ " piece of music, " +:+ prompt)
              duration s1) as (calls & _ & Hrun).
  destruct (fst (MusicGenerator.process _ duration s1)) as [[audio rate]|e];
    [|discriminate].
  apply attempts_sample_rate in Hrun. subst rate.
  cbn in Hok. injection Hok as <-.
  exists caption, mood, scores, prompt, audio. auto.
Qed.

(** The orchestrator whose generator cannot be set up raises what the
    set-up raised; nothing else is run. *)
Lemma orchestrator_setup_fails (analysis_result : gmap string value)
    (duration : option Z) (s s1 : store W) (e : exn) :
  MusicOrchestrator.init_music_generator s = (Raise e, s1) ->
  MusicOrchestrator.process analysis_result duration s = (Raise e, s1).
Proof.
  intros Hinit. unfold MusicOrchestrator.process. unfold bind at 1.
  rewrite Hinit. reflexivity.
Qed.

(** Once the generator is set up, the orchestrator on a complete analysis
    result runs the generator on the enhanced prompt. *)
Lemma orchestrator_after_setup (analysis_result : gmap string value)
    (duration : option Z) (s s1 : store W)
    (caption primary_mood : string) (mood_scores : list (string * float))
    (prompt : string) :
  analysis_result !! "caption" = Some (VStr caption) ->
  analysis_result !! "primary_mood" = Some (VStr primary_mood) ->
  analysis_result !! "mood_scores" = Some (VScores mood_scores) ->
  MusicOrchestrator._create_intelligent_prompt caption primary_mood mood_scores =
    Ok prompt ->
  MusicOrchestrator.init_music_generator s = (Ok tt, s1) ->
  snd (MusicOrchestrator.process analysis_result duration s) =
    snd (MusicGenerator.process
           ("A " +:+ primary_mood +:+ " piece of music, " +:+ prompt) duration s1).
Proof.
  intros Hcap Hmood Hscores Hprompt Hinit.
  unfold MusicOrchestrator.process. unfold bind at 1. rewrite Hinit.
  unfold getitem_str, getitem_scores, getitem, bind, ret, raise.
  rewrite Hcap, Hmood, Hscores, Hprompt.
  cbn [MusicOrchestrator.lift_result]. unfold MusicGenerator.generate_with_emotion, ret.
  destruct (MusicGenerator.process _ duration s1) as [[[audio rate]|e] s2];
    cbn [snd]; [|reflexivity].
  unfold MusicOrchestrator.lift_result, ret, raise.
  destruct (py_truediv (Z.of_nat (length audio)) rate); reflexivity.
Qed.

(** C8: the prompt handed to the audio model is not the composed prompt
    that the result records. For every analysis result with a caption, a
    mood and scores, once the generator is set up the orchestrator calls
    the audio model, and the first call, like every later one, carries
    "A {primary_mood} piece of music, " followed by the composed prompt, so
    the mood clause occurs twice at its start; the only run without a call
    is the one in which loading the audio model raised, and it ends with
    that exception. [prompt_used] of a returned result holds the composed
    prompt alone. *)
Theorem enhanced_prompt_submitted_composed_prompt_recorded
    (analysis_result : gmap string value) (duration : option Z) (s : store W)
    (caption primary_mood : string) (mood_scores : list (string * float)) :
  analysis_result !! "caption" = Some (VStr caption) ->
  analysis_result !! "primary_mood" = Some (VStr primary_mood) ->
  analysis_result !! "mood_scores" = Some (VScores mood_scores) ->
  exists (composed : string) (calls : list call),
    MusicOrchestrator._create_intelligent_prompt caption primary_mood mood_scores =
      Ok composed /\
    synth_calls (snd (MusicOrchestrator.process analysis_result duration s)) =
      (synth_calls s ++ calls)%list /\
    (forall s1,
       MusicOrchestrator.init_music_generator s = (Ok tt, s1) ->
       exists first later,
         calls = first :: later /\
         call_prompt first =
           "A " +:+ primary_mood +:+ " piece of music, " +:+ composed /\
         call_duration first = MusicGenerator.validated_duration duration /\
         call_max_new_tokens first = MusicGenerator.validated_duration duration * 50) /\
    (forall e s1,
       MusicOrchestrator.init_music_generator s = (Raise e, s1) ->
       calls = [] /\
       MusicOrchestrator.process analysis_result duration s = (Raise e, s1)) /\
    Forall (fun c => call_prompt c =
                     "A " +:+ primary_mood +:+ " piece of music, " +:+ composed) calls /\
    (forall music_result,
       fst (MusicOrchestrator.process analysis_result duration s) = Ok music_result ->
       calls <> [] /\ music_result !! "prompt_used" = Some (VStr composed)) /\
    "A " +:+ primary_mood +:+ " piece of music, " +:+ composed <> composed /\
    exists rest,
      "A " +:+ primary_mood +:+ " piece of music, " +:+ composed =
      "A " +:+ primary_mood +:+ " piece of music, " +:+
      "A " +:+ primary_mood +:+ " piece of music for " +:+ caption +:+ rest.
Proof.
  intros Hcap Hmood Hscores.
  pose proof (create_prompt_total caption primary_mood mood_scores) as Hcomposed.
  set (composed := PyStr.join ", " _) in Hcomposed.
  exists composed.
  assert (Hdiff : "A " +:+ primary_mood +:+ " piece of music, " +:+ composed <> composed).
  { intros Heq. apply (f_equal String.length) in Heq.
    rewrite !str_app_length in Heq. cbn in Heq. lia. }
  assert (Htwice : exists rest,
    "A " +:+ primary_mood +:+ " piece of music, " +:+ composed =
    "A " +:+ primary_mood +:+ " piece of music, " +:+
    "A " +:+ primary_mood +:+ " piece of music for " +:+ caption +:+ rest).
  { subst composed. rewrite join_cons. unfold Composer.base_clause.
    eexists. rewrite !str_app_assoc. reflexivity. }
  pose proof (keeps_init_music_generator s) as Hkeeps.
  destruct (MusicOrchestrator.init_music_generator s) as [[[]|e] s1] eqn:Hinit;
    cbn [snd] in Hkeeps.
  - pose proof (orchestrator_after_setup analysis_result duration s s1 caption
                  primary_mood mood_scores composed Hcap Hmood Hscores Hcomposed Hinit)
      as Hsnd.
    destruct (process_attempts
                ("A " +:+ primary_mood +:+ " piece of music, " +:+ composed) duration s1)
      as (calls & Hcalls & Hrun).
    exists calls. rewrite Hsnd, Hcalls, Hkeeps.
    split; [exact Hcomposed|]. split; [reflexivity|].
    pose proof (attempts_prompt _ _ _ _ Hrun) as Hall.
    destruct (attempts_head _ _ _ _ Hrun) as (first & later & -> & Hd & Ht).
    split.
    { intros s1' _. exists first, later. split; [reflexivity|].
      split; [exact (Forall_inv Hall)|]. split; assumption. }
    split; [intros e s1' [=]|].
    split; [exact Hall|].
    split; [|split; assumption].
    intros music Hok. split; [discriminate|].
    apply orchestrator_result in Hok
      as (c2 & m2 & sc2 & p2 & audio & Hc2 & Hm2 & Hs2 & Hp2 & ->).
    assert (c2 = caption) by congruence.
    assert (m2 = primary_mood) by congruence.
    assert (sc2 = mood_scores) by congruence. subst.
    assert (p2 = composed) by congruence. subst p2. reflexivity.
  - rewrite (orchestrator_setup_fails analysis_result duration s s1 e Hinit).
    exists []. cbn [fst snd]. rewrite app_nil_r.
    split; [exact Hcomposed|]. split; [exact Hkeeps|].
    split; [intros s1' [=]|].
    split; [intros e' s1' [= <- <-]; split; reflexivity|].
    split; [constructor|].
    split; [intros music [=]|].
    split; assumption.
Qed.

(** C10: whenever the orchestrator returns a generation result, its
    [duration_seconds] is the number of samples of the returned
    [audio_array] divided by the returned [sample_rate], whatever duration
    was requested and whatever length the audio model delivered. *)
Theorem duration_seconds_from_waveform
    (analysis_result : gmap string value) (duration : option Z) (s : store W)
    (music_result : gmap string value) :
  fst (MusicOrchestrator.process analysis_result duration s) = Ok music_result ->
  exists (audio_array : list float) (rate : Z),
    music_result !! "audio_array" = Some (VAudio audio_array) /\
    music_result !! "sample_rate" = Some (VInt rate) /\
    rate = sample_rate (audio config) /\
    rate <> 0 /\
    py_truediv (Z.of_nat (length audio_array)) rate =
      Ok (inject_Z (Z.of_nat (length audio_array)) / inject_Z rate)%Q /\
    music_result !! "duration_seconds" =
      Some (VRatio (inject_Z (Z.of_nat (length audio_array)) / inject_Z rate)).
Proof.
  intros Hok.
  apply orchestrator_result in Hok
    as (c & m & sc & p & audio & _ & _ & _ & _ & ->).
  exists audio, 32000. repeat split; try reflexivity. discriminate.
Qed.

(** C9: whenever the pipeline returns, the merged record is the union of
    the analysis result, whose keys are exactly caption, primary_mood,
    mood_scores and image_path, and the generation result, whose keys are
    exactly audio_array, sample_rate, prompt_used and duration_seconds;
    the two key sets are disjoint, the keys of the merged record are their
    union, and every entry of either result, caption and primary_mood
    among them, is found unchanged in the merged record. *)
Theorem merged_record_is_disjoint_union
    (image_path : string) (duration : option Z) (s : store W)
    (final_result : gmap string value) :
  fst (SemanticSonifier.process_image image_path duration s) = Ok final_result ->
  exists (analysis_result music_result : gmap string value) (s1 : store W),
    ImageAnalyzer.process image_path s = (Ok analysis_result, s1) /\
    fst (MusicOrchestrator.process analysis_result
           (Some (py_or duration (default_duration (audio config)))) s1) =
      Ok music_result /\
    dom analysis_result =
      ({[ "caption"; "primary_mood"; "mood_scores"; "image_path" ]} : gset string) /\
    dom music_result =
      ({[ "audio_array"; "sample_rate"; "prompt_used"; "duration_seconds" ]}
         : gset string) /\
    dom analysis_result ## dom music_result /\
    dom final_result = dom analysis_result ∪ dom music_result /\
    final_result !! "caption" = analysis_result !! "caption" /\
    final_result !! "primary_mood" = analysis_result !! "primary_mood" /\
    (forall k, k ∈ dom analysis_result ->
               final_result !! k = analysis_result !! k) /\
    (forall k, k ∈ dom music_result ->
               final_result !! k = music_result !! k).
Proof.
  intros Hok.
  destruct (process_image_cases image_path duration s)
    as [(e & Hr & _) | (analysis & s1 & _ & Hana & _ & _ & Hfst)]; [congruence|].
  rewrite Hfst in Hok.
  destruct (fst (MusicOrchestrator.process analysis _ s1)) as [music|e] eqn:Hmusic;
    [|discriminate].
  injection Hok as <-.
  exists analysis, music, s1.
  split; [exact Hana|]. split; [exact Hmusic|].
  apply image_analyzer_result in Hana as (caption & mood & scores & ->).
  apply orchestrator_result in Hmusic
    as (c & m & sc & p & audio & _ & _ & _ & _ & ->).
  assert (Hda : dom ({[ "caption" := VStr caption;
                        "primary_mood" := VStr mood;
                        "mood_scores" := VScores scores;
                        "image_path" := VStr image_path ]} : gmap string value) =
                ({[ "caption"; "primary_mood"; "mood_scores"; "image_path" ]}
                   : gset string)).
  { rewrite !dom_insert_L, dom_singleton_L. set_solver. }
  assert (Hdm : dom ({[ "audio_array" := VAudio audio;
                        "sample_rate" := VInt 32000;
                        "prompt_used" := VStr p;
                        "duration_seconds" :=
                          VRatio (inject_Z (Z.of_nat (length audio)) / inject_Z 32000) ]}
                       : gmap string value) =
                ({[ "audio_array"; "sample_rate"; "prompt_used"; "duration_seconds" ]}
                   : gset string)).
  { rewrite !dom_insert_L, dom_singleton_L. set_solver. }
  assert (Hdisj : ({[ "caption"; "primary_mood"; "mood_scores"; "image_path" ]}
                     : gset string) ##
                  ({[ "audio_array"; "sample_rate"; "prompt_used"; "duration_seconds" ]}
                     : gset string)).
  { apply (bool_decide_unpack _). vm_compute. exact I. }
  rewrite Hda, Hdm.
  split; [reflexivity|]. split; [reflexivity|]. split; [exact Hdisj|].
  split; [rewrite dom_union_L, Hda, Hdm; set_solver|].
  assert (Hleft : forall k : string,
            k ∈ ({[ "caption"; "primary_mood"; "mood_scores"; "image_path" ]}
                   : gset string) ->
            ({[ "audio_array" := VAudio audio;
                "sample_rate" := VInt 32000;
                "prompt_used" := VStr p;
                "duration_seconds" :=
                  VRatio (inject_Z (Z.of_nat (length audio)) / inject_Z 32000) ]}
               : gmap string value) !! k = None).
  { intros k Hk. apply not_elem_of_dom. rewrite Hdm.
    intros Hk'. exact (proj1 (elem_of_disjoint _ _) Hdisj k Hk Hk'). }
  split; [apply lookup_union_r, Hleft; set_solver|].
  split; [apply lookup_union_r, Hleft; set_solver|].
  split.
  - intros k Hk. apply lookup_union_r, Hleft, Hk.
  - intros k Hk. rewrite <- Hdm in Hk. apply elem_of_dom in Hk as [v Hv].
    rewrite Hv. apply lookup_union_Some_l. exact Hv.
Qed.

End ResultClaims.

(** ** Claims about the caption fallback *)

Section CaptionClaims.
Context {W : Type} {collab : Collaborators W}.

(** The outcome of the caption wrapper, by cases on what the image decoder
    and the caption model do. *)
Lemma blip2_process_cases (image_path : string) (max_length : option Z)
    (s : store W) :
  match image_open image_path (ext s) with
  | (Raise _, _) =>
      fst (BLIP2Model.process image_path max_length s) = Ok "an image"
  | (Ok img, w) =>
      match blip2_caption img (py_or max_length BLIP2Model.self_max_length) w with
      | (Ok caption, _) =>
          fst (BLIP2Model.process image_path max_length s) = Ok caption
      | (Raise e, _) =>
          fst (BLIP2Model.process image_path max_length s) =
          if is_RuntimeError e then Raise e else Ok "an image"
      end
  end.
Proof.
  unfold BLIP2Model.process, try_except, bind, external, ret, raise.
  destruct (image_open image_path (ext s)) as [[img|e] w]; cbn.
  - destruct (blip2_caption img (py_or max_length BLIP2Model.self_max_length) w)
      as [[caption|e] w']; cbn; [reflexivity|].
    destruct (is_RuntimeError e); reflexivity.
  - destruct e; reflexivity.
Qed.

Lemma blip2_process_raises_runtime_only (image_path : string)
    (max_length : option Z) (s : store W) (e : exn) :
  fst (BLIP2Model.process image_path max_length s) = Raise e ->
  is_RuntimeError e = true.
Proof.
  pose proof (blip2_process_cases image_path max_length s) as Hcases.
  destruct (image_open image_path (ext s)) as [[img|e0] w]; [|congruence].
  destruct (blip2_caption img _ w) as [[caption|e1] w']; [congruence|].
  destruct (is_RuntimeError e1) eqn:Hrt; congruence.
Qed.

Lemma clip_process_total (image_path : string) (top_k : Z) (s : store W) :
  exists moods, fst (CLIPMoodAnalyzer.process image_path top_k s) = Ok moods.
Proof.
  unfold CLIPMoodAnalyzer.process, try_except, external, ret.
  destruct (clip_moods image_path top_k (ext s)) as [[moods|e] w]; cbn; eauto.
Qed.

(** C3 (amended): the caption wrapper returns the fixed caption "an image"
    for every failure of the image loading and for every failure of the
    caption inference that is not a [RuntimeError]; a [RuntimeError] of
    the caption inference, an exhausted memory included, is raised again.
    Inside the pipeline, once the model handles exist, a caption the
    wrapper returns, the fallback included, becomes the caption of the
    analysis result, and an exception the wrapper raises is a
    [RuntimeError] that aborts the request before the audio model is
    called. *)
Theorem caption_fallback_except_runtime_error
    (image_path : string) (max_length duration : option Z) (s sa sb : store W) :
  match image_open image_path (ext s) with
  | (Raise _, _) =>
      fst (BLIP2Model.process image_path max_length s) = Ok "an image"
  | (Ok img, w) =>
      match blip2_caption img (py_or max_length BLIP2Model.self_max_length) w with
      | (Ok caption, _) =>
          fst (BLIP2Model.process image_path max_length s) = Ok caption
      | (Raise e, _) =>
          fst (BLIP2Model.process image_path max_length s) =
          if is_RuntimeError e then Raise e else Ok "an image"
      end
  end /\
  (ImageAnalyzer.init_blip_model s = (Ok tt, sa) ->
   ImageAnalyzer.init_clip_analyzer sa = (Ok tt, sb) ->
   (forall caption,
      fst (BLIP2Model.process image_path None sb) = Ok caption ->
      exists analysis_result,
        fst (ImageAnalyzer.process image_path s) = Ok analysis_result /\
        analysis_result !! "caption" = Some (VStr caption)) /\
   (forall e,
      fst (BLIP2Model.process image_path None sb) = Raise e ->
      is_RuntimeError e = true /\
      fst (ImageAnalyzer.process image_path s) = Raise e /\
      (path_exists image_path (ext s) = true ->
       fst (SemanticSonifier.process_image image_path duration s) = Raise e /\
       synth_calls (snd (SemanticSonifier.process_image image_path duration s)) =
         synth_calls s))).
Proof.
  split; [apply blip2_process_cases|].
  intros Hblip Hclip.
  assert (Hana : forall e,
            fst (BLIP2Model.process image_path None sb) = Raise e ->
            fst (ImageAnalyzer.process image_path s) = Raise e).
  { intros e He. unfold ImageAnalyzer.process, bind. rewrite Hblip, Hclip.
    destruct (BLIP2Model.process image_path None sb) as [[c|e'] sc];
      cbn in He |- *; [discriminate|]. congruence. }
  split.
  - intros caption Hcap. unfold ImageAnalyzer.process, bind.
    rewrite Hblip, Hclip.
    destruct (BLIP2Model.process image_path None sb) as [[c|e'] sc];
      cbn in Hcap; [|discriminate]. injection Hcap as ->.
    destruct (clip_process_total image_path 3 sc) as ([mood scores] & Hmoods).
    destruct (CLIPMoodAnalyzer.process image_path 3 sc) as [[[m sc']|e'] sd];
      cbn in Hmoods; [|discriminate].
    eexists. split; [reflexivity|]. reflexivity.
  - intros e He. split; [exact (blip2_process_raises_runtime_only _ _ _ _ He)|].
    split; [exact (Hana e He)|].
    intros Hexists.
    destruct (process_image_cases image_path duration s)
      as [(e' & Hr & Hc) | (analysis & s1 & _ & Hrun & _)].
    + split; [|exact Hc].
      rewrite Hr. unfold SemanticSonifier.process_image in Hr.
      rewrite Hexists in Hr. cbn [negb] in Hr. unfold bind in Hr.
      rewrite safe_process_id in Hr. specialize (Hana e He).
      destruct (ImageAnalyzer.process image_path s) as [[a|e''] s1];
        cbn in Hana; [discriminate|]. cbn in Hr. congruence.
    + specialize (Hana e He). rewrite Hrun in Hana. discriminate.
Qed.

End CaptionClaims.

(** The counterexample of C3 as stated: the caption model runs out of
    memory; the wrapper raises the error again, the pipeline raises it and
    no audio is generated. *)
Lemma caption_runtime_error_counterexample :
  fst (BLIP2Model.process
         (collab := Scenario.scripted (Raise Scenario.cuda_oom) Scenario.forest_moods 0 Scenario.tone)
         "photo.jpg" None Scenario.fresh) = Raise Scenario.cuda_oom /\
  fst (SemanticSonifier.process_image
         (collab := Scenario.scripted (Raise Scenario.cuda_oom) Scenario.forest_moods 0 Scenario.tone)
         "photo.jpg" (Some 10) Scenario.fresh) = Raise Scenario.cuda_oom /\
  synth_calls
    (snd (SemanticSonifier.process_image
            (collab := Scenario.scripted (Raise Scenario.cuda_oom) Scenario.forest_moods 0 Scenario.tone)
            "photo.jpg" (Some 10) Scenario.fresh)) = [].
Proof. repeat split; vm_compute; reflexivity. Qed.

(** A [RuntimeError] that is not about memory aborts the request as well. *)
Example caption_other_runtime_error_aborts :
  fst (SemanticSonifier.process_image
         (collab := Scenario.scripted
                      (Raise (RuntimeError "expected scalar type Half but found Float"))
                      Scenario.forest_moods 0 Scenario.tone)
         "photo.jpg" (Some 10) Scenario.fresh) =
  Raise (RuntimeError "expected scalar type Half but found Float").
Proof. vm_compute; reflexivity. Qed.

(** The witness of C3: the caption inference fails with an exception that
    is not a [RuntimeError]; the analysis returns with the fallback
    caption. *)
Lemma caption_fallback_except_runtime_error_witness :
  ImageAnalyzer.init_blip_model
    (collab := Scenario.scripted (Raise (ValueError "empty batch")) Scenario.forest_moods 0 Scenario.tone)
    Scenario.fresh = (Ok tt, mkStore 0%nat true false false []) /\
  ImageAnalyzer.init_clip_analyzer
    (collab := Scenario.scripted (Raise (ValueError "empty batch")) Scenario.forest_moods 0 Scenario.tone)
    (mkStore 0%nat true false false []) = (Ok tt, mkStore 0%nat true true false []) /\
  exists analysis_result,
    fst (ImageAnalyzer.process
           (collab := Scenario.scripted (Raise (ValueError "empty batch")) Scenario.forest_moods 0 Scenario.tone)
           "photo.jpg" Scenario.fresh) = Ok analysis_result /\
    analysis_result !! "caption" = Some (VStr "an image").
Proof.
  split; [reflexivity|]. split; [reflexivity|].
  apply (caption_fallback_except_runtime_error
           (collab := Scenario.scripted (Raise (ValueError "empty batch"))
                        Scenario.forest_moods 0 Scenario.tone)
           "photo.jpg" None None Scenario.fresh
           (mkStore 0%nat true false false []) (mkStore 0%nat true true false [])).
  - reflexivity.
  - reflexivity.
  - reflexivity.
Defined.

(** ** The forest photograph, end to end *)

(** The witness of C8: the analysis of the forest photograph; the audio
    model is called once, with the composed prompt behind a second mood
    clause, and the result records the composed prompt. *)
Lemma enhanced_prompt_submitted_composed_prompt_recorded_witness :
  ScenarioResults.forest_analysis !! "caption" = Some (VStr "a forest") /\
  ScenarioResults.forest_analysis !! "primary_mood" = Some (VStr "serene") /\
  ScenarioResults.forest_analysis !! "mood_scores" =
    Some (VScores (snd Scenario.forest_moods)) /\
  exists (first : call) (later : list call),
    synth_calls
      (snd (MusicOrchestrator.process
              (collab := Scenario.scripted (Ok "a forest") Scenario.forest_moods 0 Scenario.tone)
              ScenarioResults.forest_analysis (Some 10) Scenario.fresh)) =
      first :: later /\
    call_prompt first = "A serene piece of music, " +:+ ScenarioResults.forest_prompt /\
    call_prompt first <> ScenarioResults.forest_prompt /\
    ScenarioResults.forest_music !! "prompt_used" =
      Some (VStr ScenarioResults.forest_prompt).
Proof.
  assert (Hc : ScenarioResults.forest_analysis !! "caption" = Some (VStr "a forest"))
    by reflexivity.
  assert (Hm : ScenarioResults.forest_analysis !! "primary_mood" = Some (VStr "serene"))
    by reflexivity.
  assert (Hs : ScenarioResults.forest_analysis !! "mood_scores" =
               Some (VScores (snd Scenario.forest_moods))) by reflexivity.
  split; [exact Hc|]. split; [exact Hm|]. split; [exact Hs|].
  destruct (enhanced_prompt_submitted_composed_prompt_recorded
              (collab := Scenario.scripted (Ok "a forest") Scenario.forest_moods 0 Scenario.tone)
              ScenarioResults.forest_analysis (Some 10) Scenario.fresh
              "a forest" "serene" (snd Scenario.forest_moods) Hc Hm Hs)
    as (composed & calls & Hcomposed & Hcalls & Hcalled & _ & _ & Hused & Hdiff & _).
  vm_compute in Hcomposed. injection Hcomposed as <-.
  destruct (Hcalled (mkStore 0%nat false false true []) eq_refl)
    as (first & later & -> & Hprompt & _).
  exists first, later.
  split; [exact Hcalls|]. split; [exact Hprompt|].
  split; [rewrite Hprompt; exact Hdiff|].
  exact (proj2 (Hused ScenarioResults.forest_music ltac:(vm_compute; reflexivity))).
Defined.

(** The witness of C10: ten seconds are requested, the audio model
    delivers four samples, and the reported duration is 4 / 32000. *)
Lemma duration_seconds_from_waveform_witness :
  fst (MusicOrchestrator.process
         (collab := Scenario.scripted (Ok "a forest") Scenario.forest_moods 0 Scenario.tone)
         ScenarioResults.forest_analysis (Some 10) Scenario.fresh) =
    Ok ScenarioResults.forest_music /\
  exists (audio_array : list float) (rate : Z),
    ScenarioResults.forest_music !! "audio_array" = Some (VAudio audio_array) /\
    ScenarioResults.forest_music !! "sample_rate" = Some (VInt rate) /\
    ScenarioResults.forest_music !! "duration_seconds" =
      Some (VRatio (inject_Z (Z.of_nat (length audio_array)) / inject_Z rate)).
Proof.
  assert (Hrun : fst (MusicOrchestrator.process
                        (collab := Scenario.scripted (Ok "a forest")
                                     Scenario.forest_moods 0 Scenario.tone)
                        ScenarioResults.forest_analysis (Some 10) Scenario.fresh) =
                 Ok ScenarioResults.forest_music) by (vm_compute; reflexivity).
  split; [exact Hrun|].
  destruct (duration_seconds_from_waveform _ _ _ _ Hrun)
    as (audio & rate & Ha & Hr & _ & _ & _ & Hd).
  exists audio, rate. auto.
Defined.

(** The witness of C9: the merged record of the forest photograph. *)
Lemma merged_record_is_disjoint_union_witness :
  fst (SemanticSonifier.process_image
         (collab := Scenario.scripted (Ok "a forest") Scenario.forest_moods 0 Scenario.tone)
         "photo.jpg" (Some 10) Scenario.fresh) =
    Ok (ScenarioResults.forest_music ∪ ScenarioResults.forest_analysis) /\
  exists analysis_result music_result : gmap string value,
    dom analysis_result ## dom music_result /\
    dom (ScenarioResults.forest_music ∪ ScenarioResults.forest_analysis) =
      dom analysis_result ∪ dom music_result /\
    (ScenarioResults.forest_music ∪ ScenarioResults.forest_analysis) !! "caption" =
      analysis_result !! "caption" /\
    (ScenarioResults.forest_music ∪ ScenarioResults.forest_analysis) !! "primary_mood" =
      analysis_result !! "primary_mood".
Proof.
  assert (Hrun : fst (SemanticSonifier.process_image
                        (collab := Scenario.scripted (Ok "a forest")
                                     Scenario.forest_moods 0 Scenario.tone)
                        "photo.jpg" (Some 10) Scenario.fresh) =
                 Ok (ScenarioResults.forest_music ∪ ScenarioResults.forest_analysis))
    by (vm_compute; reflexivity).
  split; [exact Hrun|].
  destruct (merged_record_is_disjoint_union _ _ _ _ Hrun)
    as (analysis & music & s1 & _ & _ & _ & _ & Hdisj & Hdom & Hcap & Hmood & _).
  exists analysis, music. auto.
Defined.

(** The merged record of the forest photograph keeps the caption and the
    mood of the analysis. *)
Example forest_record_entries :
  (ScenarioResults.forest_music ∪ ScenarioResults.forest_analysis) !! "caption" =
    Some (VStr "a forest") /\
  (ScenarioResults.forest_music ∪ ScenarioResults.forest_analysis) !! "primary_mood" =
    Some (VStr "serene") /\
  (ScenarioResults.forest_music ∪ ScenarioResults.forest_analysis) !! "prompt_used" =
    Some (VStr ScenarioResults.forest_prompt).
Proof. repeat split. Qed.

(** ** Claims about the persisted audio *)

(** C7: evaluation at the failing input. For a silent waveform the peak is
    0; the line that prepares the audio for writing divides by it, every
    written sample is NaN and none lies between -1 and 1. The guarded
    [normalize_audio] of the generator, which that line does not call,
    leaves the same waveform unchanged and in range. *)
Theorem silent_waveform_written_as_nan :
  Numpy.max (Numpy.abs Scenario.silence) = Ok 0%float /\
  SonifierService.audio_normalized Scenario.silence =
    Ok [PrimFloat.nan; PrimFloat.nan; PrimFloat.nan] /\
  forallb in_unit_range
    [PrimFloat.nan; PrimFloat.nan; PrimFloat.nan] = false /\
  existsb in_unit_range
    [PrimFloat.nan; PrimFloat.nan; PrimFloat.nan] = false /\
  MusicGenerator.normalize_audio Scenario.silence = Ok Scenario.silence /\
  forallb in_unit_range Scenario.silence = true.
Proof. repeat split; vm_compute; reflexivity. Qed.

(** On a waveform with a positive peak both normalisations agree and the
    samples are in range. *)
Example audible_waveform_normalised :
  SonifierService.audio_normalized Scenario.tone =
    Ok [1%float; (-0.5)%float; 0.25%float; 0%float] /\
  MusicGenerator.normalize_audio Scenario.tone =
    Ok [1%float; (-0.5)%float; 0.25%float; 0%float] /\
  forallb in_unit_range
    [1%float; (-0.5)%float; 0.25%float; 0%float] = true.
Proof. repeat split; vm_compute; reflexivity. Qed.

(** * Further properties of the code *)

(** ** Device selection *)

Section DeviceFacts.
Import DeviceManager.

Lemma detect_lookup_cuda (torch : Torch) :
  _detect_available_devices torch !! "cuda" = Some (DBool (cuda_is_available torch)).
Proof. unfold _detect_available_devices. destruct (cuda_is_available torch); reflexivity. Qed.

Lemma detect_lookup_mps (torch : Torch) :
  _detect_available_devices torch !! "mps" = Some (DBool (mps_is_available torch)).
Proof. unfold _detect_available_devices. destruct (cuda_is_available torch); reflexivity. Qed.

Lemma detect_lookup_cpu (torch : Torch) :
  _detect_available_devices torch !! "cpu" = Some (DBool true).
Proof. unfold _detect_available_devices. destruct (cuda_is_available torch); reflexivity. Qed.

(** The keys of the dictionary are the three devices and, on a CUDA
    machine, the two entries that describe the CUDA device. *)
Lemma detect_lookup_other (torch : Torch) (key : string) :
  key <> "cuda" -> key <> "mps" -> key <> "cpu" ->
  _detect_available_devices torch !! key =
  if cuda_is_available torch then
    if String.eqb key "cuda_name" then Some (DStr (cuda_get_device_name torch))
    else if String.eqb key "cuda_count" then Some (DInt (cuda_device_count torch))
    else None
  else None.
Proof.
  intros Hcuda Hmps Hcpu. unfold _detect_available_devices.
  destruct (cuda_is_available torch).
  - rewrite lookup_insert_ne by congruence.
    rewrite lookup_insert_ne by congruence.
    destruct (String.eqb_spec key "cuda_name") as [->|Hname].
    + rewrite lookup_insert_eq. reflexivity.
    + rewrite lookup_insert_ne by congruence.
      destruct (String.eqb_spec key "cuda_count") as [->|Hcount].
      * rewrite lookup_insert_eq. reflexivity.
      * rewrite lookup_insert_ne by congruence.
        rewrite lookup_insert_ne by congruence. apply lookup_empty.
  - rewrite lookup_insert_ne by congruence.
    rewrite lookup_insert_ne by congruence.
    rewrite lookup_insert_ne by congruence. apply lookup_empty.
Qed.

(** The constructor never raises: the device it prefers is CUDA when it is
    available, else MPS when it is available, else the CPU. *)
Lemma init_preferred (torch : Torch) (preference : string) :
  __init__ torch preference =
  Ok {| device_preference := preference;
        available_devices := _detect_available_devices torch;
        preferred_device :=
          if cuda_is_available torch then "cuda"
          else if mps_is_available torch then "mps" else "cpu" |}.
Proof.
  unfold __init__, _select_preferred_device, get_or_false.
  rewrite detect_lookup_cuda, detect_lookup_mps. cbn [truthy].
  destruct (cuda_is_available torch) eqn:Hcuda.
  - rewrite detect_lookup_other by discriminate. rewrite Hcuda. reflexivity.
  - destruct (mps_is_available torch); reflexivity.
Qed.

Lemma get_device_init (torch : Torch) (preference : string) :
  exists dm,
    __init__ torch preference = Ok dm /\
    available_devices dm = _detect_available_devices torch /\
    get_device dm =
      if String.eqb preference "auto" then auto_device torch
      else if match _detect_available_devices torch !! preference with
              | Some v => truthy v
              | None => false
              end
      then preference else auto_device torch.
Proof.
  eexists. split; [apply init_preferred|]. split; reflexivity.
Qed.

(** X1: unless the preference is one of the two descriptive keys
    "cuda_name" and "cuda_count", the device a [DeviceManager] hands out is
    one of cuda, mps and cpu, and it is marked available in the dictionary
    of detected devices; the constructor never raises. *)
Theorem device_handed_out_is_available (torch : Torch) (preference : string) :
  preference <> "cuda_name" ->
  preference <> "cuda_count" ->
  exists dm,
    __init__ torch preference = Ok dm /\
    In (get_device dm) ["cuda"; "mps"; "cpu"] /\
    available_devices dm !! get_device dm = Some (DBool true).
Proof.
  intros Hname Hcount.
  destruct (get_device_init torch preference) as (dm & Hinit & Hav & Hget).
  exists dm. split; [exact Hinit|]. rewrite Hget, Hav. clear Hget Hav Hinit dm.
  assert (Hauto : In (auto_device torch) ["cuda"; "mps"; "cpu"] /\
                  _detect_available_devices torch !! auto_device torch =
                    Some (DBool true)).
  { unfold auto_device.
    destruct (cuda_is_available torch) eqn:Hc.
    - rewrite detect_lookup_cuda, Hc. cbn. auto.
    - destruct (mps_is_available torch) eqn:Hm.
      + rewrite detect_lookup_mps, Hm. cbn. auto.
      + rewrite detect_lookup_cpu. cbn. auto. }
  destruct (String.eqb preference "auto"); [exact Hauto|].
  destruct (String.eqb_spec preference "cuda") as [->|Hcuda].
  { rewrite detect_lookup_cuda. cbn [truthy].
    destruct (cuda_is_available torch) eqn:Hc; [|exact Hauto].
    rewrite detect_lookup_cuda, Hc. cbn. auto. }
  destruct (String.eqb_spec preference "mps") as [->|Hmps].
  { rewrite detect_lookup_mps. cbn [truthy].
    destruct (mps_is_available torch) eqn:Hm; [|exact Hauto].
    rewrite detect_lookup_mps, Hm. cbn. auto. }
  destruct (String.eqb_spec preference "cpu") as [->|Hcpu].
  { rewrite detect_lookup_cpu. cbn [truthy]. rewrite detect_lookup_cpu.
    cbn. auto 6. }
  rewrite detect_lookup_other by assumption.
  destruct (cuda_is_available torch); [|exact Hauto].
  destruct (String.eqb_spec preference "cuda_name"); [contradiction|].
  destruct (String.eqb_spec preference "cuda_count"); [contradiction|].
  exact Hauto.
Qed.

(** The witness of X1: MPS hardware and a preference for CUDA. *)
Lemma device_handed_out_is_available_witness :
  "cuda" <> "cuda_name" /\ "cuda" <> "cuda_count" /\
  exists dm,
    __init__ {| cuda_is_available := false; cuda_device_count := 0;
                cuda_get_device_name := ""; mps_is_available := true |} "cuda" = Ok dm /\
    In (get_device dm) ["cuda"; "mps"; "cpu"] /\
    available_devices dm !! get_device dm = Some (DBool true).
Proof.
  split; [discriminate|]. split; [discriminate|].
  apply device_handed_out_is_available; discriminate.
Defined.

(** X2: the device of a model, by the preference passed to its
    constructor: no preference, the empty string, "auto" and "cuda" all
    give the automatic choice (CUDA, else MPS, else the CPU); "cpu" gives
    the CPU on every machine; "mps" gives MPS exactly when it is available,
    also on a machine with CUDA, and the automatic choice otherwise; a name
    that is no key of the detected devices gives the automatic choice. *)
Theorem model_device_by_preference (torch : Torch) :
  BaseModel.__init__device torch None = Ok (auto_device torch) /\
  BaseModel.__init__device torch (Some "") = Ok (auto_device torch) /\
  BaseModel.__init__device torch (Some "auto") = Ok (auto_device torch) /\
  BaseModel.__init__device torch (Some "cuda") = Ok (auto_device torch) /\
  BaseModel.__init__device torch (Some "cpu") = Ok "cpu" /\
  BaseModel.__init__device torch (Some "mps") =
    Ok (if mps_is_available torch then "mps" else auto_device torch) /\
  (forall name,
     _detect_available_devices torch !! name = None ->
     BaseModel.__init__device torch (Some name) = Ok (auto_device torch)).
Proof.
  unfold BaseModel.__init__device.
  repeat split.
  - cbn [BaseModel.device_or_default]. rewrite init_preferred. reflexivity.
  - cbn [BaseModel.device_or_default PyStr.truthy]. rewrite init_preferred. reflexivity.
  - cbn [BaseModel.device_or_default PyStr.truthy]. rewrite init_preferred. reflexivity.
  - cbn [BaseModel.device_or_default PyStr.truthy]. rewrite init_preferred.
    unfold get_device. cbn [device_preference available_devices preferred_device].
    rewrite detect_lookup_cuda. cbn [truthy String.eqb Ascii.eqb Bool.eqb].
    unfold auto_device. destruct (cuda_is_available torch); reflexivity.
  - cbn [BaseModel.device_or_default PyStr.truthy]. rewrite init_preferred.
    unfold get_device. cbn [device_preference available_devices preferred_device].
    rewrite detect_lookup_cpu. reflexivity.
  - cbn [BaseModel.device_or_default PyStr.truthy]. rewrite init_preferred.
    unfold get_device. cbn [device_preference available_devices preferred_device].
    rewrite detect_lookup_mps. cbn [truthy String.eqb Ascii.eqb Bool.eqb].
    reflexivity.
  - intros name Hnone.
    unfold BaseModel.device_or_default.
    destruct (PyStr.truthy name); rewrite init_preferred; [|reflexivity].
    unfold get_device. cbn [device_preference available_devices preferred_device].
    rewrite Hnone. destruct (String.eqb name "auto"); reflexivity.
Qed.

(** X3: on a machine with CUDA whose device name is not empty, the
    preference "cuda_name" is handed back as the device, although it names
    no device: the availability test of [get_device] accepts every key of
    the dictionary whose value is truthy. *)
Theorem descriptive_key_handed_out_as_device (torch : Torch) :
  cuda_is_available torch = true ->
  cuda_get_device_name torch <> "" ->
  BaseModel.__init__device torch (Some "cuda_name") = Ok "cuda_name" /\
  ~ In "cuda_name" ["cuda"; "mps"; "cpu"].
Proof.
  intros Hcuda Hname. split.
  - unfold BaseModel.__init__device.
    cbn [BaseModel.device_or_default PyStr.truthy]. rewrite init_preferred.
    unfold get_device. cbn [device_preference available_devices preferred_device].
    rewrite detect_lookup_other by discriminate. rewrite Hcuda.
    cbn [String.eqb Ascii.eqb Bool.eqb truthy].
    destruct (cuda_get_device_name torch); [contradiction|reflexivity].
  - cbn. intuition discriminate.
Qed.

(** The witness of X3: one A100. *)
Lemma descriptive_key_handed_out_as_device_witness :
  BaseModel.__init__device
    {| cuda_is_available := true; cuda_device_count := 1;
       cuda_get_device_name := "NVIDIA A100"; mps_is_available := false |}
    (Some "cuda_name") = Ok "cuda_name" /\
  ~ In "cuda_name" ["cuda"; "mps"; "cpu"].
Proof.
  apply descriptive_key_handed_out_as_device; [reflexivity|discriminate].
Defined.

End DeviceFacts.


(** ** Batches *)

Section BatchFacts.
Context {W : Type} {collab : Collaborators W}.
Import Batch.

Lemma sonifier_loop_step (image_path : string) (rest : list string)
    (duration : option Z) (results : list (option (gmap string value))) (s : store W) :
  sonifier_loop (image_path :: rest) duration results s =
  sonifier_loop rest duration
    (results ++ [batch_entry (fst (SemanticSonifier.process_image image_path duration s))])%list
    (snd (SemanticSonifier.process_image image_path duration s)).
Proof.
  cbn [sonifier_loop]. unfold bind at 1. unfold try_except, bind, ret.
  destruct (SemanticSonifier.process_image image_path duration s) as [[r|e] s1];
    reflexivity.
Qed.

Lemma sonifier_loop_acc (image_paths : list string) (duration : option Z)
    (results : list (option (gmap string value))) (s : store W) :
  exists entries,
    sonifier_loop image_paths duration [] s =
      (Ok entries, snd (sonifier_loop image_paths duration [] s)) /\
    sonifier_loop image_paths duration results s =
      (Ok (results ++ entries)%list, snd (sonifier_loop image_paths duration [] s)) /\
    length entries = length image_paths.
Proof.
  revert results s. induction image_paths as [|p rest IH]; intros results s.
  - exists []. cbn. rewrite app_nil_r. auto.
  - rewrite !sonifier_loop_step.
    set (r := fst (SemanticSonifier.process_image p duration s)).
    set (s1 := snd (SemanticSonifier.process_image p duration s)).
    destruct (IH [batch_entry r] s1) as (e1 & _ & H1 & Hlen).
    destruct (IH (results ++ [batch_entry r])%list s1) as (e2 & H0 & H2 & _).
    destruct (IH ([] ++ [batch_entry r])%list s1) as (e3 & H0' & H3 & _).
    assert (e3 = e2) by congruence. subst e3.
    assert (e1 = e2).
    { cbn [app] in H1, H3. congruence. }
    subst e1.
    exists (batch_entry r :: e2). cbn [app] in *.
    rewrite H1, H2. cbn [snd length]. rewrite <- app_assoc.
    split; [reflexivity|]. split; [reflexivity|]. now rewrite Hlen.
Qed.

Lemma sonifier_loop_app (l1 l2 : list string) (duration : option Z)
    (results : list (option (gmap string value))) (s : store W) :
  sonifier_loop (l1 ++ l2) duration results s =
  match sonifier_loop l1 duration results s with
  | (Ok results1, s1) => sonifier_loop l2 duration results1 s1
  | (Raise e, s1) => (Raise e, s1)
  end.
Proof.
  revert results s. induction l1 as [|p rest IH]; intros results s.
  - reflexivity.
  - cbn [app]. rewrite !sonifier_loop_step. apply IH.
Qed.

Lemma missing_image_raises (image_path : string) (duration : option Z) (s : store W) :
  path_exists image_path (ext s) = false ->
  SemanticSonifier.process_image image_path duration s =
  (Raise (FileNotFoundError ("Image not found: " +:+ image_path)), s).
Proof.
  intros Hmissing. unfold SemanticSonifier.process_image.
  rewrite Hmissing. reflexivity.
Qed.

(** X4: [SemanticSonifier.batch_process] never raises and returns exactly
    one entry per image path. *)
Theorem batch_returns_one_entry_per_image
    (image_paths : list string) (duration : option Z) (s : store W) :
  exists entries,
    fst (batch_process image_paths duration s) = Ok entries /\
    length entries = length image_paths.
Proof.
  destruct (sonifier_loop_acc image_paths duration [] s) as (entries & H0 & _ & Hlen).
  exists entries. unfold batch_process. rewrite H0. auto.
Qed.

(** X5: the entries of a batch are in the order of the paths; the entry
    of an image is the record [process_image] returned for it, or [None]
    when [process_image] raised, and the rest of the batch goes on from
    the store that image left, whether it failed or not. *)
Theorem batch_entry_follows_process_image
    (image_path : string) (rest : list string) (duration : option Z) (s : store W)
    (entries : list (option (gmap string value))) (s2 : store W) :
  batch_process rest duration
    (snd (SemanticSonifier.process_image image_path duration s)) = (Ok entries, s2) ->
  batch_process (image_path :: rest) duration s =
  (Ok (match fst (SemanticSonifier.process_image image_path duration s) with
       | Ok result_ => Some result_
       | Raise _ => None
       end :: entries), s2).
Proof.
  unfold batch_process. intros Hrest.
  rewrite sonifier_loop_step. cbn [app].
  destruct (sonifier_loop_acc rest duration
              [batch_entry (fst (SemanticSonifier.process_image image_path duration s))]
              (snd (SemanticSonifier.process_image image_path duration s)))
    as (entries' & H0 & H1 & _).
  rewrite H1. rewrite Hrest in H0. injection H0 as <-.
  rewrite Hrest. reflexivity.
Qed.

(** X6: a batch over the concatenation of two lists of paths is the batch
    over the first list followed by the batch over the second one from the
    store the first batch left; the entries are concatenated. *)
Theorem batch_of_concatenation
    (l1 l2 : list string) (duration : option Z) (s : store W)
    (entries1 entries2 : list (option (gmap string value))) (s1 s2 : store W) :
  batch_process l1 duration s = (Ok entries1, s1) ->
  batch_process l2 duration s1 = (Ok entries2, s2) ->
  batch_process (l1 ++ l2) duration s = (Ok (entries1 ++ entries2)%list, s2).
Proof.
  unfold batch_process. intros H1 H2.
  rewrite sonifier_loop_app, H1.
  destruct (sonifier_loop_acc l2 duration entries1 s1) as (e2 & H0 & Hacc & _).
  rewrite Hacc. rewrite H2 in H0. injection H0 as <-. rewrite H2. reflexivity.
Qed.

(** X7: a batch whose image paths are all missing returns [None] for each
    of them and leaves the store as it was: no model handle is created and
    no collaborator is called. *)
Theorem batch_of_missing_images
    (image_paths : list string) (duration : option Z) (s : store W) :
  (forall image_path, In image_path image_paths ->
                      path_exists image_path (ext s) = false) ->
  batch_process image_paths duration s =
  (Ok (repeat None (length image_paths)), s).
Proof.
  intros Hmissing. unfold batch_process.
  assert (Hgen : forall acc,
            sonifier_loop image_paths duration acc s =
            (Ok (acc ++ repeat None (length image_paths))%list, s)).
  { induction image_paths as [|p rest IH]; intros acc.
    - cbn. now rewrite app_nil_r.
    - rewrite sonifier_loop_step.
      rewrite missing_image_raises by (apply Hmissing; left; reflexivity).
      cbn [fst snd batch_entry].
      rewrite IH by (intros q Hq; apply Hmissing; right; exact Hq).
      cbn [length repeat]. now rewrite <- app_assoc. }
  apply (Hgen []).
Qed.

End BatchFacts.

(** The witness of X5: a batch of one readable image. *)
Lemma batch_entry_follows_process_image_witness :
  Batch.batch_process
    (collab := Scenario.scripted (Ok "a forest") Scenario.forest_moods 0 Scenario.tone)
    ["photo.jpg"] (Some 10) Scenario.fresh =
  (Ok [Some (ScenarioResults.forest_music ∪ ScenarioResults.forest_analysis)],
   mkStore 1%nat true true true
     [{| call_prompt := "A serene piece of music, " +:+ ScenarioResults.forest_prompt;
         call_duration := 10; call_max_new_tokens := 500; call_raised := None |}]).
Proof.
  apply (batch_entry_follows_process_image
           (collab := Scenario.scripted (Ok "a forest") Scenario.forest_moods 0
                        Scenario.tone)
           "photo.jpg" [] (Some 10) Scenario.fresh []).
  vm_compute. reflexivity.
Defined.

(** The witness of X6: a missing image followed by a readable one. *)
Lemma batch_of_concatenation_witness :
  Batch.batch_process
    (collab := Outage.collaborators (fun p => String.eqb p "photo.jpg") (Ok tt)
                 (Ok "a forest") (Ok Scenario.forest_moods) 0 Scenario.tone)
    (["gone.jpg"] ++ ["photo.jpg"]) (Some 10) Scenario.fresh =
  (Ok ([None] ++ [Some (ScenarioResults.forest_music ∪ ScenarioResults.forest_analysis)])%list,
   mkStore 1%nat true true true
     [{| call_prompt := "A serene piece of music, " +:+ ScenarioResults.forest_prompt;
         call_duration := 10; call_max_new_tokens := 500; call_raised := None |}]).
Proof.
  apply (batch_of_concatenation
           (collab := Outage.collaborators (fun p => String.eqb p "photo.jpg") (Ok tt)
                        (Ok "a forest") (Ok Scenario.forest_moods) 0 Scenario.tone)
           ["gone.jpg"] ["photo.jpg"] (Some 10) Scenario.fresh
           [None] [Some (ScenarioResults.forest_music ∪ ScenarioResults.forest_analysis)]
           Scenario.fresh).
  - vm_compute. reflexivity.
  - vm_compute. reflexivity.
Defined.

(** The witness of X7: two paths, no file. *)
Lemma batch_of_missing_images_witness :
  Batch.batch_process
    (collab := Outage.collaborators (fun _ => false) (Ok tt) (Ok "a forest")
                 (Ok Scenario.forest_moods) 0 Scenario.tone)
    ["gone.jpg"; "lost.png"] None Scenario.fresh =
  (Ok [None; None], Scenario.fresh).
Proof.
  apply (batch_of_missing_images
           (collab := Outage.collaborators (fun _ => false) (Ok tt) (Ok "a forest")
                        (Ok Scenario.forest_moods) 0 Scenario.tone)
           ["gone.jpg"; "lost.png"] None Scenario.fresh).
  intros image_path _. reflexivity.
Defined.

(** ** Batches of captions *)

Section CaptionBatchFacts.
Context {W : Type} {collab : Collaborators W}.
Import Batch.

Lemma blip2_loop_step (image_path : string) (rest : list string)
    (captions : list string) (s : store W) :
  blip2_loop (image_path :: rest) captions s =
  match BLIP2Model.process image_path None s with
  | (Ok caption, s1) => blip2_loop rest (captions ++ [caption])%list s1
  | (Raise e, s1) => (Raise e, s1)
  end.
Proof. reflexivity. Qed.

Lemma blip2_loop_app (l1 l2 : list string) (captions : list string) (s : store W) :
  blip2_loop (l1 ++ l2) captions s =
  match blip2_loop l1 captions s with
  | (Ok captions1, s1) => blip2_loop l2 captions1 s1
  | (Raise e, s1) => (Raise e, s1)
  end.
Proof.
  revert captions s. induction l1 as [|p rest IH]; intros captions s.
  - reflexivity.
  - cbn [app]. rewrite !blip2_loop_step.
    destruct (BLIP2Model.process p None s) as [[c|e] s1]; [apply IH | reflexivity].
Qed.

Lemma blip2_loop_outcome (image_paths : list string) (captions : list string)
    (s : store W) :
  match fst (blip2_loop image_paths captions s) with
  | Ok all_captions =>
      exists new_captions,
        all_captions = (captions ++ new_captions)%list /\
        length new_captions = length image_paths
  | Raise e => is_RuntimeError e = true
  end.
Proof.
  revert captions s. induction image_paths as [|p rest IH]; intros captions s.
  - cbn. exists []. now rewrite app_nil_r.
  - rewrite blip2_loop_step.
    pose proof (blip2_process_raises_runtime_only p None s) as Hrt.
    destruct (BLIP2Model.process p None s) as [[c|e] s1]; cbn [fst] in *.
    + specialize (IH (captions ++ [c])%list s1).
      destruct (fst (blip2_loop rest (captions ++ [c])%list s1)) as [all|e];
        [|exact IH].
      destruct IH as (new & -> & Hlen). exists (c :: new).
      rewrite <- app_assoc. cbn [app length]. auto.
    + apply Hrt. reflexivity.
Qed.

(** X8: [BLIP2Model.batch_process] either returns exactly one caption per
    image path or raises, and what it raises is a [RuntimeError]. *)
Theorem caption_batch_all_or_runtime_error (image_paths : list string) (s : store W) :
  match fst (blip2_batch_process image_paths s) with
  | Ok captions => length captions = length image_paths
  | Raise e => is_RuntimeError e = true
  end.
Proof.
  unfold blip2_batch_process.
  pose proof (blip2_loop_outcome image_paths [] s) as H.
  destruct (fst (blip2_loop image_paths [] s)) as [all|e]; [|exact H].
  destruct H as (new & -> & Hlen). exact Hlen.
Qed.

(** X9: a [RuntimeError] of the caption inference on one image loses the
    whole batch: the captions computed for the images before it are not
    returned, and the images after it are not processed. *)
Theorem caption_batch_lost_on_runtime_error
    (before after : list string) (image_path : string) (s s1 : store W)
    (captions : list string) (e : exn) :
  blip2_batch_process before s = (Ok captions, s1) ->
  fst (BLIP2Model.process image_path None s1) = Raise e ->
  blip2_batch_process (before ++ image_path :: after) s =
  (Raise e, snd (BLIP2Model.process image_path None s1)).
Proof.
  unfold blip2_batch_process. intros Hbefore Hraise.
  rewrite blip2_loop_app, Hbefore, blip2_loop_step.
  destruct (BLIP2Model.process image_path None s1) as [[c|e'] s2];
    cbn [fst snd] in *; congruence.
Qed.

(** X10: when the image decoder fails on every path, whatever the failure,
    the batch returns the fallback caption "an image" for every image. *)
Theorem caption_batch_of_unreadable_images (image_paths : list string) (s : store W) :
  (forall image_path w, exists e w', image_open image_path w = (Raise e, w')) ->
  fst (blip2_batch_process image_paths s) =
  Ok (repeat "an image" (length image_paths)).
Proof.
  intros Hfail. unfold blip2_batch_process.
  assert (Hgen : forall captions s,
            fst (blip2_loop image_paths captions s) =
            Ok (captions ++ repeat "an image" (length image_paths))%list).
  { induction image_paths as [|p rest IH]; intros captions s0.
    - cbn. now rewrite app_nil_r.
    - rewrite blip2_loop_step.
      pose proof (blip2_process_cases p None s0) as Hcase.
      destruct (Hfail p (ext s0)) as (e & w' & Hopen). rewrite Hopen in Hcase.
      destruct (BLIP2Model.process p None s0) as [[c|e'] s1];
        cbn [fst] in Hcase; [|discriminate].
      injection Hcase as ->. rewrite IH. cbn [length repeat].
      now rewrite <- app_assoc. }
  apply (Hgen [] s).
Qed.

End CaptionBatchFacts.

(** The witness of X9: the second of three images exhausts the memory. *)
Lemma caption_batch_lost_on_runtime_error_witness :
  Batch.blip2_batch_process
    (collab := Outage.by_path (fun _ => true)
                 (fun p => if String.eqb p "large.png"
                           then Raise Scenario.cuda_oom else Ok "a forest")
                 (fun _ => Ok Scenario.forest_moods) (fun _ => Ok Scenario.tone))
    (["photo.jpg"] ++ "large.png" :: ["last.jpg"]) Scenario.fresh =
  (Raise Scenario.cuda_oom, Scenario.fresh).
Proof.
  apply (caption_batch_lost_on_runtime_error
           (collab := Outage.by_path (fun _ => true)
                        (fun p => if String.eqb p "large.png"
                                  then Raise Scenario.cuda_oom else Ok "a forest")
                        (fun _ => Ok Scenario.forest_moods) (fun _ => Ok Scenario.tone))
           ["photo.jpg"] ["last.jpg"] "large.png" Scenario.fresh Scenario.fresh
           ["a forest"] Scenario.cuda_oom).
  - reflexivity.
  - reflexivity.
Defined.

(** The witness of X10: a decoder that rejects every file. *)
Lemma caption_batch_of_unreadable_images_witness :
  fst (Batch.blip2_batch_process
         (collab := Outage.collaborators (fun _ => true)
                      (Raise (UnidentifiedImageError "cannot identify image file"))
                      (Ok "a forest") (Ok Scenario.forest_moods) 0 Scenario.tone)
         ["notes.txt"; "broken.jpg"] Scenario.fresh) =
  Ok ["an image"; "an image"].
Proof.
  apply (caption_batch_of_unreadable_images
           (collab := Outage.collaborators (fun _ => true)
                        (Raise (UnidentifiedImageError "cannot identify image file"))
                        (Ok "a forest") (Ok Scenario.forest_moods) 0 Scenario.tone)
           ["notes.txt"; "broken.jpg"] Scenario.fresh).
  intros image_path w.
  exists (UnidentifiedImageError "cannot identify image file"), w. reflexivity.
Defined.


(** ** The audio generator: bounds of every call *)

Section GeneratorBounds.
Context {W : Type} {collab : Collaborators W}.

Lemma attempts_bounds (prompt : string) (d : Z) (calls : list call)
    (r : result (list float * Z)) :
  attempts prompt d calls r ->
  1 <= d <= 30 ->
  Forall (fun c => 1 <= call_duration c <= 30 /\
                   call_max_new_tokens c = call_duration c * 50) calls.
Proof.
  induction 1 as [d a | d e He | d e calls r Hrt Hoom Hd Hrun IH]; intros Hrange;
    try (repeat constructor; cbn; lia).
  pose proof (Z.div_mod d 2 ltac:(lia)). pose proof (Z.mod_pos_bound d 2 ltac:(lia)).
  constructor; [cbn; lia|]. apply IH. lia.
Qed.

(** X11: for a requested duration of at least one second, and for no
    requested duration, every call the generator makes to the audio model,
    retries included, works with a duration between 1 and 30 seconds and
    asks for fifty tokens per second, hence for at most 1500 tokens. *)
Theorem generator_calls_within_bounds
    (prompt : string) (duration : option Z) (s : store W) :
  (forall d, duration = Some d -> 1 <= d) ->
  exists calls : list call,
    synth_calls (snd (MusicGenerator.process prompt duration s)) =
      (synth_calls s ++ calls)%list /\
    Forall (fun c => 1 <= call_duration c <= max_duration (audio config) /\
                     call_max_new_tokens c = call_duration c * 50 /\
                     50 <= call_max_new_tokens c <= 1500) calls.
Proof.
  intros Hpos.
  destruct (process_attempts prompt duration s) as (calls & Hcalls & Hrun).
  exists calls. split; [exact Hcalls|].
  assert (Hrange : 1 <= MusicGenerator.validated_duration duration <= 30).
  { split; [|apply validated_duration_le].
    unfold MusicGenerator.validated_duration, py_or.
    change MusicGenerator.self_default_duration with 10.
    change (max_duration (audio config)) with 30.
    destruct duration as [d|].
    - specialize (Hpos d eq_refl).
      destruct (Z.eqb_spec d 0); [lia|]. destruct (Z.gtb_spec d 30); lia.
    - cbn. lia. }
  eapply Forall_impl; [exact (attempts_bounds _ _ _ _ Hrun Hrange)|].
  cbn. change (max_duration (audio config)) with 30. intros c (Hd & Ht). lia.
Qed.

(** X12: a failure of the audio model that is not an out-of-memory
    [RuntimeError] is never retried: the generator makes that one call and
    raises the exception it got. *)
Theorem other_failure_not_retried
    (prompt : string) (duration : option Z) (s : store W) (e : exn) (w : W) :
  musicgen_generate prompt (MusicGenerator.validated_duration duration * 50) (ext s) =
    (Raise e, w) ->
  (is_RuntimeError e && is_out_of_memory e)%bool = false ->
  fst (MusicGenerator.process prompt duration s) = Raise e /\
  synth_calls (snd (MusicGenerator.process prompt duration s)) =
    (synth_calls s ++
     [{| call_prompt := prompt;
         call_duration := MusicGenerator.validated_duration duration;
         call_max_new_tokens := MusicGenerator.validated_duration duration * 50;
         call_raised := Some e |}])%list /\
  ext (snd (MusicGenerator.process prompt duration s)) = w.
Proof.
  intros Hgen Hother. rewrite process_unfold. unfold MusicGenerator.generate.
  rewrite Hgen, Hother. cbn. auto.
Qed.

End GeneratorBounds.

(** The witness of X11: thirty seconds requested, the memory runs out
    twice. *)
Lemma generator_calls_within_bounds_witness :
  exists calls : list call,
    synth_calls
      (snd (MusicGenerator.process
              (collab := Scenario.scripted (Ok "a forest") Scenario.forest_moods 2
                           Scenario.tone)
              "a calm piece" (Some 30) Scenario.fresh)) = ([] ++ calls)%list /\
    length calls = 3%nat /\
    Forall (fun c => 1 <= call_duration c <= 30 /\
                     call_max_new_tokens c = call_duration c * 50 /\
                     50 <= call_max_new_tokens c <= 1500) calls.
Proof.
  destruct (generator_calls_within_bounds
              (collab := Scenario.scripted (Ok "a forest") Scenario.forest_moods 2
                           Scenario.tone)
              "a calm piece" (Some 30) Scenario.fresh)
    as (calls & Hcalls & Hall).
  - intros d [= <-]. lia.
  - exists calls. split; [exact Hcalls|]. split; [|exact Hall].
    vm_compute in Hcalls. subst calls. reflexivity.
Defined.

(** The witness of X12: the audio model rejects its input. *)
Lemma other_failure_not_retried_witness :
  fst (MusicGenerator.process
         (collab := Outage.by_path (fun _ => true) (fun _ => Ok "a forest")
                      (fun _ => Ok Scenario.forest_moods)
                      (fun _ => Raise (ValueError "empty prompt")))
         "" (Some 20) Scenario.fresh) = Raise (ValueError "empty prompt") /\
  synth_calls
    (snd (MusicGenerator.process
            (collab := Outage.by_path (fun _ => true) (fun _ => Ok "a forest")
                         (fun _ => Ok Scenario.forest_moods)
                         (fun _ => Raise (ValueError "empty prompt")))
            "" (Some 20) Scenario.fresh)) =
    [{| call_prompt := ""; call_duration := 20; call_max_new_tokens := 1000;
        call_raised := Some (ValueError "empty prompt") |}].
Proof.
  destruct (other_failure_not_retried
              (collab := Outage.by_path (fun _ => true) (fun _ => Ok "a forest")
                           (fun _ => Ok Scenario.forest_moods)
                           (fun _ => Raise (ValueError "empty prompt")))
              "" (Some 20) Scenario.fresh (ValueError "empty prompt") 1%nat)
    as (Hraise & Hcalls & _).
  - reflexivity.
  - reflexivity.
  - split; [exact Hraise | exact Hcalls].
Defined.

(** ** The model handles *)

Section HandleFacts.
Context {W : Type} {collab : Collaborators W}.

Lemma handles_kept_refl (s : store W) : handles_kept s s.
Proof. unfold handles_kept. auto. Qed.

Lemma handles_kept_trans (s1 s2 s3 : store W) :
  handles_kept s1 s2 -> handles_kept s2 s3 -> handles_kept s1 s3.
Proof. unfold handles_kept. intuition. Qed.

Lemma handles_kept_eq (s s' : store W) : handles s' = handles s -> handles_kept s s'.
Proof. unfold handles, handles_kept. intros [= -> -> ->]. auto. Qed.

Lemma external_handles {A} (op : W -> result A * W) (s : store W) :
  handles (snd (external op s)) = handles s.
Proof. unfold external. destruct (op (ext s)). reflexivity. Qed.

Lemma blip2_process_handles (image_path : string) (max_length : option Z) (s : store W) :
  handles (snd (BLIP2Model.process image_path max_length s)) = handles s.
Proof.
  unfold BLIP2Model.process, try_except, bind, ret, raise.
  pose proof (external_handles (image_open image_path) s) as H1.
  destruct (external (image_open image_path) s) as [[img|e] s1]; cbn [snd] in *.
  - pose proof (external_handles
                  (blip2_caption img (py_or max_length BLIP2Model.self_max_length)) s1) as H2.
    destruct (external (blip2_caption img _) s1) as [[c|e] s2]; cbn [snd] in *.
    + congruence.
    + destruct (is_RuntimeError e); cbn; congruence.
  - destruct e; cbn; congruence.
Qed.

Lemma clip_process_handles (image_path : string) (top_k : Z) (s : store W) :
  handles (snd (CLIPMoodAnalyzer.process image_path top_k s)) = handles s.
Proof.
  unfold CLIPMoodAnalyzer.process, try_except, ret.
  pose proof (external_handles (clip_moods image_path top_k) s) as H1.
  destruct (external (clip_moods image_path top_k) s) as [[m|e] s1]; exact H1.
Qed.

Lemma generator_process_handles (prompt : string) (duration : option Z) (s : store W) :
  handles (snd (MusicGenerator.process prompt duration s)) = handles s.
Proof.
  remember (Z.to_nat (MusicGenerator.validated_duration duration)) as n eqn:Hn.
  revert duration s Hn.
  induction n as [n IH] using lt_wf_ind. intros duration s Hn.
  rewrite process_unfold. unfold MusicGenerator.generate.
  destruct (musicgen_generate prompt _ (ext s)) as [[audio|e] w]; [reflexivity|].
  destruct (is_RuntimeError e && is_out_of_memory e)%bool; [|reflexivity].
  destruct (decide (MusicGenerator.validated_duration duration > 5)) as [Hgt|Hle];
    [|reflexivity].
  pose proof (validated_duration_le duration) as Hmax.
  pose proof (Z.div_mod (MusicGenerator.validated_duration duration) 2 ltac:(lia)).
  pose proof (Z.mod_pos_bound (MusicGenerator.validated_duration duration) 2 ltac:(lia)).
  match goal with
  | |- context [MusicGenerator.process prompt ?d2 ?s2] =>
      rewrite (IH (Z.to_nat (MusicGenerator.validated_duration d2))
                  ltac:(rewrite validated_duration_halved by lia; lia)
                  d2 s2 eq_refl)
  end.
  reflexivity.
Qed.

Lemma init_blip_model_handles (s : store W) :
  blip_model (snd (ImageAnalyzer.init_blip_model s)) = true /\
  clip_analyzer (snd (ImageAnalyzer.init_blip_model s)) = clip_analyzer s /\
  music_generator (snd (ImageAnalyzer.init_blip_model s)) = music_generator s.
Proof.
  unfold ImageAnalyzer.init_blip_model.
  destruct (blip_model s) eqn:Hflag; [cbn; auto|].
  match goal with
  | |- context [external ?op ?s0] =>
      pose proof (external_handles op s0) as H; unfold handles in H;
      injection H as -> -> ->
  end.
  cbn. auto.
Qed.

Lemma init_clip_analyzer_handles (s : store W) :
  blip_model (snd (ImageAnalyzer.init_clip_analyzer s)) = blip_model s /\
  clip_analyzer (snd (ImageAnalyzer.init_clip_analyzer s)) = true /\
  music_generator (snd (ImageAnalyzer.init_clip_analyzer s)) = music_generator s.
Proof.
  unfold ImageAnalyzer.init_clip_analyzer.
  destruct (clip_analyzer s) eqn:Hflag; [cbn; auto|].
  match goal with
  | |- context [external ?op ?s0] =>
      pose proof (external_handles op s0) as H; unfold handles in H;
      injection H as -> -> ->
  end.
  cbn. auto.
Qed.

Lemma init_music_generator_handles (s : store W) :
  blip_model (snd (MusicOrchestrator.init_music_generator s)) = blip_model s /\
  clip_analyzer (snd (MusicOrchestrator.init_music_generator s)) = clip_analyzer s /\
  music_generator (snd (MusicOrchestrator.init_music_generator s)) = true.
Proof.
  unfold MusicOrchestrator.init_music_generator.
  destruct (music_generator s) eqn:Hflag; [cbn; auto|].
  match goal with
  | |- context [external ?op ?s0] =>
      pose proof (external_handles op s0) as H; unfold handles in H;
      injection H as -> -> ->
  end.
  cbn. auto.
Qed.

Lemma image_analyzer_handles (image_path : string) (s : store W) :
  handles_kept s (snd (ImageAnalyzer.process image_path s)) /\
  (forall analysis_result,
     fst (ImageAnalyzer.process image_path s) = Ok analysis_result ->
     blip_model (snd (ImageAnalyzer.process image_path s)) = true /\
     clip_analyzer (snd (ImageAnalyzer.process image_path s)) = true).
Proof.
  unfold ImageAnalyzer.process, bind, ret.
  destruct (init_blip_model_handles s) as (Hb1 & Hc1 & Hm1).
  destruct (ImageAnalyzer.init_blip_model s) as [[[]|e] sa]; cbn [fst snd] in *;
    [|split; [unfold handles_kept; intuition congruence | discriminate]].
  destruct (init_clip_analyzer_handles sa) as (Hb2 & Hc2 & Hm2).
  destruct (ImageAnalyzer.init_clip_analyzer sa) as [[[]|e] sb]; cbn [fst snd] in *;
    [|split; [unfold handles_kept; intuition congruence | discriminate]].
  pose proof (blip2_process_handles image_path None sb) as H3.
  destruct (BLIP2Model.process image_path None sb) as [[caption|e] sc];
    cbn [fst snd] in *; unfold handles in H3; injection H3 as Hb3 Hc3 Hm3;
    [|split; [unfold handles_kept; intuition congruence | discriminate]].
  pose proof (clip_process_handles image_path 3 sc) as H4.
  destruct (CLIPMoodAnalyzer.process image_path 3 sc) as [[[mood scores]|e] sd];
    cbn [fst snd] in *; unfold handles in H4; injection H4 as Hb4 Hc4 Hm4;
    (split; [unfold handles_kept; intuition congruence |]);
    [|discriminate].
  intros _ _. split; congruence.
Qed.

Lemma orchestrator_handles (analysis_result : gmap string value)
    (duration : option Z) (s : store W) :
  handles_kept s (snd (MusicOrchestrator.process analysis_result duration s)) /\
  (forall music_result,
     fst (MusicOrchestrator.process analysis_result duration s) = Ok music_result ->
     music_generator (snd (MusicOrchestrator.process analysis_result duration s)) = true).
Proof.
  unfold MusicOrchestrator.process, getitem_str, getitem_scores, getitem,
    bind, ret, raise.
  destruct (init_music_generator_handles s) as (Hb1 & Hc1 & Hm1).
  destruct (MusicOrchestrator.init_music_generator s) as [[[]|e] s1];
    cbn [fst snd] in *;
    [|split; [unfold handles_kept; intuition congruence | discriminate]].
  destruct (analysis_result !! "caption") as [[caption| | | |]|];
    try (split; [unfold handles_kept; cbn; intuition congruence | discriminate]).
  destruct (analysis_result !! "primary_mood") as [[primary_mood| | | |]|];
    try (split; [unfold handles_kept; cbn; intuition congruence | discriminate]).
  destruct (analysis_result !! "mood_scores") as [[| | |mood_scores|]|];
    try (split; [unfold handles_kept; cbn; intuition congruence | discriminate]).
  rewrite create_prompt_total. cbn [MusicOrchestrator.lift_result].
  unfold MusicGenerator.generate_with_emotion, ret.
  match goal with
  | |- context [MusicGenerator.process ?p duration s1] =>
      pose proof (generator_process_handles p duration s1) as H2;
      destruct (MusicGenerator.process p duration s1) as [[[audio rate]|e] s2]
  end; cbn [fst snd] in *; unfold handles in H2; injection H2 as Hb2 Hc2 Hm2;
    [|split; [unfold handles_kept; cbn; intuition congruence | discriminate]].
  unfold MusicOrchestrator.lift_result, ret, raise.
  destruct (py_truediv (Z.of_nat (length audio)) rate); cbn [fst snd];
    (split; [unfold handles_kept; intuition congruence |]);
    [|discriminate].
  intros _ _. congruence.
Qed.

(** X13: processing an image never drops a model handle, and after a
    request that returned all three handles exist, so that the next
    request on the same sonifier loads no model: its three loading steps
    return at once and leave the store as it is. *)
Theorem handles_persist_across_requests
    (image_path : string) (duration : option Z) (s : store W) :
  handles_kept s (snd (SemanticSonifier.process_image image_path duration s)) /\
  (forall final_result,
     fst (SemanticSonifier.process_image image_path duration s) = Ok final_result ->
     handles (snd (SemanticSonifier.process_image image_path duration s)) =
       (true, true, true) /\
     ImageAnalyzer.init_blip_model
       (snd (SemanticSonifier.process_image image_path duration s)) =
       (Ok tt, snd (SemanticSonifier.process_image image_path duration s)) /\
     ImageAnalyzer.init_clip_analyzer
       (snd (SemanticSonifier.process_image image_path duration s)) =
       (Ok tt, snd (SemanticSonifier.process_image image_path duration s)) /\
     MusicOrchestrator.init_music_generator
       (snd (SemanticSonifier.process_image image_path duration s)) =
       (Ok tt, snd (SemanticSonifier.process_image image_path duration s))).
Proof.
  assert (Hmain :
    handles_kept s (snd (SemanticSonifier.process_image image_path duration s)) /\
    (forall final_result,
       fst (SemanticSonifier.process_image image_path duration s) = Ok final_result ->
       handles (snd (SemanticSonifier.process_image image_path duration s)) =
         (true, true, true))).
  { unfold SemanticSonifier.process_image.
    destruct (path_exists image_path (ext s)); cbn [negb];
      [|split; [apply handles_kept_refl | discriminate]].
    unfold bind, ret. rewrite safe_process_id.
    destruct (image_analyzer_handles image_path s) as (Hk1 & Hok1).
    destruct (ImageAnalyzer.process image_path s) as [[analysis|e] s1];
      cbn [fst snd] in *; [|split; [exact Hk1 | discriminate]].
    destruct (Hok1 analysis eq_refl) as (Hb & Hc).
    rewrite safe_process_id.
    destruct (orchestrator_handles analysis
                (Some (py_or duration (default_duration (audio config)))) s1)
      as (Hk2 & Hok2).
    destruct (MusicOrchestrator.process analysis _ s1) as [[music|e] s2];
      cbn [fst snd] in *;
      (split; [exact (handles_kept_trans _ _ _ Hk1 Hk2)|]); [|discriminate].
    intros _ _. unfold handles. destruct Hk2 as (Kb & Kc & _).
    rewrite (Kb Hb), (Kc Hc), (Hok2 music eq_refl). reflexivity. }
  destruct Hmain as (Hkept & Hall). split; [exact Hkept|].
  intros final Hok. specialize (Hall final Hok).
  split; [exact Hall|].
  unfold handles in Hall. injection Hall as Hb Hc Hm.
  unfold ImageAnalyzer.init_blip_model, ImageAnalyzer.init_clip_analyzer,
    MusicOrchestrator.init_music_generator.
  rewrite Hb, Hc, Hm. auto.
Qed.

End HandleFacts.


(** ** The orchestrator on an incomplete analysis result *)

Section OrchestratorEdges.
Context {W : Type} {collab : Collaborators W}.

(** X14: an analysis result that lacks one of the keys caption,
    primary_mood and mood_scores makes the orchestrator raise the
    [KeyError] of the first missing key, after the generator was set up and
    before the audio model is called. *)
Theorem orchestrator_missing_key
    (analysis_result : gmap string value) (duration : option Z) (s s1 : store W)
    (key : string) :
  MusicOrchestrator.init_music_generator s = (Ok tt, s1) ->
  analysis_result !! key = None ->
  (key = "caption" \/
   (key = "primary_mood" /\
    exists caption, analysis_result !! "caption" = Some (VStr caption)) \/
   (key = "mood_scores" /\
    exists caption primary_mood,
      analysis_result !! "caption" = Some (VStr caption) /\
      analysis_result !! "primary_mood" = Some (VStr primary_mood))) ->
  MusicOrchestrator.process analysis_result duration s = (Raise (KeyError key), s1) /\
  synth_calls s1 = synth_calls s.
Proof.
  intros Hinit Hnone Hkey.
  split; [|pose proof (keeps_init_music_generator s) as H; now rewrite Hinit in H].
  unfold MusicOrchestrator.process. unfold bind at 1. rewrite Hinit.
  unfold getitem_str, getitem_scores, getitem, bind, ret, raise.
  destruct Hkey as [-> | [(-> & c & Hc) | (-> & c & m & Hc & Hm)]].
  - rewrite Hnone. reflexivity.
  - rewrite Hc, Hnone. reflexivity.
  - rewrite Hc, Hm, Hnone. reflexivity.
Qed.

End OrchestratorEdges.

(** The witness of X14: an analysis result that holds the caption only. *)
Lemma orchestrator_missing_key_witness :
  MusicOrchestrator.process
    (collab := Scenario.scripted (Ok "a forest") Scenario.forest_moods 0 Scenario.tone)
    {[ "caption" := VStr "a forest" ]} (Some 10) Scenario.fresh =
    (Raise (KeyError "primary_mood"), mkStore 0%nat false false true []) /\
  synth_calls (mkStore 0%nat false false true []) = synth_calls Scenario.fresh.
Proof.
  apply (orchestrator_missing_key
           (collab := Scenario.scripted (Ok "a forest") Scenario.forest_moods 0
                        Scenario.tone)
           {[ "caption" := VStr "a forest" ]} (Some 10) Scenario.fresh
           (mkStore 0%nat false false true []) "primary_mood").
  - reflexivity.
  - reflexivity.
  - right. left. split; [reflexivity|]. exists "a forest". reflexivity.
Defined.

(** ** The fallback of the mood analysis *)

Section MoodFallback.
Context {W : Type} {collab : Collaborators W}.
Import MusicOrchestrator.

Lemma neutral_mood_no_hint (caption : string) : _get_genre_hint caption "neutral" = "".
Proof.
  unfold _get_genre_hint, nature_scenes, urban_scenes, people_portraits.
  change (PyStr.lower "neutral") with "neutral".
  repeat match goal with
         | |- context [any_word_in ?w ?c] => destruct (any_word_in w c)
         end; reflexivity.
Qed.

(** X15: a failure of the mood analysis, whatever the exception, does
    not abort the analysis of an image: the analysis result carries the
    caption, the mood "neutral" and the single score 1.0 for it, and the
    prompt composed from it is exactly "A neutral piece of music for "
    followed by the caption, without a second mood and without a genre
    hint. *)
Theorem mood_failure_gives_neutral_prompt
    (image_path : string) (s sa sb sc : store W) (caption : string) (e : exn) (w : W) :
  ImageAnalyzer.init_blip_model s = (Ok tt, sa) ->
  ImageAnalyzer.init_clip_analyzer sa = (Ok tt, sb) ->
  BLIP2Model.process image_path None sb = (Ok caption, sc) ->
  clip_moods image_path 3 (ext sc) = (Raise e, w) ->
  fst (ImageAnalyzer.process image_path s) =
    Ok {[ "caption" := VStr caption;
          "primary_mood" := VStr "neutral";
          "mood_scores" := VScores [("neutral", 1%float)];
          "image_path" := VStr image_path ]} /\
  _create_intelligent_prompt caption "neutral" [("neutral", 1%float)] =
    Ok ("A neutral piece of music for " +:+ caption).
Proof.
  intros Hblip Hclip Hcap Hmood. split.
  - unfold ImageAnalyzer.process, bind. rewrite Hblip, Hclip, Hcap.
    unfold CLIPMoodAnalyzer.process, try_except, external, ret.
    rewrite Hmood. reflexivity.
  - unfold _create_intelligent_prompt, prompt_parts.
    cbn [map fst take]. rewrite neutral_mood_no_hint. reflexivity.
Qed.

End MoodFallback.

(** The witness of X15: the mood model fails on a readable image. *)
Lemma mood_failure_gives_neutral_prompt_witness :
  fst (ImageAnalyzer.process
         (collab := Outage.collaborators (fun _ => true) (Ok tt) (Ok "a forest")
                      (Raise (OtherException "connection reset")) 0 Scenario.tone)
         "photo.jpg" Scenario.fresh) =
    Ok {[ "caption" := VStr "a forest";
          "primary_mood" := VStr "neutral";
          "mood_scores" := VScores [("neutral", 1%float)];
          "image_path" := VStr "photo.jpg" ]} /\
  MusicOrchestrator._create_intelligent_prompt "a forest" "neutral" [("neutral", 1%float)] =
    Ok "A neutral piece of music for a forest".
Proof.
  apply (mood_failure_gives_neutral_prompt
           (collab := Outage.collaborators (fun _ => true) (Ok tt) (Ok "a forest")
                        (Raise (OtherException "connection reset")) 0 Scenario.tone)
           "photo.jpg" Scenario.fresh
           (mkStore 0%nat true false false []) (mkStore 0%nat true true false [])
           (mkStore 0%nat true true false []) "a forest"
           (OtherException "connection reset") 0%nat).
  - reflexivity.
  - reflexivity.
  - reflexivity.
  - reflexivity.
Defined.

(** ** The order of the genre rules *)

Section RuleOrder.
Import MusicOrchestrator Composer.

Lemma first_match_firing (rules : list (list string * list string * string))
    (caption_lower mood_lower : string) :
  first_match rules caption_lower mood_lower =
  match firing_rules rules caption_lower mood_lower with
  | [] => ""
  | rule :: _ => snd rule
  end.
Proof.
  induction rules as [|rule rest IH]; [reflexivity|].
  cbn [first_match firing_rules List.filter].
  destruct (rule_fires rule caption_lower mood_lower); [reflexivity | exact IH].
Qed.

Lemma firing_rules_permutation (rules rules' : list (list string * list string * string))
    (caption_lower mood_lower : string) :
  Permutation rules rules' ->
  Permutation (firing_rules rules caption_lower mood_lower)
              (firing_rules rules' caption_lower mood_lower).
Proof.
  unfold firing_rules. induction 1 as [|x l l' Hp IH|x y l|l l' l'' H1 IH1 H2 IH2].
  - constructor.
  - cbn [List.filter]. destruct (rule_fires x _ _); [now constructor | exact IH].
  - cbn [List.filter]. destruct (rule_fires x _ _), (rule_fires y _ _);
      try reflexivity. constructor.
  - etransitivity; eassumption.
Qed.

(** The mood families of the six rules are pairwise disjoint, so that for
    every caption and mood at most one rule fires. *)
Lemma at_most_one_rule_fires (caption_lower mood_lower : string) :
  (length (firing_rules genre_rules caption_lower mood_lower) <= 1)%nat.
Proof.
  unfold firing_rules, genre_rules.
  cbn [List.filter rule_fires PyStr.mem existsb].
  generalize (any_word_in nature_words caption_lower),
             (any_word_in urban_words caption_lower),
             (any_word_in people_words caption_lower).
  intros n u p.
  repeat match goal with
         | |- context [String.eqb mood_lower ?x] =>
             destruct (String.eqb_spec mood_lower x) as [->|?];
             [destruct n, u, p; cbn; lia |]
         end.
  destruct n, u, p; cbn; lia.
Qed.

(** X16: the order of the six genre rules never decides the hint: at most
    one rule fires for a caption and a mood, because the mood families are
    pairwise disjoint, and a table with the same rules in any other order
    gives the hint [_get_genre_hint] gives. *)
Theorem genre_rule_order_immaterial
    (rules : list (list string * list string * string)) (caption mood : string) :
  Permutation genre_rules rules ->
  (length (firing_rules genre_rules (PyStr.lower caption) (PyStr.lower mood)) <= 1)%nat /\
  first_match rules (PyStr.lower caption) (PyStr.lower mood) =
    _get_genre_hint caption mood.
Proof.
  intros Hperm.
  pose proof (at_most_one_rule_fires (PyStr.lower caption) (PyStr.lower mood)) as Hone.
  split; [exact Hone|].
  rewrite genre_hint_is_first_match, !first_match_firing.
  apply (firing_rules_permutation _ _ (PyStr.lower caption) (PyStr.lower mood)) in Hperm.
  destruct (firing_rules genre_rules (PyStr.lower caption) (PyStr.lower mood))
    as [|r [|r' rest]].
  - apply Permutation_nil in Hperm. now rewrite Hperm.
  - apply Permutation_length_1_inv in Hperm. now rewrite Hperm.
  - cbn in Hone. lia.
Qed.

End RuleOrder.

(** The witness of X16: the table read from its last rule to its first. *)
Lemma genre_rule_order_immaterial_witness :
  (length (firing_rules Composer.genre_rules (PyStr.lower "A Forest at dawn")
             (PyStr.lower "Serene")) <= 1)%nat /\
  Composer.first_match (rev Composer.genre_rules) (PyStr.lower "A Forest at dawn")
    (PyStr.lower "Serene") =
  MusicOrchestrator._get_genre_hint "A Forest at dawn" "Serene".
Proof.
  apply (genre_rule_order_immaterial (rev Composer.genre_rules)
           "A Forest at dawn" "Serene").
  apply Permutation_rev.
Defined.

(** ** Silent waveforms of every length *)

Section SilentWaveforms.

Lemma max_of_zeros (n : nat) :
  Numpy.max (Numpy.abs (repeat 0%float (S n))) = Ok 0%float.
Proof.
  unfold Numpy.max, Numpy.abs. cbn [repeat map].
  change (PrimFloat.abs 0) with 0%float. f_equal.
  induction n as [|n IH]; [reflexivity|].
  cbn [repeat map fold_left]. change (PrimFloat.abs 0) with 0%float.
  change (Numpy.maximum 0 0) with 0%float. exact IH.
Qed.

Lemma divide_zeros_by_zero (n : nat) :
  Numpy.divide (repeat 0%float n) 0%float = repeat PrimFloat.nan n.
Proof.
  unfold Numpy.divide. induction n as [|n IH]; [reflexivity|].
  cbn [repeat map]. rewrite IH. reflexivity.
Qed.

(** X17: for a silent waveform of any positive length, the line that
    prepares the audio for writing yields a waveform of NaN samples, none
    of them between -1 and 1, while the guarded [normalize_audio] returns
    the silent waveform as it is. *)
Theorem silent_waveform_of_any_length (n : nat) :
  SonifierService.audio_normalized (repeat 0%float (S n)) =
    Ok (repeat PrimFloat.nan (S n)) /\
  existsb in_unit_range (repeat PrimFloat.nan (S n)) = false /\
  MusicGenerator.normalize_audio (repeat 0%float (S n)) = Ok (repeat 0%float (S n)).
Proof.
  split; [|split].
  - unfold SonifierService.audio_normalized.
    rewrite max_of_zeros, divide_zeros_by_zero. reflexivity.
  - generalize (S n). intros k. induction k as [|k IH]; [reflexivity|].
    cbn [repeat existsb]. rewrite IH. reflexivity.
  - unfold MusicGenerator.normalize_audio. rewrite max_of_zeros. reflexivity.
Qed.

(** X18: both normalisations raise [ValueError] on an empty waveform, and
    on every other waveform they return a waveform of the same length. *)
Theorem normalisation_length (audio_array : list float) :
  match audio_array with
  | [] =>
      (exists msg, SonifierService.audio_normalized audio_array = Raise (ValueError msg)) /\
      (exists msg, MusicGenerator.normalize_audio audio_array = Raise (ValueError msg))
  | _ :: _ =>
      (exists written,
         SonifierService.audio_normalized audio_array = Ok written /\
         length written = length audio_array) /\
      (exists normalized,
         MusicGenerator.normalize_audio audio_array = Ok normalized /\
         length normalized = length audio_array)
  end.
Proof.
  destruct audio_array as [|x rest].
  - split; eexists; reflexivity.
  - unfold SonifierService.audio_normalized, MusicGenerator.normalize_audio.
    cbn [Numpy.abs map Numpy.max].
    split.
    + eexists. split; [reflexivity|]. unfold Numpy.divide. now rewrite length_map.
    + destruct (PrimFloat.ltb 0 _); eexists; (split; [reflexivity|]);
        [unfold Numpy.divide; now rewrite length_map | reflexivity].
Qed.

End SilentWaveforms.

(** ** The HTTP service *)

Section ApiFacts.
Context {W : Type} {collab : Collaborators W} {fs : Api.FileSystem W}.

(** The entries of the merged record the service reads. *)
Lemma process_image_record (image_path : string) (duration : option Z) (s : store W)
    (final_result : gmap string value) :
  fst (SemanticSonifier.process_image image_path duration s) = Ok final_result ->
  exists caption primary_mood mood_scores prompt audio_array,
    MusicOrchestrator._create_intelligent_prompt caption primary_mood mood_scores =
      Ok prompt /\
    final_result !! "audio_array" = Some (VAudio audio_array) /\
    final_result !! "sample_rate" = Some (VInt 32000) /\
    final_result !! "caption" = Some (VStr caption) /\
    final_result !! "primary_mood" = Some (VStr primary_mood) /\
    final_result !! "prompt_used" = Some (VStr prompt) /\
    final_result !! "duration_seconds" =
      Some (VRatio (inject_Z (Z.of_nat (length audio_array)) / inject_Z 32000)).
Proof.
  intros Hok.
  destruct (process_image_cases image_path duration s)
    as [(e & Hr & _) | (analysis & s1 & _ & Hana & _ & _ & Hfst)]; [congruence|].
  rewrite Hfst in Hok.
  destruct (fst (MusicOrchestrator.process analysis _ s1)) as [music|e] eqn:Hmusic;
    [|discriminate].
  injection Hok as <-.
  apply image_analyzer_result in Hana as (caption & mood & scores & ->).
  apply orchestrator_result in Hmusic
    as (c & m & sc & p & audio & Hc & Hm & Hs & Hp & ->).
  rewrite lookup_insert_eq in Hc. injection Hc as <-.
  rewrite lookup_insert_ne, lookup_insert_eq in Hm by discriminate. injection Hm as <-.
  rewrite lookup_insert_ne, lookup_insert_ne, lookup_insert_eq in Hs by discriminate.
  injection Hs as <-.
  exists caption, mood, scores, p, audio.
  split; [exact Hp|]. repeat split.
Qed.

(** The first call of a run of the pipeline works with the effective
    duration, and a run that returns has called the audio model. *)
Lemma process_image_first_call (image_path : string) (duration : option Z) (s : store W) :
  exists calls : list call,
    synth_calls (snd (SemanticSonifier.process_image image_path duration s)) =
      (synth_calls s ++ calls)%list /\
    (forall c rest, calls = c :: rest -> call_duration c = effective_duration duration) /\
    (forall final_result,
       fst (SemanticSonifier.process_image image_path duration s) = Ok final_result ->
       calls <> []).
Proof.
  destruct (process_image_cases image_path duration s)
    as [(e & Hr & Hc) | (analysis & s1 & _ & _ & Hs1 & Hsnd & Hfst)].
  { exists []. rewrite Hc, app_nil_r. repeat split; intros; congruence. }
  rewrite Hsnd, Hfst.
  destruct (orchestrator_process_cases analysis
              (Some (py_or duration (default_duration (audio config)))) s1)
    as [(e & Hr & Hc) | (caption & mood & scores & prompt & s2 & _ & _ & _ & _
                         & Hs2 & Hsnd' & Hfst')].
  { exists []. rewrite Hc, Hs1, app_nil_r, Hr. repeat split; intros; congruence. }
  rewrite Hsnd', Hfst'.
  destruct (process_attempts
              ("A " +:+ mood +:+ " piece of music, " +:+ prompt)
              (Some (py_or duration (default_duration (audio config)))) s2)
    as (calls & Hcalls & Hrun).
  rewrite validated_duration_effective in Hrun.
  exists calls. rewrite Hcalls, Hs2, Hs1.
  destruct (attempts_head _ _ _ _ Hrun) as (c' & rest' & -> & Hd & _).
  split; [reflexivity|]. split.
  - intros c rest [= <- <-]. exact Hd.
  - intros final _. discriminate.
Qed.

Lemma io_sonifier {A} (op : W -> result A * W) (s : Api.service W) :
  synth_calls (Api.sonifier (snd (Api.io op s))) = synth_calls (Api.sonifier s) /\
  handles (Api.sonifier (snd (Api.io op s))) = handles (Api.sonifier s) /\
  Api.events (snd (Api.io op s)) = Api.events s.
Proof. unfold Api.io. destruct (op (ext (Api.sonifier s))). cbn. auto. Qed.

(** What the body of the service does, by its outcome. *)
Lemma process_image_body_outcome (image_file : Api.UploadFile) (duration : Z)
    (s : Api.service W) :
  exists calls : list call,
    synth_calls (Api.sonifier (snd (Api.process_image_body image_file duration s))) =
      (synth_calls (Api.sonifier s) ++ calls)%list /\
    (forall c rest, calls = c :: rest ->
                    call_duration c = effective_duration (Some duration)) /\
    match fst (Api.process_image_body image_file duration s) with
    | Ok answer =>
        calls <> [] /\
        exists caption primary_mood mood_scores prompt audio_array written,
          MusicOrchestrator._create_intelligent_prompt caption primary_mood mood_scores =
            Ok prompt /\
          SonifierService.audio_normalized audio_array = Ok written /\
          Api.events (snd (Api.process_image_body image_file duration s)) =
            (Api.events s ++
             [Api.Uploaded
                (Api.upload_path (fst (Api.uuid4 (ext (Api.sonifier s))) +:+ "_" +:+
                                  Api.filename image_file));
              Api.WavWritten
                (Api.output_path (Api.audio_name (fst (Api.uuid4 (ext (Api.sonifier s))))))
                (VInt 32000) written;
              Api.Unlinked
                (Api.upload_path (fst (Api.uuid4 (ext (Api.sonifier s))) +:+ "_" +:+
                                  Api.filename image_file))])%list /\
          answer =
            {[ "success" := Api.JBool true;
               "caption" := Api.JValue (VStr caption);
               "mood" := Api.JValue (VStr primary_mood);
               "prompt" := Api.JValue (VStr prompt);
               "duration" :=
                 Api.JValue (VRatio (inject_Z (Z.of_nat (length audio_array)) /
                                     inject_Z 32000));
               "audio_file" :=
                 Api.JStr (Api.audio_name (fst (Api.uuid4 (ext (Api.sonifier s)))));
               "file_id" := Api.JStr (fst (Api.uuid4 (ext (Api.sonifier s)))) ]}
    | Raise e =>
        exists kept,
          Api.events (snd (Api.process_image_body image_file duration s)) =
            (Api.events s ++ kept)%list /\
          (kept = [] \/
           kept = [Api.Uploaded
                     (Api.upload_path (fst (Api.uuid4 (ext (Api.sonifier s))) +:+ "_" +:+
                                       Api.filename image_file))] \/
           exists rate written,
             kept = [Api.Uploaded
                       (Api.upload_path (fst (Api.uuid4 (ext (Api.sonifier s))) +:+ "_" +:+
                                         Api.filename image_file));
                     Api.WavWritten
                       (Api.output_path
                          (Api.audio_name (fst (Api.uuid4 (ext (Api.sonifier s))))))
                       rate written])
    end.
Proof.
  unfold Api.process_image_body.
  destruct (Api.uuid4 (ext (Api.sonifier s))) as [file_id w0]. cbn [fst].
  set (s0 := Api.mkService _ (Api.events s)).
  assert (Hs0 : synth_calls (Api.sonifier s0) = synth_calls (Api.sonifier s) /\
                Api.events s0 = Api.events s) by (split; reflexivity).
  clearbody s0. destruct Hs0 as (Hc0 & He0).
  set (image_path := Api.upload_path (file_id +:+ "_" +:+ Api.filename image_file)).
  set (audio_path := Api.output_path (Api.audio_name file_id)).
  destruct (io_sonifier (Api.save_upload image_path image_file) s0) as (Hc1 & _ & He1).
  destruct (Api.io (Api.save_upload image_path image_file) s0) as [[[]|e] s1];
    cbn [fst snd] in *.
  2:{ exists []. rewrite app_nil_r. split; [congruence|]. split; [discriminate|].
      exists []. rewrite app_nil_r. split; [congruence | auto]. }
  unfold Api.record_event. cbn [Api.sonifier Api.events].
  destruct (process_image_first_call image_path (Some duration) (Api.sonifier s1))
    as (calls & Hcalls & Hfirst & Hnonempty).
  pose proof (process_image_record image_path (Some duration) (Api.sonifier s1)) as Hrec.
  exists calls.
  destruct (SemanticSonifier.process_image image_path (Some duration) (Api.sonifier s1))
    as [[final|e] st]; cbn [fst snd Api.sonifier Api.events] in *.
  2:{ split; [congruence|]. split; [exact Hfirst|].
      eexists. split; [rewrite He1, He0; reflexivity | auto]. }
  destruct (Hrec final eq_refl)
    as (caption & mood & scores & prompt & audio & Hp & Ha & Hr & Hcap & Hm & Hpu & Hd).
  unfold Api.item. rewrite Ha.
  destruct (SonifierService.audio_normalized audio) as [written|e] eqn:Hnorm.
  2:{ cbn [fst snd Api.sonifier Api.events].
      split; [congruence|]. split; [exact Hfirst|].
      eexists. split; [rewrite He1, He0; reflexivity | auto]. }
  rewrite Hr.
  set (s2 := Api.mkService st _).
  destruct (io_sonifier (Api.wavfile_write audio_path (VInt 32000) written) s2)
    as (Hc3 & _ & He3).
  destruct (Api.io (Api.wavfile_write audio_path (VInt 32000) written) s2)
    as [[[]|e] s3]; subst s2; cbn [fst snd Api.sonifier Api.events] in *.
  2:{ split; [congruence|]. split; [exact Hfirst|].
      eexists. split; [rewrite He3, He1, He0; reflexivity | auto]. }
  set (s4 := Api.mkService (Api.sonifier s3) _).
  destruct (io_sonifier (Api.unlink image_path) s4) as (Hc5 & _ & He5).
  destruct (Api.io (Api.unlink image_path) s4) as [[[]|e] s5];
    subst s4; cbn [fst snd Api.sonifier Api.events] in *.
  2:{ split; [congruence|]. split; [exact Hfirst|].
      eexists. split; [rewrite He5, He3, He1, He0, <- app_assoc; reflexivity|].
      right. right. eauto. }
  rewrite Hcap, Hm, Hpu, Hd. cbn [fst snd Api.sonifier Api.events].
  split; [congruence|]. split; [exact Hfirst|].
  split; [exact (Hnonempty final eq_refl)|].
  exists caption, mood, scores, prompt, audio, written.
  split; [exact Hp|]. split; [exact Hnorm|].
  split; [rewrite He5, He3, He1, He0, <- !app_assoc; reflexivity | reflexivity].
Qed.

(** X19: the endpoint answers a request whose content type is not JPEG or
    PNG, or whose duration lies outside 1..30, with status 400 and does
    nothing else: nothing is uploaded, no model is loaded or called; the
    content type is checked first. *)
Theorem endpoint_rejects_without_effect
    (image : Api.UploadFile) (duration : Z) (s : Api.service W) :
  PyStr.mem (Api.content_type image) ["image/jpeg"; "image/png"; "image/jpg"] = false \/
  duration < 1 \/ 30 < duration ->
  Api.process_image image duration s =
  (Api.HTTPException 400
     (if PyStr.mem (Api.content_type image) ["image/jpeg"; "image/png"; "image/jpg"]
      then Api.DurationOutOfRange
      else Api.FileTypeNotSupported (Api.content_type image)),
   s).
Proof.
  intros Hbad. unfold Api.process_image.
  destruct (PyStr.mem (Api.content_type image) _); cbn [negb]; [|reflexivity].
  destruct Hbad as [Hct | Hd]; [discriminate|].
  destruct (Z.ltb_spec duration 1), (Z.gtb_spec duration 30); cbn [orb];
    try reflexivity; lia.
Qed.

(** X20: for a request the endpoint accepts, the audio model is first
    called with exactly the requested duration: inside 1..30 neither the
    default nor the cap of the pipeline changes it; an answer is returned
    only after the model was called. *)
Theorem endpoint_duration_used_as_requested
    (image : Api.UploadFile) (duration : Z) (s : Api.service W) :
  PyStr.mem (Api.content_type image) ["image/jpeg"; "image/png"; "image/jpg"] = true ->
  1 <= duration <= 30 ->
  exists calls : list call,
    synth_calls (Api.sonifier (snd (Api.process_image image duration s))) =
      (synth_calls (Api.sonifier s) ++ calls)%list /\
    (forall c rest, calls = c :: rest -> call_duration c = duration) /\
    (forall answer,
       fst (Api.process_image image duration s) = Api.Returned answer -> calls <> []).
Proof.
  intros Hct Hrange. unfold Api.process_image. rewrite Hct. cbn [negb].
  destruct (Z.ltb_spec duration 1); [lia|].
  destruct (Z.gtb_spec duration 30); [lia|]. cbn [orb].
  unfold Api.SonifierService_process_image.
  destruct (process_image_body_outcome image duration s) as (calls & Hcalls & Hfirst & Hout).
  exists calls.
  assert (Heff : effective_duration (Some duration) = duration).
  { unfold effective_duration.
    destruct (Z.eqb_spec duration 0); [lia|]. destruct (Z.ltb_spec 30 duration); lia. }
  rewrite Heff in Hfirst.
  destruct (Api.process_image_body image duration s) as [[answer|e] s'];
    cbn [fst snd] in *.
  - split; [exact Hcalls|]. split; [exact Hfirst|]. intros _ _. apply Hout.
  - split; [exact Hcalls|]. split; [exact Hfirst|]. discriminate.
Qed.

(** X21: whatever goes wrong while the service handles an upload, the
    client gets status 500, and the uploaded image is not removed: the
    file operations of the failed request hold no removal. The audio file
    is written only when the pipeline and the normalisation succeeded. *)
Theorem service_failure_leaves_upload
    (image_file : Api.UploadFile) (duration : Z) (s : Api.service W)
    (status_code : Z) (detail_ : Api.detail) :
  fst (Api.SonifierService_process_image image_file duration s) =
    Api.HTTPException status_code detail_ ->
  status_code = 500 /\
  (exists e, detail_ = Api.ProcessingFailed e) /\
  exists kept,
    Api.events (snd (Api.SonifierService_process_image image_file duration s)) =
      (Api.events s ++ kept)%list /\
    (forall image_path, ~ In (Api.Unlinked image_path) kept) /\
    (length kept <= 2)%nat.
Proof.
  unfold Api.SonifierService_process_image.
  destruct (process_image_body_outcome image_file duration s) as (calls & _ & _ & Hout).
  destruct (Api.process_image_body image_file duration s) as [[answer|e] s'];
    cbn [fst snd] in *; [discriminate|].
  intros [= <- <-]. split; [reflexivity|]. split; [eauto|].
  destruct Hout as (kept & Hev & Hkept). exists kept. split; [exact Hev|].
  destruct Hkept as [-> | [-> | (rate & written & ->)]]; split; cbn; try lia;
    intros p; intuition discriminate.
Qed.

(** X22: when the service answers a request, it has saved the upload,
    written the normalised audio at the sample rate of the configuration
    and removed the upload, in this order and nothing else; the answer
    reports the caption, the mood, the composed prompt and the duration of
    the audio, and its [file_id] is the one under which [get_audio] looks
    for the audio file that was written. *)
Theorem service_success_round_trip
    (image_file : Api.UploadFile) (duration : Z) (s : Api.service W)
    (answer : gmap string Api.json) :
  fst (Api.SonifierService_process_image image_file duration s) = Api.Returned answer ->
  exists file_id caption primary_mood mood_scores prompt audio_array written,
    file_id = fst (Api.uuid4 (ext (Api.sonifier s))) /\
    MusicOrchestrator._create_intelligent_prompt caption primary_mood mood_scores =
      Ok prompt /\
    SonifierService.audio_normalized audio_array = Ok written /\
    Api.events (snd (Api.SonifierService_process_image image_file duration s)) =
      (Api.events s ++
       [Api.Uploaded (Api.upload_path (file_id +:+ "_" +:+ Api.filename image_file));
        Api.WavWritten (Api.output_path (Api.audio_name file_id)) (VInt 32000) written;
        Api.Unlinked (Api.upload_path (file_id +:+ "_" +:+ Api.filename image_file))])%list /\
    answer !! "success" = Some (Api.JBool true) /\
    answer !! "file_id" = Some (Api.JStr file_id) /\
    answer !! "audio_file" = Some (Api.JStr (Api.audio_name file_id)) /\
    answer !! "caption" = Some (Api.JValue (VStr caption)) /\
    answer !! "mood" = Some (Api.JValue (VStr primary_mood)) /\
    answer !! "prompt" = Some (Api.JValue (VStr prompt)) /\
    answer !! "duration" =
      Some (Api.JValue (VRatio (inject_Z (Z.of_nat (length audio_array)) /
                                inject_Z 32000))) /\
    (forall later : Api.service W,
       path_exists (Api.output_path (Api.audio_name file_id))
                   (ext (Api.sonifier later)) = true ->
       exists served,
         Api.get_audio file_id later = Api.Returned served /\
         Api.path served = Api.output_path (Api.audio_name file_id)) /\
    (forall later : Api.service W,
       path_exists (Api.output_path (Api.audio_name file_id))
                   (ext (Api.sonifier later)) = false ->
       Api.get_audio file_id later = Api.HTTPException 404 Api.AudioFileNotFound).
Proof.
  unfold Api.SonifierService_process_image.
  destruct (process_image_body_outcome image_file duration s) as (calls & _ & _ & Hout).
  destruct (Api.process_image_body image_file duration s) as [[answer'|e] s'];
    cbn [fst snd] in *; [|discriminate].
  intros [= <-].
  destruct Hout as (_ & caption & mood & scores & prompt & audio & written
                    & Hp & Hnorm & Hev & ->).
  exists (fst (Api.uuid4 (ext (Api.sonifier s)))), caption, mood, scores, prompt,
         audio, written.
  split; [reflexivity|]. split; [exact Hp|]. split; [exact Hnorm|].
  split; [exact Hev|].
  repeat (split; [reflexivity|]).
  split.
  - intros later Hexists. unfold Api.get_audio. rewrite Hexists. cbn [negb].
    eexists. split; reflexivity.
  - intros later Hmissing. unfold Api.get_audio. rewrite Hmissing. reflexivity.
Qed.

End ApiFacts.

(** The witness of X19: a GIF is turned away. *)
Lemma endpoint_rejects_without_effect_witness :
  Api.process_image
    (collab := Outage.collaborators (fun _ => true) (Ok tt) (Ok "a forest")
                 (Ok Scenario.forest_moods) 0 Scenario.tone)
    (fs := Outage.files (Ok tt) (Ok tt) (Ok tt))
    {| Api.filename := "clip.gif"; Api.content_type := "image/gif" |} 10 Outage.idle =
  (Api.HTTPException 400 (Api.FileTypeNotSupported "image/gif"), Outage.idle).
Proof.
  apply (endpoint_rejects_without_effect
           (collab := Outage.collaborators (fun _ => true) (Ok tt) (Ok "a forest")
                        (Ok Scenario.forest_moods) 0 Scenario.tone)
           (fs := Outage.files (Ok tt) (Ok tt) (Ok tt))
           {| Api.filename := "clip.gif"; Api.content_type := "image/gif" |} 10
           Outage.idle).
  left. reflexivity.
Defined.

(** The witness of X20: twelve seconds for a JPEG. *)
Lemma endpoint_duration_used_as_requested_witness :
  exists calls : list call,
    synth_calls
      (Api.sonifier
         (snd (Api.process_image
                 (collab := Outage.collaborators (fun _ => true) (Ok tt) (Ok "a forest")
                              (Ok Scenario.forest_moods) 0 Scenario.tone)
                 (fs := Outage.files (Ok tt) (Ok tt) (Ok tt))
                 Outage.jpeg 12 Outage.idle))) = ([] ++ calls)%list /\
    length calls = 1%nat /\
    (forall c rest, calls = c :: rest -> call_duration c = 12).
Proof.
  destruct (endpoint_duration_used_as_requested
              (collab := Outage.collaborators (fun _ => true) (Ok tt) (Ok "a forest")
                           (Ok Scenario.forest_moods) 0 Scenario.tone)
              (fs := Outage.files (Ok tt) (Ok tt) (Ok tt))
              Outage.jpeg 12 Outage.idle)
    as (calls & Hcalls & Hfirst & _).
  - reflexivity.
  - lia.
  - exists calls. split; [exact Hcalls|]. split; [|exact Hfirst].
    vm_compute in Hcalls. subst calls. reflexivity.
Defined.

(** The witness of X21: the audio file cannot be written. *)
Lemma service_failure_leaves_upload_witness :
  exists kept,
    Api.events
      (snd (Api.SonifierService_process_image
              (collab := Outage.collaborators (fun _ => true) (Ok tt) (Ok "a forest")
                           (Ok Scenario.forest_moods) 0 Scenario.tone)
              (fs := Outage.files (Ok tt) (Raise (OtherException "disk full")) (Ok tt))
              Outage.jpeg 12 Outage.idle)) = ([] ++ kept)%list /\
    kept = [Api.Uploaded "uploads/3f2a_photo.jpg"] /\
    (forall image_path, ~ In (Api.Unlinked image_path) kept).
Proof.
  destruct (service_failure_leaves_upload
              (collab := Outage.collaborators (fun _ => true) (Ok tt) (Ok "a forest")
                           (Ok Scenario.forest_moods) 0 Scenario.tone)
              (fs := Outage.files (Ok tt) (Raise (OtherException "disk full")) (Ok tt))
              Outage.jpeg 12 Outage.idle 500
              (Api.ProcessingFailed (OtherException "disk full")))
    as (_ & _ & kept & Hev & Hno & _).
  - vm_compute. reflexivity.
  - exists kept. split; [exact Hev|]. split; [|exact Hno].
    vm_compute in Hev. subst kept. reflexivity.
Defined.

(** The witness of X22: a request that is answered. *)
Lemma service_success_round_trip_witness :
  exists answer,
    fst (Api.SonifierService_process_image
           (collab := Outage.collaborators (fun _ => true) (Ok tt) (Ok "a forest")
                        (Ok Scenario.forest_moods) 0 Scenario.tone)
           (fs := Outage.files (Ok tt) (Ok tt) (Ok tt))
           Outage.jpeg 12 Outage.idle) = Api.Returned answer /\
    answer !! "file_id" = Some (Api.JStr "3f2a") /\
    answer !! "audio_file" = Some (Api.JStr "3f2a_generated.wav").
Proof.
  pose (world := Outage.collaborators (fun _ => true) (Ok tt) (Ok "a forest")
                   (Ok Scenario.forest_moods) 0 Scenario.tone).
  pose (disk := Outage.files (Ok tt) (Ok tt) (Ok tt)).
  destruct (fst (Api.SonifierService_process_image (collab := world) (fs := disk)
                   Outage.jpeg 12 Outage.idle)) as [answer|code det] eqn:Hrun;
    [|vm_compute in Hrun; discriminate].
  exists answer. split; [exact Hrun|].
  destruct (service_success_round_trip (collab := world) (fs := disk)
              Outage.jpeg 12 Outage.idle answer Hrun)
    as (file_id & caption & mood & scores & prompt & audio & written
        & -> & _ & _ & _ & _ & Hid & Hfile & _).
  split; [exact Hid | exact Hfile].
Defined.

(** ** The configuration file *)

Section ConfigFacts.
Context {W : Type} {yaml_files : ConfigFile.YamlFiles W}.
Import ConfigFile.

Lemma init_without_keywords : __init__ ∅ = Done ProjectConfig_defaults.
Proof. reflexivity. Qed.

Lemma config_dict_done (config_ : ProjectConfig) (document : yaml) :
  config_dict config_ = Done document ->
  exists m a,
    models config_ = Obj m /\ audio config_ = Obj a /\
    document =
      YMap {[ "project_name" := project_name config_;
              "version" := version config_;
              "models" := YMap {[ "blip2_model" := YStr (blip2_model m);
                                  "clip_model" := YStr (clip_model m);
                                  "musicgen_model" := YStr (musicgen_model m);
                                  "device" := YStr (device m);
                                  "torch_dtype" := YStr (torch_dtype m);
                                  "mood_tags" := YList (map YStr (mood_tags m)) ]};
              "audio" := YMap {[ "sample_rate" := YInt (sample_rate a);
                                 "default_duration" := YInt (default_duration a);
                                 "max_duration" := YInt (max_duration a);
                                 "output_format" := YStr (output_format a) ]} ]}.
Proof.
  unfold config_dict.
  destruct (models config_) as [m|y]; [|discriminate].
  destruct (audio config_) as [a|y]; [|discriminate].
  cbn. intros [= <-]. exists m, a. auto.
Qed.

Lemma config_dict_failed (config_ : ProjectConfig) (e : error) :
  config_dict config_ = Failed e ->
  (exists y, models config_ = Doc y /\ e = AttributeError (type_name y) "blip2_model") \/
  (exists y, audio config_ = Doc y /\ e = AttributeError (type_name y) "sample_rate").
Proof.
  unfold config_dict.
  destruct (models config_) as [m|y]; [|cbn; intros [= <-]; eauto].
  destruct (audio config_) as [a|y]; [discriminate|cbn; intros [= <-]; eauto].
Qed.

(** The configuration the constructor builds from a saved document. *)
Lemma cls_of_saved (name version_ : yaml) (model_entries audio_entries : gmap string yaml) :
  cls (YMap {[ "project_name" := name; "version" := version_;
               "models" := YMap model_entries; "audio" := YMap audio_entries ]}) =
  Done {| project_name := name; version := version_;
          models := Doc (YMap model_entries); audio := Doc (YMap audio_entries);
          evaluation := Obj EvaluationConfig_defaults |}.
Proof.
  unfold cls, __init__.
  rewrite bool_decide_eq_true_2.
  - reflexivity.
  - rewrite !dom_insert_L, dom_singleton_L. unfold fields.
    intros k. rewrite !elem_of_union, !elem_of_singleton, elem_of_list_to_set.
    rewrite !elem_of_cons. tauto.
Qed.

Lemma load_of_saved (config_path : string) (s s1 : state W) (document : yaml) (w2 : W) :
  config_dict (global_config s) = Done document ->
  os_path_exists config_path (disk s1) = true ->
  safe_load config_path (disk s1) = (Ok document, w2) ->
  exists m a,
    models (global_config s) = Obj m /\ audio (global_config s) = Obj a /\
    load_config config_path s1 =
    (Done {| project_name := project_name (global_config s);
             version := version (global_config s);
             models := Doc (YMap {[ "blip2_model" := YStr (blip2_model m);
                                    "clip_model" := YStr (clip_model m);
                                    "musicgen_model" := YStr (musicgen_model m);
                                    "device" := YStr (device m);
                                    "torch_dtype" := YStr (torch_dtype m);
                                    "mood_tags" := YList (map YStr (mood_tags m)) ]});
             audio := Doc (YMap {[ "sample_rate" := YInt (sample_rate a);
                                   "default_duration" := YInt (default_duration a);
                                   "max_duration" := YInt (max_duration a);
                                   "output_format" := YStr (output_format a) ]});
             evaluation := Obj EvaluationConfig_defaults |},
     mkState {| project_name := project_name (global_config s);
                version := version (global_config s);
                models := Doc (YMap {[ "blip2_model" := YStr (blip2_model m);
                                       "clip_model" := YStr (clip_model m);
                                       "musicgen_model" := YStr (musicgen_model m);
                                       "device" := YStr (device m);
                                       "torch_dtype" := YStr (torch_dtype m);
                                       "mood_tags" := YList (map YStr (mood_tags m)) ]});
                audio := Doc (YMap {[ "sample_rate" := YInt (sample_rate a);
                                      "default_duration" := YInt (default_duration a);
                                      "max_duration" := YInt (max_duration a);
                                      "output_format" := YStr (output_format a) ]});
                evaluation := Obj EvaluationConfig_defaults |} w2).
Proof.
  intros Hdict Hexists Hread.
  destruct (config_dict_done _ _ Hdict) as (m & a & Hm & Ha & ->).
  exists m, a. split; [exact Hm|]. split; [exact Ha|].
  unfold load_config, from_yaml. rewrite Hexists, Hread, cls_of_saved. reflexivity.
Qed.

(** X23: saving the configuration and loading the file again does not
    give the configuration back. When the file reads back as the document
    that was written, the loaded configuration keeps the project name and
    the version, but its [models] and [audio] are the plain mappings of the
    document, not a [ModelConfig] and an [AudioConfig]: the values are
    there as entries, and reading them as attributes, as the generator does
    with [config.audio.max_duration], raises [AttributeError]. The
    evaluation section is the default one. *)
Theorem saved_configuration_loads_as_mappings
    (config_path : string) (s s1 : state W) (document : yaml) (w2 : W) :
  save_config config_path s = (Done tt, s1) ->
  config_dict (global_config s) = Done document ->
  os_path_exists config_path (disk s1) = true ->
  safe_load config_path (disk s1) = (Ok document, w2) ->
  exists m a model_entries audio_entries loaded,
    models (global_config s) = Obj m /\
    audio (global_config s) = Obj a /\
    load_config config_path s1 = (Done loaded, mkState loaded w2) /\
    project_name loaded = project_name (global_config s) /\
    version loaded = version (global_config s) /\
    models loaded = Doc (YMap model_entries) /\
    model_entries !! "musicgen_model" = Some (YStr (musicgen_model m)) /\
    model_entries !! "device" = Some (YStr (device m)) /\
    model_entries !! "mood_tags" = Some (YList (map YStr (mood_tags m))) /\
    audio loaded = Doc (YMap audio_entries) /\
    audio_entries !! "sample_rate" = Some (YInt (sample_rate a)) /\
    audio_entries !! "max_duration" = Some (YInt (max_duration a)) /\
    getattr (audio loaded) max_duration "max_duration" =
      Failed (AttributeError "dict" "max_duration") /\
    getattr (models loaded) device "device" = Failed (AttributeError "dict" "device") /\
    evaluation loaded = Obj EvaluationConfig_defaults /\
    loaded <> global_config s.
Proof.
  intros _ Hdict Hexists Hread.
  destruct (load_of_saved config_path s s1 document w2 Hdict Hexists Hread)
    as (m & a & Hm & Ha & Hload).
  do 5 eexists. split; [exact Hm|]. split; [exact Ha|]. split; [exact Hload|].
  cbn [project_name version models audio evaluation getattr type_name].
  repeat (split; [reflexivity|]).
  intros Heq. rewrite <- Heq in Hm. discriminate.
Qed.

(** X24: a configuration loaded from a saved file cannot be saved again:
    [save_config] raises [AttributeError] on the first attribute it reads
    from the [models] mapping, before it opens any file. *)
Theorem reloaded_configuration_cannot_be_saved
    (config_path other_path : string) (s s1 s2 : state W) (document : yaml)
    (loaded : ProjectConfig) (w2 : W) :
  save_config config_path s = (Done tt, s1) ->
  config_dict (global_config s) = Done document ->
  os_path_exists config_path (disk s1) = true ->
  safe_load config_path (disk s1) = (Ok document, w2) ->
  load_config config_path s1 = (Done loaded, s2) ->
  save_config other_path s2 = (Failed (AttributeError "dict" "blip2_model"), s2).
Proof.
  intros _ Hdict Hexists Hread Hload.
  destruct (load_of_saved config_path s s1 document w2 Hdict Hexists Hread)
    as (m & a & _ & _ & Hload').
  rewrite Hload' in Hload. injection Hload as <- <-.
  reflexivity.
Qed.

(** X25: [load_config] on a path that does not exist replaces the global
    configuration by the defaults without touching the disk. It raises only
    for a file that exists, and then either a [TypeError] of the
    constructor or what reading the file raised, and the global
    configuration stays as it was; after a load that returned, the global
    configuration is the returned one and no section of it is [None]. *)
Theorem load_config_outcomes (config_path : string) (s : state W) :
  match fst (load_config config_path s) with
  | Done loaded =>
      global_config (snd (load_config config_path s)) = loaded /\
      models loaded <> Doc YNull /\ audio loaded <> Doc YNull /\
      evaluation loaded <> Doc YNull /\
      (os_path_exists config_path (disk s) = false ->
       loaded = ProjectConfig_defaults /\
       disk (snd (load_config config_path s)) = disk s)
  | Failed e =>
      global_config (snd (load_config config_path s)) = global_config s /\
      os_path_exists config_path (disk s) = true /\
      (e = ConstructorTypeError \/
       exists raised w, safe_load config_path (disk s) = (Raise raised, w) /\
                        e = FileError raised)
  end.
Proof.
  assert (Hpost : forall A (defaults : A) given, __post_init__ defaults given <> Doc YNull).
  { intros A defaults [[]|]; cbn; discriminate. }
  assert (Hinit : forall kwargs,
            match __init__ kwargs with
            | Done loaded => models loaded <> Doc YNull /\ audio loaded <> Doc YNull /\
                             evaluation loaded <> Doc YNull
            | Failed e => e = ConstructorTypeError
            end).
  { intros kwargs. unfold __init__.
    destruct (bool_decide _); [|reflexivity]. cbn. auto. }
  assert (Hcls : forall document,
            match cls document with
            | Done loaded => models loaded <> Doc YNull /\ audio loaded <> Doc YNull /\
                             evaluation loaded <> Doc YNull
            | Failed e => e = ConstructorTypeError
            end).
  { intros []; try reflexivity. apply Hinit. }
  unfold load_config, from_yaml.
  destruct (os_path_exists config_path (disk s)) eqn:Hexists.
  - destruct (safe_load config_path (disk s)) as [[document|raised] w] eqn:Hread.
    + specialize (Hcls document).
      destruct (cls document) as [loaded|e]; cbn [fst snd global_config].
      * destruct Hcls as (? & ? & ?). split; [reflexivity|].
        do 3 (split; [assumption|]). intros [=].
      * auto.
    + cbn [fst snd global_config]. split; [reflexivity|]. split; [reflexivity|].
      right. eauto.
  - rewrite init_without_keywords. cbn [fst snd global_config disk].
    split; [reflexivity|]. do 3 (split; [discriminate|]). auto.
Qed.

End ConfigFacts.

(** The witness of X23: the default configuration saved to an empty disk
    and loaded again. *)
Lemma saved_configuration_loads_as_mappings_witness :
  exists loaded audio_entries,
    fst (ConfigFile.load_config (yaml_files := Disk.yaml_files) "config.yaml"
           (snd (ConfigFile.save_config (yaml_files := Disk.yaml_files) "config.yaml"
                   Disk.imported))) = ConfigFile.Done loaded /\
    ConfigFile.audio loaded = ConfigFile.Doc (ConfigFile.YMap audio_entries) /\
    audio_entries !! "max_duration" = Some (ConfigFile.YInt 30) /\
    ConfigFile.getattr (ConfigFile.audio loaded) max_duration "max_duration" =
      ConfigFile.Failed (ConfigFile.AttributeError "dict" "max_duration").
Proof.
  pose (saved := snd (ConfigFile.save_config (yaml_files := Disk.yaml_files)
                        "config.yaml" Disk.imported)).
  pose (document := match ConfigFile.config_dict ConfigFile.ProjectConfig_defaults with
                    | ConfigFile.Done d => d
                    | ConfigFile.Failed _ => ConfigFile.YNull
                    end).
  destruct (saved_configuration_loads_as_mappings
              (yaml_files := Disk.yaml_files) "config.yaml" Disk.imported saved
              document (ConfigFile.disk saved))
    as (m & a & model_entries & audio_entries & loaded & _ & Ha & Hload & _ & _ & _
        & _ & _ & _ & Haudio & _ & Hmax & Hattr & _).
  - reflexivity.
  - reflexivity.
  - reflexivity.
  - reflexivity.
  - exists loaded, audio_entries. fold saved. rewrite Hload.
    injection Ha as <-. auto.
Defined.

(** The witness of X24: the default configuration saved, loaded and saved
    again. *)
Lemma reloaded_configuration_cannot_be_saved_witness :
  fst (ConfigFile.save_config (yaml_files := Disk.yaml_files) "copy.yaml"
         (snd (ConfigFile.load_config (yaml_files := Disk.yaml_files) "config.yaml"
                 (snd (ConfigFile.save_config (yaml_files := Disk.yaml_files)
                         "config.yaml" Disk.imported))))) =
  ConfigFile.Failed (ConfigFile.AttributeError "dict" "blip2_model").
Proof.
  pose (saved := snd (ConfigFile.save_config (yaml_files := Disk.yaml_files)
                        "config.yaml" Disk.imported)).
  pose (document := match ConfigFile.config_dict ConfigFile.ProjectConfig_defaults with
                    | ConfigFile.Done d => d
                    | ConfigFile.Failed _ => ConfigFile.YNull
                    end).
  pose (reloaded := snd (ConfigFile.load_config (yaml_files := Disk.yaml_files)
                           "config.yaml" saved)).
  fold saved. fold reloaded.
  rewrite (reloaded_configuration_cannot_be_saved
             (yaml_files := Disk.yaml_files) "config.yaml" "copy.yaml" Disk.imported
             saved reloaded document (ConfigFile.global_config reloaded)
             (ConfigFile.disk saved)
             eq_refl eq_refl eq_refl eq_refl eq_refl).
  reflexivity.
Defined.
